(** * ecobee-influxdb: a shallow embedding of the sync program and its properties

    The development follows the two Go sources:

    - [ecobee/functions.go] (package [ecobee]): the vendor client's
      [GetThermostat], [GetThermostats], [GetThermostatSummary],
      [GetRuntimeReport], [buildEquipmentStatus] and [EquipmentStatus.Set];
    - the [main] package: [IndoorHumidityRecommendation], the closure
      [doUpdate] with its field mapping, and the planning loop of [main].

    Part I holds the definitions (a small model of the Go library calls the
    program makes, then the program itself); Part II holds the lemmas and the
    theorems about them.  Go's [int] is taken to be 64 bits wide. *)

From Stdlib Require Import ZArith Lia Ascii String List Bool.
From Stdlib Require Import SpecFloat.
From stdpp Require Import base option strings list gmap fin_maps.

Open Scope string_scope.
Open Scope Z_scope.

(* ===================================================================== *)
(** * Part I: definitions *)
(* ===================================================================== *)

(** ** Go values used throughout *)

(** A Go [error] value.  [Errorf] keeps the format string and its string
    arguments as [fmt.Errorf] receives them, [Wrapf] also the error that is
    its last argument; the other constructors are the errors the library
    calls of this program produce. *)
Inductive error : Type :=
| Errorf (format : string) (args : list string)
| Wrapf (format : string) (args : list string) (cause : error)
| TimeParseError (layout value : string)
| NumErrorSyntax (fn value : string)
| NumErrorRange (fn value : string)
| TransportError (msg : string).

(** The outcome of a Go call that returns [(T, error)]: a value with a nil
    error, a non-nil error (the value is then the nil or zero one and is not
    kept), or a run-time panic that unwinds the goroutine. *)
Inductive result (A : Type) : Type :=
| Ok (a : A)
| Err (e : error)
| Panic (msg : string).

Arguments Ok {A} a.
Arguments Err {A} e.
Arguments Panic {A} msg.

(** Sequencing: an error or a panic of the first call ends the function, as
    [if err != nil { return nil, err }] does after each call. *)
#[export] Instance result_bind : MBind result :=
  fun A B (k : A -> result B) (r : result A) =>
    match r with
    | Ok a => k a
    | Err e => Err e
    | Panic m => Panic m
    end.

#[export] Instance result_ret : MRet result := fun A a => Ok a.

(** [xs[i]] on a slice: a run-time panic when [i] is out of range. *)
Definition at_index {A : Type} (xs : list A) (i : nat) : result A :=
  match xs !! i with
  | Some x => Ok x
  | None => Panic "index out of range"
  end.

(** The bounds of [int64], and so of [int] and of [time.Duration]. *)
Definition minInt64 : Z := - 2 ^ 63.
Definition maxInt64 : Z := 2 ^ 63 - 1.

(** Two's-complement wrap-around of 64-bit signed arithmetic. *)
Definition wrap64 (z : Z) : Z := (z + 2 ^ 63) mod 2 ^ 64 - 2 ^ 63.

(** ** Package [strings] *)

(** [strings.Split(s, sep)] for a one-byte separator (the program splits on
    [","] and [":"] only).  The result is never empty: a string without the
    separator yields itself. *)
Fixpoint strings_Split (s : string) (sep : ascii) : list string :=
  match s with
  | EmptyString => [EmptyString]
  | String c s' =>
      if Ascii.eqb c sep then EmptyString :: strings_Split s' sep
      else match strings_Split s' sep with
           | x :: xs => String c x :: xs
           | [] => [String c EmptyString]
           end
  end.

(** [strings.SplitN(s, sep, 2)]: at most two pieces, the second one being the
    unsplit remainder. *)
Fixpoint strings_SplitN2 (s : string) (sep : ascii) : list string :=
  match s with
  | EmptyString => [EmptyString]
  | String c s' =>
      if Ascii.eqb c sep then [EmptyString; s']
      else match strings_SplitN2 s' sep with
           | x :: xs => String c x :: xs
           | [] => [String c EmptyString]
           end
  end.

(** [strings.Join(elems, sep)]. *)
Definition strings_Join (elems : list string) (sep : string) : string :=
  String.concat sep elems.

(** White space as [strings.TrimSpace] sees it, over single bytes: tab, line
    feed, vertical tab, form feed, carriage return and space. *)
Definition isSpace (c : ascii) : bool :=
  let n := N_of_ascii c in
  ((9 <=? n) && (n <=? 13) || (n =? 32))%N.

(** Leading and trailing white space removed, one end at a time. *)
Fixpoint trimLeft (s : string) : string :=
  match s with
  | EmptyString => EmptyString
  | String c s' => if isSpace c then trimLeft s' else s
  end.

Fixpoint trimRight (s : string) : string :=
  match s with
  | EmptyString => EmptyString
  | String c s' =>
      match trimRight s' with
      | EmptyString => if isSpace c then EmptyString else String c EmptyString
      | r => String c r
      end
  end.

(** [strings.TrimSpace(s)]. *)
Definition strings_TrimSpace (s : string) : string := trimRight (trimLeft s).

(** ** Package [strconv] *)

(** The value of a decimal digit byte. *)
Definition digit_of (c : ascii) : option Z :=
  let n := Z.of_N (N_of_ascii c) in
  if (48 <=? n) && (n <=? 57) then Some (n - 48) else None.

(** The library's [isDigit], on one byte. *)
Definition isDigit (c : ascii) : bool :=
  match digit_of c with Some _ => true | None => false end.

(** The number a non-empty run of decimal digits denotes. *)
Fixpoint digits_value (acc : Z) (s : string) : option Z :=
  match s with
  | EmptyString => Some acc
  | String c s' =>
      match digit_of c with
      | Some d => digits_value (10 * acc + d) s'
      | None => None
      end
  end.

(** The same, of a string that must not be empty. *)
Definition unsigned_value (s : string) : option Z :=
  match s with
  | EmptyString => None
  | _ => digits_value 0 s
  end.

(** [strconv.Atoi]: an optional sign and decimal digits.  On a syntax error
    the value is 0; on a value outside [int] it is the nearest bound; both
    come with a non-nil error. *)
Definition strconv_Atoi (s : string) : Z * option error :=
  let signed :=
    match s with
    | String "-" s' => option_map Z.opp (unsigned_value s')
    | String "+" s' => unsigned_value s'
    | _ => unsigned_value s
    end in
  match signed with
  | None => (0, Some (NumErrorSyntax "Atoi" s))
  | Some n =>
      if n >? maxInt64 then (maxInt64, Some (NumErrorRange "Atoi" s))
      else if n <? minInt64 then (minInt64, Some (NumErrorRange "Atoi" s))
      else (n, None)
  end.

(** [strconv.ParseBool]. *)
Definition strconv_ParseBool (str : string) : result bool :=
  if String.eqb str "1" || String.eqb str "t" || String.eqb str "T" || String.eqb str "TRUE"
     || String.eqb str "true" || String.eqb str "True" then Ok true
  else if String.eqb str "0" || String.eqb str "f" || String.eqb str "F" || String.eqb str "FALSE"
     || String.eqb str "false" || String.eqb str "False" then Ok false
  else Err (NumErrorSyntax "ParseBool" str).

(** ** [float64] *)

(** IEEE 754 binary64 values, with the comparison of the standard: every
    ordered comparison with a NaN is false. *)
Definition float64 : Type := spec_float.

(** The binary64 value of an integer constant of the source, rounded to
    nearest as the compiler does (the constants used are all exact). *)
Definition float64_of_Z (z : Z) : float64 := binary_normalize 53 1024 z 0 false.

(** Go's [a >= b] on [float64]. *)
Definition f64_ge (a b : float64) : bool := SFleb b a.

(** Go's [a > b] on [float64]. *)
Definition f64_gt (a b : float64) : bool := SFltb b a.

(** ** Package [ecobee]: equipment status *)

(** Modelled from the spec: the declaration of [EquipmentStatus] is not
    among the sources; its fields are the fifteen flags that [Set] assigns
    (section 9 of the spec: a set of equipment-status flags by name). *)
Record EquipmentStatus : Type := mkEquipmentStatus {
  HeatPump : bool;
  HeatPump2 : bool;
  HeatPump3 : bool;
  CompCool1 : bool;
  CompCool2 : bool;
  AuxHeat1 : bool;
  AuxHeat2 : bool;
  AuxHeat3 : bool;
  Fan : bool;
  Humidifier : bool;
  Dehumidifier : bool;
  Ventilator : bool;
  Economizer : bool;
  CompHotWater : bool;
  AuxHotWater : bool
}.

(** [var es EquipmentStatus]: every flag false. *)
Definition zeroEquipmentStatus : EquipmentStatus :=
  mkEquipmentStatus false false false false false false false false
                    false false false false false false false.

(** [func (es *EquipmentStatus) Set(field string, state bool)]: the [switch]
    has no [default] case. *)
Definition EquipmentStatus_Set (es : EquipmentStatus) (field : string) (state : bool)
  : EquipmentStatus :=
  let '(mkEquipmentStatus hp hp2 hp3 cc1 cc2 ah1 ah2 ah3 fan hum deh ven eco chw ahw) := es in
  if String.eqb field "heatPump" then
    mkEquipmentStatus state hp2 hp3 cc1 cc2 ah1 ah2 ah3 fan hum deh ven eco chw ahw
  else if String.eqb field "heatPump2" then
    mkEquipmentStatus hp state hp3 cc1 cc2 ah1 ah2 ah3 fan hum deh ven eco chw ahw
  else if String.eqb field "heatPump3" then
    mkEquipmentStatus hp hp2 state cc1 cc2 ah1 ah2 ah3 fan hum deh ven eco chw ahw
  else if String.eqb field "compCool1" then
    mkEquipmentStatus hp hp2 hp3 state cc2 ah1 ah2 ah3 fan hum deh ven eco chw ahw
  else if String.eqb field "compCool2" then
    mkEquipmentStatus hp hp2 hp3 cc1 state ah1 ah2 ah3 fan hum deh ven eco chw ahw
  else if String.eqb field "auxHeat1" then
    mkEquipmentStatus hp hp2 hp3 cc1 cc2 state ah2 ah3 fan hum deh ven eco chw ahw
  else if String.eqb field "auxHeat2" then
    mkEquipmentStatus hp hp2 hp3 cc1 cc2 ah1 state ah3 fan hum deh ven eco chw ahw
  else if String.eqb field "auxHeat3" then
    mkEquipmentStatus hp hp2 hp3 cc1 cc2 ah1 ah2 state fan hum deh ven eco chw ahw
  else if String.eqb field "fan" then
    mkEquipmentStatus hp hp2 hp3 cc1 cc2 ah1 ah2 ah3 state hum deh ven eco chw ahw
  else if String.eqb field "humidifier" then
    mkEquipmentStatus hp hp2 hp3 cc1 cc2 ah1 ah2 ah3 fan state deh ven eco chw ahw
  else if String.eqb field "dehumidifier" then
    mkEquipmentStatus hp hp2 hp3 cc1 cc2 ah1 ah2 ah3 fan hum state ven eco chw ahw
  else if String.eqb field "ventilator" then
    mkEquipmentStatus hp hp2 hp3 cc1 cc2 ah1 ah2 ah3 fan hum deh state eco chw ahw
  else if String.eqb field "economizer" then
    mkEquipmentStatus hp hp2 hp3 cc1 cc2 ah1 ah2 ah3 fan hum deh ven state chw ahw
  else if String.eqb field "compHotWater" then
    mkEquipmentStatus hp hp2 hp3 cc1 cc2 ah1 ah2 ah3 fan hum deh ven eco state ahw
  else if String.eqb field "auxHotWater" then
    mkEquipmentStatus hp hp2 hp3 cc1 cc2 ah1 ah2 ah3 fan hum deh ven eco chw state
  else es.

(** The names the [switch] of [Set] has a case for. *)
Definition equipmentNames : list string :=
  ["heatPump"; "heatPump2"; "heatPump3"; "compCool1"; "compCool2";
   "auxHeat1"; "auxHeat2"; "auxHeat3"; "fan"; "humidifier"; "dehumidifier";
   "ventilator"; "economizer"; "compHotWater"; "auxHotWater"].

(** The loop [for _, s := range statuses { es.Set(s, true) }]. *)
Definition setStatuses (es : EquipmentStatus) (statuses : list string) : EquipmentStatus :=
  foldl (fun es s => EquipmentStatus_Set es s true) es statuses.

(** [func buildEquipmentStatus(input string) (EquipmentStatus, error)].
    [split[1]] panics when [input] has no [":"]; no path returns an error. *)
Definition buildEquipmentStatus (input : string) : result EquipmentStatus :=
  let es := zeroEquipmentStatus in
  let split := strings_SplitN2 input ":" in
  rhs ← at_index split 1;
  if (String.length rhs =? 0)%nat then Ok es
  else
    let statuses := strings_Split rhs "," in
    Ok (setStatuses es statuses).

(** ** Helpers for stating properties *)

(** The flag of an [EquipmentStatus] that a name of the [switch] stands
    for. *)
Definition flagOf (es : EquipmentStatus) (name : string) : option bool :=
  if String.eqb name "heatPump" then Some (HeatPump es)
  else if String.eqb name "heatPump2" then Some (HeatPump2 es)
  else if String.eqb name "heatPump3" then Some (HeatPump3 es)
  else if String.eqb name "compCool1" then Some (CompCool1 es)
  else if String.eqb name "compCool2" then Some (CompCool2 es)
  else if String.eqb name "auxHeat1" then Some (AuxHeat1 es)
  else if String.eqb name "auxHeat2" then Some (AuxHeat2 es)
  else if String.eqb name "auxHeat3" then Some (AuxHeat3 es)
  else if String.eqb name "fan" then Some (Fan es)
  else if String.eqb name "humidifier" then Some (Humidifier es)
  else if String.eqb name "dehumidifier" then Some (Dehumidifier es)
  else if String.eqb name "ventilator" then Some (Ventilator es)
  else if String.eqb name "economizer" then Some (Economizer es)
  else if String.eqb name "compHotWater" then Some (CompHotWater es)
  else if String.eqb name "auxHotWater" then Some (AuxHotWater es)
  else None.

(** Whether a byte occurs in a string. *)
Fixpoint hasByte (c : ascii) (s : string) : bool :=
  match s with
  | EmptyString => false
  | String c' s' => Ascii.eqb c' c || hasByte c s'
  end.

(** Whether a string is free of the white space [strings.TrimSpace] cuts. *)
Fixpoint noSpace (s : string) : bool :=
  match s with
  | EmptyString => true
  | String c s' => negb (isSpace c) && noSpace s'
  end.

(** ** Package [main]: derived metrics *)

(** [func IndoorHumidityRecommendation(outdoorTempF float64) int]. *)
Definition IndoorHumidityRecommendation (outdoorTempF : float64) : Z :=
  if f64_ge outdoorTempF (float64_of_Z 50) then 50
  else if f64_ge outdoorTempF (float64_of_Z 40) then 45
  else if f64_ge outdoorTempF (float64_of_Z 30) then 40
  else if f64_ge outdoorTempF (float64_of_Z 20) then 35
  else if f64_ge outdoorTempF (float64_of_Z 10) then 30
  else if f64_ge outdoorTempF (float64_of_Z 0) then 25
  else if f64_ge outdoorTempF (float64_of_Z (-10)) then 20
  else 15.

(** The step function as the specification tabulates it, band by band. *)
Definition humidityBands (t : float64) : Z :=
  if f64_ge t (float64_of_Z 50) then 50
  else if f64_gt (float64_of_Z 50) t && f64_ge t (float64_of_Z 40) then 45
  else if f64_gt (float64_of_Z 40) t && f64_ge t (float64_of_Z 30) then 40
  else if f64_gt (float64_of_Z 30) t && f64_ge t (float64_of_Z 20) then 35
  else if f64_gt (float64_of_Z 20) t && f64_ge t (float64_of_Z 10) then 30
  else if f64_gt (float64_of_Z 10) t && f64_ge t (float64_of_Z 0) then 25
  else if f64_gt (float64_of_Z 0) t && f64_ge t (float64_of_Z (-10)) then 20
  else 15.

(** ** Package [time] *)

(** A [time.Duration]: a count of nanoseconds held in an [int64]. *)
Definition Duration : Type := Z.

(** [time.Second], [time.Minute] and [time.Hour]. *)
Definition Second : Duration := 1000000000.
Definition Minute : Duration := 60 * Second.
Definition Hour : Duration := 60 * Minute.

(** A [time.Time] without a monotonic reading, as the nanoseconds elapsed on
    its wall clock since the zero [Time], January 1 of year 1, 00:00:00.  The
    library keeps the seconds in an [int64], which no time this program can
    build leaves, so the count is an unbounded integer here. *)
Definition Time : Type := Z.

(** [time.Time{}], the value every failed [time.Parse] returns. *)
Definition zeroTime : Time := 0.

(** The nanoseconds of a day of twenty-four hours. *)
Definition nsPerDay : Z := 86400 * Second.

(** [t.Add(d)]. *)
Definition Time_Add (t : Time) (d : Duration) : Time := t + d.

(** [t.Sub(u)]: the difference, or the largest (smallest) [Duration] when
    the difference does not fit in one. *)
Definition Time_Sub (t u : Time) : Duration :=
  let d := wrap64 (t - u) in
  if u + d =? t then d
  else if t <? u then minInt64
  else maxInt64.

(** [t.Before(u)] and [t.After(u)]. *)
Definition Time_Before (t u : Time) : bool := t <? u.
Definition Time_After (t u : Time) : bool := u <? t.

(** The proleptic Gregorian calendar. *)
Definition isLeap (year : Z) : bool :=
  (year mod 4 =? 0) && (negb (year mod 100 =? 0) || (year mod 400 =? 0)).

(** The library's [daysIn]: the length of a month. *)
Definition daysIn (month year : Z) : Z :=
  if month =? 2 then (if isLeap year then 29 else 28)
  else if (month =? 4) || (month =? 6) || (month =? 9) || (month =? 11) then 30
  else 31.

(** Days from January 1 of year 1 to the given civil date, counting years
    from March so that the leap day comes last. *)
Definition days_from_civil (y m d : Z) : Z :=
  let y' := if m <=? 2 then y - 1 else y in
  let era := y' / 400 in
  let yoe := y' mod 400 in
  let mp := (m + 9) mod 12 in
  let doy := (153 * mp + 2) / 5 + d - 1 in
  let doe := yoe * 365 + yoe / 4 - yoe / 100 + doy in
  era * 146097 + doe - 306.

(** Year of the 400-year era, counted from March, of a day of the era. *)
Definition yoe_of_doe (doe : Z) : Z :=
  (doe - doe / 1460 + doe / 36524 - doe / 146096) / 365.

(** First day of a March-based year within its era. *)
Definition year_start (yoe : Z) : Z := 365 * yoe + yoe / 4 - yoe / 100.

(** Month (1 to 12) and day of the month of a day of a March-based year. *)
Definition month_day_of_doy (doy : Z) : Z * Z :=
  let mp := (5 * doy + 2) / 153 in
  let d := doy - (153 * mp + 2) / 5 + 1 in
  (if mp <? 10 then mp + 3 else mp - 9, d).

(** The civil date [(year, month, day)] of a day counted from January 1 of
    year 1. *)
Definition civil_from_days (z : Z) : Z * Z * Z :=
  let z' := z + 306 in
  let era := z' / 146097 in
  let doe := z' mod 146097 in
  let yoe := yoe_of_doe doe in
  let '(m, d) := month_day_of_doy (doe - year_start yoe) in
  (yoe + era * 400 + (if m <=? 2 then 1 else 0), m, d).

(** [time.Date(year, month, day, hour, min, sec, nsec, time.UTC)] for
    fields already in range. *)
Definition time_Date (y m d hh mm ss nsec : Z) : Time :=
  (days_from_civil y m d * 86400 + hh * 3600 + mm * 60 + ss) * Second + nsec.

(** The byte of a decimal digit, and the digits of a number written in
    front of [acc], at most [fuel] of them (twenty hold any 64-bit
    integer). *)
Definition digit_char (d : Z) : ascii := ascii_of_N (Z.to_N (48 + d)).

Fixpoint decimal_digits (fuel : nat) (u : Z) (acc : string) : string :=
  match fuel with
  | O => acc
  | S fuel' =>
      let acc' := String (digit_char (u mod 10)) acc in
      if u <? 10 then acc' else decimal_digits fuel' (u / 10) acc'
  end.

(** [n] zero bytes, for padding. *)
Fixpoint zeros (n : nat) : string :=
  match n with
  | O => EmptyString
  | S n' => String "0" (zeros n')
  end.

(** The library's [appendInt]: the decimal form of [x] with a sign when
    negative and at least [width] digits, with its two short cuts for the
    two- and four-digit fields. *)
Definition appendInt (x : Z) (width : nat) : string :=
  let u := Z.abs x in
  let sign := if x <? 0 then "-" else "" in
  if (width =? 2)%nat && (u <? 100) then
    sign ++ String (digit_char (u / 10)) (String (digit_char (u mod 10)) "")
  else if (width =? 4)%nat && (u <? 10000) then
    sign ++ String (digit_char (u / 1000)) (String (digit_char (u / 100 mod 10))
              (String (digit_char (u / 10 mod 10)) (String (digit_char (u mod 10)) "")))
  else
    let ds := decimal_digits 20 u "" in
    sign ++ zeros (width - String.length ds) ++ ds.

(** The day a [Time] falls on, counted from January 1 of year 1. *)
Definition dayOf (t : Time) : Z := t / nsPerDay.

(** The days of the years 0000 to 9999, those a four-digit year can name:
    from 0000-01-01 to 9999-12-31. *)
Definition dayMin : Z := -366.
Definition dayMax : Z := 3652058.

(** Checking a property of every integer from [z] on, [n] of them. *)
Fixpoint all_from (n : nat) (z : Z) (p : Z -> bool) : bool :=
  match n with
  | O => true
  | S n' => p z && all_from n' (z + 1) p
  end.

(** What is checked of each year of an era: its first and its last day but
    one are found to be in it. *)
Definition yoe_check (y : Z) : bool :=
  (yoe_of_doe (year_start y) =? y) && (yoe_of_doe (year_start (y + 1) - 1) =? y).

(** What is checked of each day of a March-based year: month and day are
    in range, lead back to the day, and January and February are the days
    from the 306th on. *)
Definition doy_check (doy : Z) : bool :=
  let '(m, d) := month_day_of_doy doy in
  let mp := (m + 9) mod 12 in
  (1 <=? m) && (m <=? 12) && (1 <=? d)
  && (d <=? (if m =? 2 then (if doy =? 365 then 29 else 28) else daysIn m 1))
  && ((153 * mp + 2) / 5 + d - 1 =? doy)
  && (Z.eqb (if m <=? 2 then 1 else 0) (if 306 <=? doy then 1 else 0)).

(** [t.Format("2006-01-02")]. *)
Definition time_Format_date (t : Time) : string :=
  let '(y, m, d) := civil_from_days (t / nsPerDay) in
  appendInt y 4 ++ "-" ++ appendInt m 2 ++ "-" ++ appendInt d 2.

(** The library's [getnum]: one or two leading digits, exactly two when
    [fixed]. *)
Definition getnum (s : string) (fixed : bool) : option (Z * string) :=
  match s with
  | EmptyString => None
  | String a rest =>
      match digit_of a with
      | None => None
      | Some x =>
          match rest with
          | String b rest' =>
              match digit_of b with
              | Some y => Some (10 * x + y, rest')
              | None => if fixed then None else Some (x, rest)
              end
          | EmptyString => if fixed then None else Some (x, rest)
          end
      end
  end.

(** The layout element [2006]: exactly four digits. *)
Definition getyear (s : string) : option (Z * string) :=
  match s with
  | String a (String b (String c (String d rest))) =>
      match digit_of a, digit_of b, digit_of c, digit_of d with
      | Some a, Some b, Some c, Some d => Some (1000 * a + 100 * b + 10 * c + d, rest)
      | _, _, _, _ => None
      end
  | _ => None
  end.

(** A literal byte of the layout other than a space. *)
Definition skip_byte (c : ascii) (s : string) : option string :=
  match s with
  | String c' rest => if Ascii.eqb c' c then Some rest else None
  | EmptyString => None
  end.

(** The library's [cutspace]: leading spaces removed. *)
Fixpoint cutspace (s : string) : string :=
  match s with
  | String " " rest => cutspace rest
  | _ => s
  end.

(** A space of the layout: the value must not continue with another byte,
    and any run of spaces is taken. *)
Definition skip_space (s : string) : option string :=
  match s with
  | EmptyString => Some s
  | String " " _ => Some (cutspace s)
  | String _ _ => None
  end.

(** The date part [2006-01-02] of both layouts: year, month and day with
    the rest of the value; the month is checked at once, the day at the
    end of the parse. *)
Definition parse_date_fields (value : string) : option (Z * Z * Z * string) :=
  '(year, v) ← getyear value;
  v ← skip_byte "-" v;
  '(month, v) ← getnum v true;
  if (month <=? 0) || (12 <? month) then None else
  v ← skip_byte "-" v;
  '(day, v) ← getnum v true;
  Some (year, month, day, v).

(** The check that ends [time.Parse]: the day exists in its month. *)
Definition day_in_range (year month day : Z) : bool :=
  negb ((day <? 1) || (daysIn month year <? day)).

(** [time.Parse("2006-01-02", value)]. *)
Definition time_Parse_date (value : string) : result Time :=
  match parse_date_fields value with
  | Some (year, month, day, EmptyString) =>
      if day_in_range year month day then Ok (time_Date year month day 0 0 0 0)
      else Err (TimeParseError "2006-01-02" value)
  | _ => Err (TimeParseError "2006-01-02" value)
  end.

(** The leading digits of a string and what follows them; the first [n]
    bytes of a string. *)
Fixpoint take_digits (s : string) : string * string :=
  match s with
  | String c rest =>
      if isDigit c then let '(ds, r) := take_digits rest in (String c ds, r)
      else (EmptyString, s)
  | EmptyString => (EmptyString, EmptyString)
  end.

Fixpoint string_take (n : nat) (s : string) : string :=
  match n, s with
  | S n', String c rest => String c (string_take n' rest)
  | _, _ => EmptyString
  end.

(** A fractional second in the value that the layout does not mention: a
    period or comma and digits, of which nine count. *)
Definition fractional_second (v : string) : option (Z * string) :=
  match v with
  | String sep (String c rest) =>
      if (Ascii.eqb sep "." || Ascii.eqb sep ",") && isDigit c then
        let '(ds, r) := take_digits (String c rest) in
        let ds9 := string_take 9 ds in
        match digits_value 0 ds9 with
        | Some n => Some (n * 10 ^ Z.of_nat (9 - String.length ds9), r)
        | None => None
        end
      else Some (0, v)
  | _ => Some (0, v)
  end.

(** [time.Parse("2006-01-02 15:04:05", value)]. *)
Definition time_Parse_datetime (value : string) : result Time :=
  let parsed :=
    '(year, month, day, v) ← parse_date_fields value;
    v ← skip_space v;
    '(hh, v) ← getnum v false;
    if 24 <=? hh then None else
    v ← skip_byte ":" v;
    '(mm, v) ← getnum v true;
    if 60 <=? mm then None else
    v ← skip_byte ":" v;
    '(ss, v) ← getnum v true;
    if 60 <=? ss then None else
    '(nsec, v) ← fractional_second v;
    match v with
    | EmptyString =>
        if day_in_range year month day then Some (time_Date year month day hh mm ss nsec)
        else None
    | _ => None
    end in
  match parsed with
  | Some t => Ok t
  | None => Err (TimeParseError "2006-01-02 15:04:05" value)
  end.

(** The idiom [t, _ := time.Parse(...)]: the error is dropped and the zero
    [Time] stands for it. *)
Definition value_or_zero (r : result Time) : Time :=
  match r with
  | Ok t => t
  | _ => zeroTime
  end.

(** [strconv.ParseFloat(val, 64)] on a plain decimal, an optional sign and
    at most fifteen digits around an optional point: the integer the digits
    spell and the power of ten below the point are both binary64 values, and
    their correctly rounded quotient is the result.  Any other text is turned
    down here; the program itself is set over an arbitrary [ParseFloat], and
    this one serves where a concrete one is called for. *)
Definition parseDecimal (val : string) : float64 * option error :=
  let '(negative, body) :=
    match val with
    | String "-" s => (true, s)
    | String "+" s => (false, s)
    | _ => (false, val)
    end in
  let '(int_part, rest) := take_digits body in
  let '(frac_part, rest) :=
    match rest with
    | String "." s => take_digits s
    | _ => (EmptyString, rest)
    end in
  let digits := int_part ++ frac_part in
  match rest, digits_value 0 digits with
  | EmptyString, Some n =>
      if ((1 <=? String.length digits) && (String.length digits <=? 15))%nat then
        let q := SFdiv 53 1024 (float64_of_Z n)
                       (float64_of_Z (10 ^ Z.of_nat (String.length frac_part))) in
        (if negative then SFopp q else q, None)
      else (S754_zero false, Some (NumErrorSyntax "ParseFloat" val))
  | _, _ => (S754_zero false, Some (NumErrorSyntax "ParseFloat" val))
  end.

(** ** Package [ecobee]: the vendor's messages *)

(** Modelled from the spec: the declarations of the types [Selection],
    [Thermostat], [GetRuntimeReportRequest], [RuntimeReportResponse] with
    its reports, [GetThermostatSummaryResponse] and [ThermostatSummary] are
    not among the sources.  The spec (sections 3 and 6) names the data they
    carry; each record has the fields the functions below read or write,
    under the names they use there, with [StartInterval] and
    [ThermostatCount] of type [int]. *)
Record Selection : Type := mkSelection {
  SelectionType : string;
  SelectionMatch : string;
  IncludeAlerts : bool;
  IncludeEvents : bool;
  IncludeProgram : bool;
  IncludeRuntime : bool;
  IncludeExtendedRuntime : bool;
  IncludeSettings : bool;
  IncludeSensors : bool;
  IncludeWeather : bool
}.

Record Thermostat : Type := mkThermostat {
  Identifier : string;
  Name : string;
  ModelNumber : string;
  Brand : string
}.

Record GetRuntimeReportRequest : Type := mkGetRuntimeReportRequest {
  Req_Selection : Selection;
  Req_StartDate : string;
  Req_EndDate : string;
  Req_Columns : string
}.

(** One element of [RuntimeReportResponse.ReportList]. *)
Record RuntimeReport : Type := mkRuntimeReport {
  ThermostatIdentifier : string;
  RowList : list string
}.

Record RuntimeReportResponse : Type := mkRuntimeReportResponse {
  StartDate : string;
  StartInterval : Z;
  Columns : string;
  ReportList : list RuntimeReport
}.

Record RuntimeReportDataEntry : Type := mkRuntimeReportDataEntry {
  ReportTime : Time;
  DataFields : gmap string string
}.

Record GetThermostatSummaryResponse : Type := mkGetThermostatSummaryResponse {
  ThermostatCount : Z;
  RevisionList : list string;
  StatusList : list string
}.

Record ThermostatSummary : Type := mkThermostatSummary {
  TS_Identifier : string;
  TS_Name : string;
  Connected : bool;
  ThermostatRevision : string;
  AlertsRevision : string;
  RuntimeRevision : string;
  IntervalRevision : string;
  TS_EquipmentStatus : EquipmentStatus
}.

(** [fmt.Errorf(format, arg, err)] around a failed call. *)
Definition wrap_err {A : Type} (format : string) (args : list string) (r : result A)
  : result A :=
  match r with
  | Err e => Err (Wrapf format args e)
  | _ => r
  end.

(** ** [GetThermostats] and [GetThermostat] *)

(** Modelled from the spec: the declarations of [Status] and
    [GetThermostatsResponse] are not among the sources; the records have
    the fields [GetThermostats] reads, [Status.Code] of type [int].  The
    field [Status] of the response is [Resp_Status] here. *)
Record Status : Type := mkStatus {
  Code : Z;
  Message : string
}.

Record GetThermostatsResponse : Type := mkGetThermostatsResponse {
  ThermostatList : list Thermostat;
  Resp_Status : Status
}.

(** The verb [%d] of [fmt] on an [int]. *)
Definition fmt_d (x : Z) : string := appendInt x 0.

(** [func (c *Client) GetThermostats(selection Selection)]: [fetch] is the
    outcome of marshalling the request, [c.get] and [json.Unmarshal], whose
    errors the function returns as they are wrapped there. *)
Definition GetThermostats (fetch : Selection -> result GetThermostatsResponse)
    (selection : Selection) : result (list Thermostat) :=
  r ← fetch selection;
  if negb (Code (Resp_Status r) =? 0) then
    Err (Errorf "api error %d: %v" [fmt_d (Code (Resp_Status r)); Message (Resp_Status r)])
  else Ok (ThermostatList r).

(** The [Selection] [GetThermostat] builds. *)
Definition thermostatSelection (thermostatID : string) : Selection :=
  mkSelection "thermostats" thermostatID false true true true true false true true.

(** [func (c *Client) GetThermostat(thermostatID string)]. *)
Definition GetThermostat (fetch : Selection -> result GetThermostatsResponse)
    (thermostatID : string) : result Thermostat :=
  thermostats ← GetThermostats fetch (thermostatSelection thermostatID);
  if negb (length thermostats =? 1)%nat then
    Err (Errorf "got %d thermostats, wanted 1" [fmt_d (Z.of_nat (length thermostats))])
  else at_index thermostats 0.

(** ** [GetThermostatSummary] *)

(** The body of [for i := 0; i < r.ThermostatCount; i++]: the summary of
    thermostat [i] is stored into [tsm], or the function returns. *)
Definition summaryEntry (i : nat) (r : GetThermostatSummaryResponse)
    (tsm : gmap string ThermostatSummary) : result (gmap string ThermostatSummary) :=
  rev ← at_index (RevisionList r) i;
  let rl := strings_Split rev ":" in
  if (length rl <? 7)%nat then
    Err (Errorf "invalid RevisionList, not enough fields: %s" [rev])
  else
    status ← at_index (StatusList r) i;
    es ← wrap_err "error in buildEquipmentSTatus(%v): %v" [status]
           (buildEquipmentStatus status);
    rl0 ← at_index rl 0;
    rl1 ← at_index rl 1;
    rl2 ← at_index rl 2;
    rl3 ← at_index rl 3;
    rl4 ← at_index rl 4;
    rl5 ← at_index rl 5;
    rl6 ← at_index rl 6;
    connected ← wrap_err "error from ParseBool(%v): %v" [rl2] (strconv_ParseBool rl2);
    let ts := mkThermostatSummary rl0 rl1 connected rl3 rl4 rl5 rl6 es in
    Ok (<[rl0 := ts]> tsm).

(** The loop from thermostat [i] on, with [n] turns left to run. *)
Fixpoint summaryLoop (n i : nat) (r : GetThermostatSummaryResponse)
    (tsm : gmap string ThermostatSummary) : result (gmap string ThermostatSummary) :=
  match n with
  | O => Ok tsm
  | S n' =>
      tsm' ← summaryEntry i r tsm;
      summaryLoop n' (S i) r tsm'
  end.

(** [func (c *Client) GetThermostatSummary(selection Selection)], from the
    decoded response on: [fetched] is the outcome of marshalling the request,
    [c.get] and [json.Unmarshal], whose errors the function returns as they
    are wrapped there. *)
Definition GetThermostatSummary (fetched : result GetThermostatSummaryResponse)
  : result (gmap string ThermostatSummary) :=
  r ← fetched;
  summaryLoop (Z.to_nat (ThermostatCount r)) 0 r ∅.

(** What it is for a summary to have been read off entry [j] of the
    response: the revision entry has at least seven fields, in the order
    identifier, name, connected, four revisions; the connected field is a Go
    boolean; and the status entry builds the equipment status. *)
Definition summaryRead (r : GetThermostatSummaryResponse) (j : nat)
    (ts : ThermostatSummary) : Prop :=
  exists (rev status c : string) (rest : list string),
    RevisionList r !! j = Some rev
    /\ StatusList r !! j = Some status
    /\ strings_Split rev ":"
       = TS_Identifier ts :: TS_Name ts :: c :: ThermostatRevision ts :: AlertsRevision ts
         :: RuntimeRevision ts :: IntervalRevision ts :: rest
    /\ strconv_ParseBool c = Ok (Connected ts)
    /\ buildEquipmentStatus status = Ok (TS_EquipmentStatus ts).

(** ** [GetRuntimeReport] *)

(** The [Selection] the function builds; the request carries it. *)
Definition runtimeReportSelection (thermostatID : string) : Selection :=
  mkSelection "thermostats" thermostatID false true true true true false true true.

(** [col_to_include] once the seven [if]s have run.  The function has no
    [if] for [WriteHeatPump2]. *)
Definition col_to_include (WriteHumidifier WriteAuxHeat1 WriteAuxHeat2 WriteHeatPump1
    WriteHeatPump2 WriteCool1 WriteCool2 : bool) : list string :=
  let cols := ["zoneCoolTemp"; "zoneHeatTemp"; "zoneAveTemp"; "zoneHumidity";
               "outdoorTemp"; "outdoorHumidity"; "fan"] in
  let cols := if WriteHumidifier then (cols ++ ["humidifier"])%list else cols in
  let cols := if WriteAuxHeat1 then (cols ++ ["auxHeat1"])%list else cols in
  let cols := if WriteAuxHeat2 then (cols ++ ["auxHeat2"])%list else cols in
  let cols := if WriteHeatPump1 then (cols ++ ["compHeat1"])%list else cols in
  let cols := if WriteCool1 then (cols ++ ["compCool1"])%list else cols in
  let cols := if WriteCool2 then (cols ++ ["compCool2"])%list else cols in
  cols.

(** The request [req] the function marshals.  Its two dates are the string
    literals of the source. *)
Definition runtimeReportRequest (thermostatID : string) (WriteHumidifier WriteAuxHeat1
    WriteAuxHeat2 WriteHeatPump1 WriteHeatPump2 WriteCool1 WriteCool2 : bool)
  : GetRuntimeReportRequest :=
  let cols := strings_Join (col_to_include WriteHumidifier WriteAuxHeat1 WriteAuxHeat2
                              WriteHeatPump1 WriteHeatPump2 WriteCool1 WriteCool2) "," in
  mkGetRuntimeReportRequest (runtimeReportSelection thermostatID)
                            "2022-02-16" "2022-02-16" cols.

(** The thermostat's clock reading of a row: [time.Parse] of its first two
    fields joined by a space, the zero [Time] when that fails. *)
Definition rowTime (d t : string) : Time :=
  value_or_zero (time_Parse_datetime (d ++ " " ++ t)).

(** [for i, col := range received_columns { formatted_entry[col] = fields[i+2] }],
    from column [i] on. *)
Fixpoint fillColumns (cols : list string) (i : nat) (fields : list string)
    (formatted_entry : gmap string string) : result (gmap string string) :=
  match cols with
  | [] => Ok formatted_entry
  | col :: cols' =>
      v ← at_index fields (i + 2);
      fillColumns cols' (S i) fields (<[col := v]> formatted_entry)
  end.

(** The body of [for _, entry := range report.RowList]. *)
Definition formatRow (time_offset : Duration) (received_columns : list string)
    (entry : string) : result RuntimeReportDataEntry :=
  let fields := strings_Split entry "," in
  d ← at_index fields 0;
  t ← at_index fields 1;
  let entry_time := Time_Add (rowTime d t) time_offset in
  formatted_entry ← fillColumns received_columns 0 fields ∅;
  Ok (mkRuntimeReportDataEntry entry_time formatted_entry).

(** The loop over [report.RowList], appending to [data]. *)
Fixpoint formatRows (time_offset : Duration) (received_columns : list string)
    (rows : list string) : result (list RuntimeReportDataEntry) :=
  match rows with
  | [] => Ok []
  | entry :: rows' =>
      tmp ← formatRow time_offset received_columns entry;
      data ← formatRows time_offset received_columns rows';
      Ok (tmp :: data)
  end.

(** The offset between the report's start and the first row's clock
    reading. *)
Definition reportOffset (utc_start_time : Time) (report : RuntimeReport) : result Duration :=
  row0 ← at_index (RowList report) 0;
  let fields := strings_Split row0 "," in
  d ← at_index fields 0;
  t ← at_index fields 1;
  Ok (Time_Sub utc_start_time (rowTime d t)).

(** The body of [for _, report := range r.ReportList], up to the store
    into [report_data]. *)
Definition reportEntries (utc_start_time : Time) (received_columns : list string)
    (report : RuntimeReport) : result (list RuntimeReportDataEntry) :=
  time_offset ← reportOffset utc_start_time report;
  formatRows time_offset received_columns (RowList report).

(** The loop over [r.ReportList], storing into [report_data]; a later
    report of the same thermostat replaces an earlier one. *)
Fixpoint collectReports (utc_start_time : Time) (received_columns : list string)
    (reports : list RuntimeReport) (report_data : gmap string (list RuntimeReportDataEntry))
  : result (gmap string (list RuntimeReportDataEntry)) :=
  match reports with
  | [] => Ok report_data
  | report :: reports' =>
      data ← reportEntries utc_start_time received_columns report;
      collectReports utc_start_time received_columns reports'
                     (<[ThermostatIdentifier report := data]> report_data)
  end.

(** The start of the report: [StartDate] at midnight plus
    [time.Duration(r.StartInterval * 5) * time.Minute], both products taken
    in 64 bits. *)
Definition reportStart (r : RuntimeReportResponse) : result Time :=
  utc_start_time ← time_Parse_date (StartDate r);
  Ok (Time_Add utc_start_time (wrap64 (wrap64 (StartInterval r * 5) * Minute))).

(** What [GetRuntimeReport] does with the decoded response [r]. *)
Definition shapeReport (r : RuntimeReportResponse)
  : result (gmap string (list RuntimeReportDataEntry)) :=
  utc_start_time ← reportStart r;
  let received_columns := strings_Split (Columns r) "," in
  collectReports utc_start_time received_columns (ReportList r) ∅.

(** [func (c *Client) GetRuntimeReport(thermostatID string, WriteHumidifier
    bool, ..., WriteCool2 bool) (map[string]interface{}, error)].  [fetch]
    stands for marshalling the request, [c.get] and [json.Unmarshal]: it
    yields the decoded response, or the error the function returns for the
    step that failed.  Every value of the returned map is a
    [[]RuntimeReportDataEntry]. *)
Definition GetRuntimeReport
    (fetch : GetRuntimeReportRequest -> result RuntimeReportResponse)
    (thermostatID : string) (WriteHumidifier WriteAuxHeat1 WriteAuxHeat2 WriteHeatPump1
    WriteHeatPump2 WriteCool1 WriteCool2 : bool)
  : result (gmap string (list RuntimeReportDataEntry)) :=
  let req := runtimeReportRequest thermostatID WriteHumidifier WriteAuxHeat1 WriteAuxHeat2
                                  WriteHeatPump1 WriteHeatPump2 WriteCool1 WriteCool2 in
  r ← fetch req;
  shapeReport r.

(** The thermostat's clock reading of a whole row: that of its first two
    fields. *)
Definition rowClock (row : string) : Time :=
  match strings_Split row "," with
  | d :: t :: _ => rowTime d t
  | _ => zeroTime
  end.


Definition wordyReport : RuntimeReportResponse :=
  mkRuntimeReportResponse "2022-02-16" 0 "fan"
    [mkRuntimeReport "411" ["yesterday,noon,1"]].

Definition shortRowReport : RuntimeReportResponse :=
  mkRuntimeReportResponse "2022-02-16" 0 "fan"
    [mkRuntimeReport "411" ["2022-02-16"]].

(** A report whose start date is written day first; a summary whose second
    revision entry has three fields. *)
Definition undatedReport : RuntimeReportResponse :=
  mkRuntimeReportResponse "16/02/2022" 0 "fan"
    [mkRuntimeReport "411" ["2022-02-16,00:00:00,1"]].

Definition shortRevisionSummary : GetThermostatSummaryResponse :=
  mkGetThermostatSummaryResponse 2
    ["411:Home:true:220215:220214:220216:220216"; "412:Attic:true"]
    ["411:fan,heatPump"; "412:"].

(** A summary of two thermostats, well formed; what its entries read as;
    and a summary that names the thermostat [411] twice. *)
Definition sampleSummary : GetThermostatSummaryResponse :=
  mkGetThermostatSummaryResponse 2
    ["411:Home:true:220215:220214:220216:220216"; "412:Attic:false:220101:220102:220103:220104"]
    ["411:fan,heatPump"; "412:"].

Definition homeSummary : ThermostatSummary :=
  mkThermostatSummary "411" "Home" true "220215" "220214" "220216" "220216"
    (EquipmentStatus_Set (EquipmentStatus_Set zeroEquipmentStatus "fan" true) "heatPump" true).

Definition atticSummary : ThermostatSummary :=
  mkThermostatSummary "412" "Attic" false "220101" "220102" "220103" "220104"
    zeroEquipmentStatus.

Definition twiceSummary : GetThermostatSummaryResponse :=
  mkGetThermostatSummaryResponse 2
    ["411:Home:true:220215:220214:220216:220216"; "411:Attic:false:220101:220102:220103:220104"]
    ["411:fan,heatPump"; "411:"].

(** The time stamps [GetRuntimeReport] gives a thermostat's entries, when
    it returns a map with that thermostat in it. *)
Definition shapedTimes (r : RuntimeReportResponse) (id : string) : option (list Time) :=
  match shapeReport r with
  | Ok data => map ReportTime <$> data !! id
  | _ => None
  end.

(** Whether a row has a field for its date, one for its time and one for
    each column; whether a report has a first row and only such rows. *)
Definition rowComplete (cols : list string) (row : string) : bool :=
  (length cols + 2 <=? length (strings_Split row ","))%nat.

Definition rowsComplete (cols : list string) (report : RuntimeReport) : bool :=
  match RowList report with
  | [] => false
  | _ :: _ => forallb (rowComplete cols) (RowList report)
  end.

(** ** Package [main]: configuration and the sink's records *)

(** The fields of [Config] the sync loop reads. *)
Record Config : Type := mkConfig {
  ThermostatID : string;
  InfluxDatabase : string;
  WriteHeatPump1 : bool;
  WriteHeatPump2 : bool;
  WriteAuxHeat1 : bool;
  WriteAuxHeat2 : bool;
  WriteCool1 : bool;
  WriteCool2 : bool;
  WriteHumidifier : bool
}.

(** A value of the [map[string]interface{}] handed to the sink: the dynamic
    type is the tag. *)
Inductive FieldValue : Type :=
| IntField (n : Z)
| FloatField (f : float64)
| StringField (s : string).

(** The arguments of [influxclient.NewPoint]. *)
Record Point : Type := mkPoint {
  pt_name : string;
  pt_tags : gmap string string;
  pt_fields : gmap string FieldValue;
  pt_time : Time
}.

Record BatchPoints : Type := mkBatchPoints {
  bp_Database : string;
  bp_Points : list Point
}.

(** What the process does to the outside, in order. *)
Inductive Event : Type :=
| CallGetThermostats (s : Selection)
| CallRuntimeReport (req : GetRuntimeReportRequest)
| CallWrite (bp : BatchPoints)
| WriteLastData (content : string)
| Sleep (d : Duration).

(** The outside as the process sees it: the contents of [./last_data.txt]
    ([None] when the file does not exist) and the calls made so far. *)
Record World : Type := mkWorld {
  last_data_txt : option string;
  trace : list Event
}.

(** What a call of [ioutil.WriteFile] does: it stores the data, or it
    returns an error and leaves in the file what [remains] says, the old
    contents when the file could not be opened, none or a part of the data
    when the write broke off. *)
Inductive fileWrite : Type :=
| FileWritten
| FileWriteFailed (err : error) (remains : option string).

(** The answers of the vendor, of the sink and of the file system, by the
    number of earlier calls of the same kind.  [influxClient.Write] returns
    nil or an error, or panics: [main] drops the error of
    [influxclient.NewHTTPClient] and calls [Write] on the client it was
    given whatever that is.  [ioutil.WriteFile] is asked with the contents
    the file has and the data to store. *)
Record Env : Type := mkEnv {
  env_GetThermostats : nat -> Selection -> result (list Thermostat);
  env_fetchReport : nat -> GetRuntimeReportRequest -> result RuntimeReportResponse;
  env_Write : nat -> BatchPoints -> result unit;
  env_WriteFile : nat -> option string -> string -> fileWrite
}.

(** How the process stands after a step. *)
Inductive status : Type :=
| Running
| Exited (code : Z)
| Panicked (msg : string).

(** A call is noted at the end of the trace. *)
Definition record_event (ev : Event) (w : World) : World :=
  mkWorld (last_data_txt w) (trace w ++ [ev])%list.

(** The kinds of call the surroundings answer, and how many of a kind
    have been made. *)
Definition isGetThermostats (ev : Event) : bool :=
  match ev with CallGetThermostats _ => true | _ => false end.

Definition isRuntimeReport (ev : Event) : bool :=
  match ev with CallRuntimeReport _ => true | _ => false end.

Definition isWrite (ev : Event) : bool :=
  match ev with CallWrite _ => true | _ => false end.

Definition isWriteLastData (ev : Event) : bool :=
  match ev with WriteLastData _ => true | _ => false end.

Definition calls (kind : Event -> bool) (w : World) : nat :=
  length (List.filter kind (trace w)).

(** [_ = ioutil.WriteFile("./last_data.txt", content, 0o644)]: the file
    holds the content when the call succeeds and what the failed call left
    otherwise; its error is dropped either way. *)
Definition writeLastData (env : Env) (content : string) (w : World) : World :=
  mkWorld
    match env_WriteFile env (calls isWriteLastData w) (last_data_txt w) content with
    | FileWritten => Some content
    | FileWriteFailed _ remains => remains
    end
    (trace w ++ [WriteLastData content])%list.

(** [lastDataBytes, _ := ioutil.ReadFile("./last_data.txt")]: no bytes when
    the file cannot be read. *)
Definition readLastData (w : World) : string :=
  match last_data_txt w with
  | Some content => content
  | None => EmptyString
  end.

(** The [Selection] of [doUpdate]'s metadata call. *)
Definition metadataSelection (config : Config) : Selection :=
  mkSelection "thermostats" (ThermostatID config)
              false false false false false false false false.

(** The request [GetRuntimeReport] builds from the arguments [doUpdate]
    hands it. *)
Definition configRequest (config : Config) : GetRuntimeReportRequest :=
  runtimeReportRequest (ThermostatID config) (WriteHumidifier config)
    (WriteAuxHeat1 config) (WriteAuxHeat2 config) (WriteHeatPump1 config)
    (WriteHeatPump2 config) (WriteCool1 config) (WriteCool2 config).

(** The line feed [doUpdate] ends the file with. *)
Definition newline : string := String "010" EmptyString.

(** [client.GetRuntimeReport(config.ThermostatID, ...)] as [doUpdate] calls
    it, when [n] reports have been asked for before. *)
Definition fetchedReport (env : Env) (config : Config) (n : nat)
  : result (gmap string (list RuntimeReportDataEntry)) :=
  GetRuntimeReport (env_fetchReport env n)
    (ThermostatID config) (WriteHumidifier config)
    (WriteAuxHeat1 config) (WriteAuxHeat2 config) (WriteHeatPump1 config)
    (WriteHeatPump2 config) (WriteCool1 config) (WriteCool2 config).

(** [retry.Do] without options makes up to ten attempts. *)
Definition retryAttempts : nat := 10.

(** The clock reading and the surroundings the examples are run in: noon
    of March 1, 2022; a thermostat [411] with every optional column asked
    for; a vendor that knows that thermostat. *)
Definition noon_2022_03_01 : Time := time_Date 2022 3 1 12 0 0 0.

Definition sampleConfig : Config :=
  mkConfig "411" "ecobee" true true true true true true true.

Definition sampleThermostats : list Thermostat :=
  [mkThermostat "411" "Home" "athenaSmart" "ecobee"].

(** A report of two rows for that thermostat, stamped by a clock five
    hours behind the report's start; a vendor, a sink and a file system
    that answer every call; a vendor whose report endpoint answers with a
    server error; and a sink that turns every write down. *)
Definition sampleReport : RuntimeReportResponse :=
  mkRuntimeReportResponse "2022-02-16" 1 "zoneAveTemp,fan"
    [mkRuntimeReport "411" ["2022-02-15,19:05:00,70.5,1"; "2022-02-15,19:10:00,70.6,0"]].

Definition sampleEnv : Env :=
  mkEnv (fun _ _ => Ok sampleThermostats) (fun _ _ => Ok sampleReport)
        (fun _ _ => Ok tt) (fun _ _ _ => FileWritten).

Definition serverError : error :=
  Wrapf "error fetching thermostat summary: %v" []
        (Errorf "invalid server response: %v" ["500 Internal Server Error"]).

Definition fetchFailsEnv : Env :=
  mkEnv (fun _ _ => Ok sampleThermostats) (fun _ _ => Err serverError)
        (fun _ _ => Ok tt) (fun _ _ _ => FileWritten).

Definition writeFailsEnv : Env :=
  mkEnv (fun _ _ => Ok sampleThermostats) (fun _ _ => Ok sampleReport)
        (fun _ _ => Err (TransportError "connection refused")) (fun _ _ _ => FileWritten).

(** A vendor whose metadata endpoint answers with the server error; a
    sink whose client is nil, so that [Write] panics; and a working
    directory that cannot be written to, where the file stays as it is. *)
Definition metadataFailsEnv : Env :=
  mkEnv (fun _ _ => Err serverError) (fun _ _ => Ok sampleReport)
        (fun _ _ => Ok tt) (fun _ _ _ => FileWritten).

Definition nilClientEnv : Env :=
  mkEnv (fun _ _ => Ok sampleThermostats) (fun _ _ => Ok sampleReport)
        (fun _ _ => Panic "invalid memory address or nil pointer dereference")
        (fun _ _ _ => FileWritten).

Definition readOnlyDirEnv : Env :=
  mkEnv (fun _ _ => Ok sampleThermostats) (fun _ _ => Err serverError)
        (fun _ _ => Ok tt)
        (fun _ before _ => FileWriteFailed (TransportError "permission denied") before).

Section Program.

(** [strconv.ParseFloat(val, 64)]: the value and the error it returns. *)
Variable strconv_ParseFloat : string -> float64 * option error.

(** ** The field mapping of [doUpdate] *)

(** The body of [for key, val := range entry.DataFields]: the chain of
    [if key == ...] with no final [else]. *)
Definition setField (fields : gmap string FieldValue) (key val : string)
  : gmap string FieldValue :=
  if String.eqb key "auxHeat1" then
    <["aux_heat_1_run_time_s" := IntField (strconv_Atoi val).1]> fields
  else if String.eqb key "auxHeat2" then
    <["aux_heat_2_run_time_s" := IntField (strconv_Atoi val).1]> fields
  else if String.eqb key "compCool1" then
    <["cool_1_run_time_s" := IntField (strconv_Atoi val).1]> fields
  else if String.eqb key "compCool2" then
    <["cool_2_run_time_s" := IntField (strconv_Atoi val).1]> fields
  else if String.eqb key "compHeat1" then
    <["heat_pump_1_run_time_s" := IntField (strconv_Atoi val).1]> fields
  else if String.eqb key "compHeat2" then
    <["heat_pump_2_run_time_s" := IntField (strconv_Atoi val).1]> fields
  else if String.eqb key "humidifier" then
    <["humidifier_run_time_s" := IntField (strconv_Atoi val).1]> fields
  else if String.eqb key "zoneCoolTemp" then
    <["setpoint_cool_°F" := FloatField (strconv_ParseFloat val).1]> fields
  else if String.eqb key "zoneHeatTemp" then
    <["setpoint_heat_°F" := FloatField (strconv_ParseFloat val).1]> fields
  else if String.eqb key "zoneAveTemp" then
    <["temperature_°F" := FloatField (strconv_ParseFloat val).1]> fields
  else if String.eqb key "zoneHumidity" then
    <["humidity_%" := FloatField (strconv_ParseFloat val).1]> fields
  else if String.eqb key "outdoorTemp" then
    <["outdoor_temperature_°F" := FloatField (strconv_ParseFloat val).1]> fields
  else if String.eqb key "outdoorHumidity" then
    <["outdoor_humidity_%" := FloatField (strconv_ParseFloat val).1]> fields
  else if String.eqb key "hvacMode" then
    <["HVAC_mode" := StringField val]> fields
  else if String.eqb key "fan" then
    <["fan_run_time_s" := IntField (strconv_Atoi val).1]> fields
  else fields.

(** The dynamic type a column's value is stored with. *)
Inductive FieldType : Type :=
| TInt
| TFloat
| TString.

(** The translation the chain of [if]s carries out, as a table: vendor
    column, sink field, type. *)
Definition sinkTable : list (string * string * FieldType) :=
  [("auxHeat1", "aux_heat_1_run_time_s", TInt);
   ("auxHeat2", "aux_heat_2_run_time_s", TInt);
   ("compCool1", "cool_1_run_time_s", TInt);
   ("compCool2", "cool_2_run_time_s", TInt);
   ("compHeat1", "heat_pump_1_run_time_s", TInt);
   ("compHeat2", "heat_pump_2_run_time_s", TInt);
   ("humidifier", "humidifier_run_time_s", TInt);
   ("zoneCoolTemp", "setpoint_cool_°F", TFloat);
   ("zoneHeatTemp", "setpoint_heat_°F", TFloat);
   ("zoneAveTemp", "temperature_°F", TFloat);
   ("zoneHumidity", "humidity_%", TFloat);
   ("outdoorTemp", "outdoor_temperature_°F", TFloat);
   ("outdoorHumidity", "outdoor_humidity_%", TFloat);
   ("hvacMode", "HVAC_mode", TString);
   ("fan", "fan_run_time_s", TInt)].

(** The table's row for a vendor column. *)
Definition sinkField (col : string) : option (string * FieldType) :=
  match List.find (fun row => String.eqb col row.1.1) sinkTable with
  | Some row => Some (row.1.2, row.2)
  | None => None
  end.

(** The table's vendor column for a sink field. *)
Definition vendorColumn (name : string) : option string :=
  match List.find (fun row => String.eqb name row.1.2) sinkTable with
  | Some row => Some row.1.1
  | None => None
  end.

(** The stored value of a raw string under a type: the numeric conversions
    keep what [Atoi] and [ParseFloat] return beside the dropped error. *)
Definition convert (ty : FieldType) (val : string) : FieldValue :=
  match ty with
  | TInt => IntField (strconv_Atoi val).1
  | TFloat => FloatField (strconv_ParseFloat val).1
  | TString => StringField val
  end.

(** [fields] once the loop over [entry.DataFields] has run. *)
Definition mapFields (dataFields : gmap string string) : gmap string FieldValue :=
  map_fold (fun key val fields => setField fields key val) ∅ dataFields.

(** The point built for one entry. *)
Definition entryPoint (meta : gmap string string) (entry : RuntimeReportDataEntry) : Point :=
  mkPoint "ecobee_runtime_report" meta (mapFields (DataFields entry)) (ReportTime entry).

(** [thermostat_metadata] after the loop over the thermostats. *)
Definition thermostatMetadata (thermostats : list Thermostat)
  : gmap string (gmap string string) :=
  foldl (fun acc t =>
           <[Identifier t :=
               <["thermostat_brand" := Brand t]>
               (<["thermostat_model" := ModelNumber t]>
               (<["thermostat_name" := Name t]> ∅))]> acc)
        ∅ thermostats.

(** The tags of a thermostat's points: the two fixed ones, then the
    metadata copied over them. *)
Definition pointTags (thermostat_metadata : gmap string (gmap string string))
    (thermostat_id : string) : gmap string string :=
  let meta := <["receiver" := "ecobee-influx-connector"]>
              (<["device_id" := "ecobee-" ++ thermostat_id]> ∅) in
  default ∅ (thermostat_metadata !! thermostat_id) ∪ meta.

(** The batch written for one thermostat: a point per entry, in order. *)
Definition batchFor (config : Config) (thermostat_metadata : gmap string (gmap string string))
    (thermostat_id : string) (entries : list RuntimeReportDataEntry) : BatchPoints :=
  mkBatchPoints (InfluxDatabase config)
                (map (entryPoint (pointTags thermostat_metadata thermostat_id)) entries).

(** ** [doUpdate] *)

(** [for thermostat_id, entries := range report_data]: one write per
    thermostat, the first failed write ending the attempt with its error,
    a write that panics ending it with the panic.  The thermostats come in
    the order of the list. *)
Fixpoint writeReports (env : Env) (config : Config)
    (thermostat_metadata : gmap string (gmap string string))
    (items : list (string * list RuntimeReportDataEntry)) (w : World)
  : result unit * World :=
  match items with
  | [] => (Ok tt, w)
  | (thermostat_id, entries) :: items' =>
      let bp := batchFor config thermostat_metadata thermostat_id entries in
      match env_Write env (calls isWrite w) bp with
      | Err err => (Err err, record_event (CallWrite bp) w)
      | Panic msg => (Panic msg, record_event (CallWrite bp) w)
      | Ok _ => writeReports env config thermostat_metadata items'
                             (record_event (CallWrite bp) w)
      end
  end.

(** The call of [influxClient.Write] made for one thermostat of the
    report. *)
Definition writeEvent (thermostat_metadata : gmap string (gmap string string))
    (config : Config) (item : string * list RuntimeReportDataEntry) : Event :=
  CallWrite (batchFor config thermostat_metadata item.1 item.2).

(** The function handed to [retry.Do].  The call of [GetRuntimeReport]
    names [start_str] and [end_str] after the thermostat, for which the
    function has no parameter; its error [rr_err] is assigned to the blank
    identifier, and ranging over the nil map it then returns does nothing.
    A Go map is ranged over in no fixed order; the key order stands for it. *)
Definition attempt (env : Env) (config : Config) (start_str end_str : string) (w : World)
  : result unit * World :=
  let s := metadataSelection config in
  let w1 := record_event (CallGetThermostats s) w in
  match env_GetThermostats env (calls isGetThermostats w) s with
  | Err err => (Err err, w1)
  | Panic msg => (Panic msg, w1)
  | Ok thermostats =>
      let thermostat_metadata := thermostatMetadata thermostats in
      let req := configRequest config in
      let w2 := record_event (CallRuntimeReport req) w1 in
      match fetchedReport env config (calls isRuntimeReport w1) with
      | Panic msg => (Panic msg, w2)
      | Err rr_err => writeReports env config thermostat_metadata [] w2
      | Ok report_data =>
          writeReports env config thermostat_metadata (map_to_list report_data) w2
      end
  end.

(** [retry.Do(f)]: [f] is run again after each error, up to [attempts]
    times in all; the last error stands for the errors it then returns. *)
Fixpoint retry_Do (attempts : nat) (f : World -> result unit * World) (w : World)
  : result unit * World :=
  match attempts with
  | O => (Err (Errorf "All attempts fail" []), w)
  | S n =>
      match f w with
      | (Err err, w') =>
          match n with
          | O => (Err (Wrapf "All attempts fail" [] err), w')
          | S _ => retry_Do n f w'
          end
      | other => other
      end
  end.

(** [doUpdate := func(start_str string, end_str string)]: [log.Fatal] when
    [retry.Do] gives up, else [ioutil.WriteFile] is called with [end_str]
    and a line feed. *)
Definition doUpdate (env : Env) (config : Config) (start_str end_str : string) (w : World)
  : status * World :=
  match retry_Do retryAttempts (attempt env config start_str end_str) w with
  | (Err err, w') => (Exited 1, w')
  | (Panic msg, w') => (Panicked msg, w')
  | (Ok _, w') => (Running, writeLastData env (end_str ++ newline) w')
  end.

(** ** The loop of [main] *)

(** [left_off]: the parsed contents of the file, the zero [Time] when they
    do not parse. *)
Definition leftOff (lastData : string) : Time :=
  value_or_zero (time_Parse_date lastData).

(** [yesterday]: the date of [now.Add(-24 * time.Hour)] at midnight, read
    back from its formatted form.  [now] is the reading of the local wall
    clock, whose offset is taken to be the same a day earlier. *)
Definition yesterdayOf (now : Time) : Time :=
  let yesterday_time := Time_Add now (-24 * Hour) in
  let yesterday_string := time_Format_date yesterday_time in
  value_or_zero (time_Parse_date yesterday_string).

(** The window one turn of the loop settles on: [None] on the branch that
    prints [Nothing to do!], else [start] and [end]. *)
Definition planTimes (lastData : string) (now : Time) : option (Time * Time) :=
  let left_off := leftOff lastData in
  let yesterday := yesterdayOf now in
  if negb (Time_Before left_off yesterday) then None
  else
    let start := Time_Add left_off (24 * Hour) in
    let projected_end := Time_Add start (14 * 24 * Hour) in
    let end_ := if Time_After projected_end yesterday then yesterday else projected_end in
    Some (start, end_).

(** [start_str] and [end_str]. *)
Definition planWindow (lastData : string) (now : Time) : option (string * string) :=
  match planTimes lastData now with
  | Some (start, end_) => Some (time_Format_date start, time_Format_date end_)
  | None => None
  end.

(** One turn of [for true { ... }] with the clock reading [now]: on the
    nothing-to-do branch [os.Exit(0)], else [doUpdate] and, when it
    returns, [time.Sleep(3 * time.Second)]. *)
Definition main_iteration (env : Env) (config : Config) (now : Time) (w : World)
  : status * World :=
  let lastData := strings_TrimSpace (readLastData w) in
  match planWindow lastData now with
  | None => (Exited 0, w)
  | Some (start_str, end_str) =>
      match doUpdate env config start_str end_str w with
      | (Running, w') => (Running, record_event (Sleep (3 * Second)) w')
      | stopped => stopped
      end
  end.

(** The loop, for at most [turns] turns; [clock k] is what [time.Now()]
    returns in turn [k].  [Running] after the last turn means the loop has
    not ended by then. *)
Fixpoint main_loop (turns : nat) (env : Env) (config : Config) (clock : nat -> Time)
    (k : nat) (w : World) : status * World :=
  match turns with
  | O => (Running, w)
  | S turns' =>
      match main_iteration env config (clock k) w with
      | (Running, w') => main_loop turns' env config clock (S k) w'
      | stopped => stopped
      end
  end.

End Program.

(* ===================================================================== *)
(** * Part II: properties *)
(* ===================================================================== *)

(** ** Strings *)

(** The equations of string concatenation. *)
Lemma append_nil_l (s : string) : "" ++ s = s.
Proof. reflexivity. Qed.

Lemma append_cons (c : ascii) (s r : string) : String c s ++ r = String c (s ++ r).
Proof. reflexivity. Qed.

Lemma append_empty_r (s : string) : s ++ "" = s.
Proof. induction s as [|c s IH]; [reflexivity|]. rewrite append_cons, IH. reflexivity. Qed.

(** [strings.SplitN(s, sep, 2)] on a string without the separator, and on
    one whose first separator comes after [id]. *)
Lemma strings_SplitN2_no_sep (s : string) (sep : ascii) :
  hasByte sep s = false -> strings_SplitN2 s sep = [s].
Proof.
  induction s as [|c s IH]; simpl; [reflexivity|].
  destruct (Ascii.eqb c sep); [discriminate|]. simpl. intros H. rewrite (IH H). reflexivity.
Qed.

Lemma strings_SplitN2_first (id rest : string) (sep : ascii) :
  hasByte sep id = false -> strings_SplitN2 (id ++ String sep rest) sep = [id; rest].
Proof.
  induction id as [|c id IH]; intros Hid.
  - rewrite append_nil_l. simpl. rewrite Ascii.eqb_refl. reflexivity.
  - rewrite append_cons. simpl in *. destruct (Ascii.eqb c sep); [discriminate|].
    simpl in Hid. rewrite (IH Hid). reflexivity.
Qed.

(** [strings.Split] on a string without the separator, on one whose first
    separator comes after [x], and on what [strings.Join] made of pieces
    without the separator. *)
Lemma strings_Split_no_sep (s : string) (sep : ascii) :
  hasByte sep s = false -> strings_Split s sep = [s].
Proof.
  induction s as [|c s IH]; simpl; [reflexivity|].
  destruct (Ascii.eqb c sep); [discriminate|]. simpl. intros H. rewrite (IH H). reflexivity.
Qed.

Lemma strings_Split_first (x rest : string) (sep : ascii) :
  hasByte sep x = false ->
  strings_Split (x ++ String sep rest) sep = x :: strings_Split rest sep.
Proof.
  induction x as [|c x IH]; intros Hx.
  - rewrite append_nil_l. simpl. rewrite Ascii.eqb_refl. reflexivity.
  - rewrite append_cons. simpl in *. destruct (Ascii.eqb c sep); [discriminate|].
    simpl in Hx. rewrite (IH Hx). reflexivity.
Qed.

Lemma strings_Split_Join (elems : list string) (sep : ascii) :
  elems <> [] ->
  forallb (fun x => negb (hasByte sep x)) elems = true ->
  strings_Split (strings_Join elems (String sep "")) sep = elems.
Proof.
  unfold strings_Join. induction elems as [|x elems IH]; [contradiction|].
  intros _ Hall. simpl in Hall. apply andb_prop in Hall as [Hx Hall].
  apply negb_true_iff in Hx.
  destruct elems as [|y elems].
  - simpl. apply strings_Split_no_sep, Hx.
  - change (String.concat (String sep "") (x :: y :: elems))
      with (x ++ String sep "" ++ String.concat (String sep "") (y :: elems)).
    rewrite append_cons, append_nil_l, strings_Split_first by exact Hx.
    rewrite IH by (discriminate || exact Hall). reflexivity.
Qed.

(** ** Derived metrics *)

(** Swapping the operands of a comparison of two floats swaps its verdict;
    a NaN on either side leaves none. *)
Lemma SFcompare_antisym (a b : spec_float) (c : comparison) :
  SFcompare a b = Some c -> SFcompare b a = Some (CompOpp c).
Proof.
  destruct a as [sa|sa| |sa ma ea], b as [sb|sb| |sb mb eb]; simpl;
    try discriminate;
    try (destruct sa; intros [= <-]; reflexivity);
    try (destruct sb; intros [= <-]; reflexivity);
    try (destruct sa, sb; intros [= <-]; reflexivity).
  intros [= <-]. f_equal.
  assert (Hm : Pos.compare_cont Eq mb ma = CompOpp (Pos.compare_cont Eq ma mb))
    by (rewrite Pos.compare_cont_antisym; reflexivity).
  rewrite (Z.compare_antisym ea eb), Hm.
  destruct sa, sb; try reflexivity;
    destruct (ea ?= eb); simpl; try reflexivity;
    destruct (Pos.compare_cont Eq ma mb); reflexivity.
Qed.

(** A temperature that fails [t >= a] and passes [t >= b] lies strictly
    below [a]: it cannot be a NaN, which passes no test. *)
Lemma f64_below_band (a b t : float64) :
  a <> S754_nan -> f64_ge t a = false -> f64_ge t b = true -> f64_gt a t = true.
Proof.
  unfold f64_ge, f64_gt, SFleb, SFltb. intros Ha Hlo Hhi.
  destruct (SFcompare a t) as [c|] eqn:Hc.
  - rewrite (SFcompare_antisym _ _ _ Hc). destruct c; simpl; congruence.
  - destruct a, t; simpl in *; try discriminate; try congruence.
    all: destruct b; simpl in Hhi; discriminate.
Qed.

Ltac below_band Hlo Hhi hi lo :=
  match type of Hlo with
  | f64_ge ?t _ = false =>
      rewrite (f64_below_band (float64_of_Z hi) (float64_of_Z lo) t
                 ltac:(vm_compute; discriminate) Hlo Hhi), ?andb_false_r
  end; reflexivity.

(** C9. For every outdoor temperature, a NaN and the infinities included,
    [IndoorHumidityRecommendation] is the step function of the bands
    [t >= 50 -> 50], [50 > t >= 40 -> 45], ..., [0 > t >= -10 -> 20] and 15
    otherwise; at 25 it is 35, at -20 it is 15, and at the boundary 50 it
    is 50. *)
Theorem IndoorHumidityRecommendation_step :
  (forall t : float64, IndoorHumidityRecommendation t = humidityBands t)
  /\ IndoorHumidityRecommendation (float64_of_Z 25) = 35
  /\ IndoorHumidityRecommendation (float64_of_Z (-20)) = 15
  /\ IndoorHumidityRecommendation (float64_of_Z 50) = 50
  /\ IndoorHumidityRecommendation S754_nan = 15.
Proof.
  split; [|repeat split; vm_compute; reflexivity].
  intros t. unfold IndoorHumidityRecommendation, humidityBands.
  destruct (f64_ge t (float64_of_Z 50)) eqn:H50; [reflexivity|].
  destruct (f64_ge t (float64_of_Z 40)) eqn:H40; [below_band H50 H40 50 40|].
  destruct (f64_ge t (float64_of_Z 30)) eqn:H30; [below_band H40 H30 40 30|].
  destruct (f64_ge t (float64_of_Z 20)) eqn:H20; [below_band H30 H20 30 20|].
  destruct (f64_ge t (float64_of_Z 10)) eqn:H10; [below_band H20 H10 20 10|].
  destruct (f64_ge t (float64_of_Z 0)) eqn:H0; [below_band H10 H0 10 0|].
  destruct (f64_ge t (float64_of_Z (-10))) eqn:Hm10; [below_band H0 Hm10 0 (-10)|].
  rewrite !andb_false_r. reflexivity.
Qed.

(** ** Equipment status *)

(** A name the [switch] has no case for falls through it. *)
Lemma EquipmentStatus_Set_other (es : EquipmentStatus) (field : string) (state : bool) :
  ~ In field equipmentNames -> EquipmentStatus_Set es field state = es.
Proof.
  intros Hnot. destruct es. unfold EquipmentStatus_Set.
  repeat match goal with
  | |- context [String.eqb field ?name] =>
      destruct (String.eqb_spec field name) as [->|_];
        [exfalso; apply Hnot; simpl; tauto|]
  end.
  reflexivity.
Qed.

(** The loop over a status list, piece by piece. *)
Lemma setStatuses_app (es : EquipmentStatus) (xs ys : list string) :
  setStatuses es (xs ++ ys) = setStatuses (setStatuses es xs) ys.
Proof. unfold setStatuses. apply foldl_app. Qed.

Lemma setStatuses_cons (es : EquipmentStatus) (x : string) (xs : list string) :
  setStatuses es (x :: xs) = setStatuses (EquipmentStatus_Set es x true) xs.
Proof. reflexivity. Qed.

(** A value with a [":"] in it always splits in two. *)
Lemma strings_SplitN2_colon (id rest : string) :
  exists lhs rhs, strings_SplitN2 (id ++ String ":" rest) ":" = [lhs; rhs].
Proof.
  induction id as [|c id IH]; simpl.
  - eauto.
  - destruct (Ascii.eqb c ":"); [eauto|].
    destruct IH as (lhs & rhs & ->). eauto.
Qed.

(** The status built from an entry with its colon is the one its comma
    separated names switch on, for names that hold no comma themselves. *)
Lemma buildEquipmentStatus_Join (id : string) (names : list string) :
  hasByte ":" id = false ->
  forallb (fun x => negb (hasByte "," x)) names = true ->
  buildEquipmentStatus (id ++ String ":" (strings_Join names ","))
  = Ok (setStatuses zeroEquipmentStatus names).
Proof.
  intros Hid Hnames. unfold buildEquipmentStatus.
  rewrite strings_SplitN2_first by exact Hid.
  destruct names as [|x names]; [reflexivity|].
  pose proof (strings_Split_Join (x :: names) "," ltac:(discriminate) Hnames) as Hsplit.
  destruct (strings_Join (x :: names) ",") as [|c rest].
  - rewrite <- Hsplit. reflexivity.
  - cbn [at_index lookup list_lookup mbind result_bind String.length Nat.eqb].
    rewrite Hsplit. reflexivity.
Qed.

(** C10. [Set] with a name outside the fifteen of its [switch] leaves every
    flag as it was; so a status list with such a name in it gives what the
    list without it gives; and for a status entry with its colon,
    [buildEquipmentStatus] returns for the list with the unknown name the
    very status it returns for the list without it, the one the other
    names switch on, and no error.  Whatever the identifier and the names
    are, it returns a status for such an entry and no error. *)
Theorem EquipmentStatus_Set_unknown_frame
    (es : EquipmentStatus) (field : string) (state : bool) :
  ~ In field equipmentNames ->
  EquipmentStatus_Set es field state = es
  /\ (forall before after : list string,
        setStatuses es (before ++ field :: after) = setStatuses es (before ++ after))
  /\ (forall (id : string) (before after : list string),
        hasByte ":" id = false ->
        hasByte "," field = false ->
        forallb (fun x => negb (hasByte "," x)) (before ++ after) = true ->
        buildEquipmentStatus
          (id ++ String ":" (strings_Join (before ++ field :: after) ","))
        = buildEquipmentStatus (id ++ String ":" (strings_Join (before ++ after) ","))
        /\ buildEquipmentStatus
             (id ++ String ":" (strings_Join (before ++ field :: after) ","))
           = Ok (setStatuses zeroEquipmentStatus (before ++ after)))
  /\ (forall (id : string) (before after : list string),
        exists es' : EquipmentStatus,
          buildEquipmentStatus
            (id ++ String ":" (strings_Join (before ++ field :: after) ",")) = Ok es').
Proof.
  intros Hnot.
  assert (Hframe : forall (es0 : EquipmentStatus) (before after : list string),
             setStatuses es0 (before ++ field :: after) = setStatuses es0 (before ++ after)).
  { intros es0 before after. rewrite !setStatuses_app, setStatuses_cons.
    rewrite EquipmentStatus_Set_other by exact Hnot. reflexivity. }
  split; [|split; [|split]].
  - apply EquipmentStatus_Set_other, Hnot.
  - apply Hframe.
  - intros id before after Hid Hfield Hrest.
    assert (Hall : forallb (fun x => negb (hasByte "," x)) (before ++ field :: after) = true).
    { rewrite forallb_app in *. cbn [forallb]. rewrite Hfield.
      apply andb_prop in Hrest as [-> ->]. reflexivity. }
    rewrite !buildEquipmentStatus_Join by assumption.
    rewrite Hframe. split; reflexivity.
  - intros id before after. unfold buildEquipmentStatus.
    destruct (strings_SplitN2_colon id (strings_Join (before ++ field :: after) ","))
      as (lhs & rhs & ->).
    simpl. destruct (String.length rhs =? 0)%nat; eauto.
Qed.

(** The name [heatPump4], alone and between [fan] and [heatPump]. *)
Lemma EquipmentStatus_Set_unknown_frame_witness :
  EquipmentStatus_Set zeroEquipmentStatus "heatPump4" true = zeroEquipmentStatus
  /\ buildEquipmentStatus "411:fan,heatPump4,heatPump" = buildEquipmentStatus "411:fan,heatPump"
  /\ buildEquipmentStatus "411:fan,heatPump4,heatPump"
     = Ok (setStatuses zeroEquipmentStatus ["fan"; "heatPump"])
  /\ buildEquipmentStatus "411:heatPump4" = buildEquipmentStatus "411:".
Proof.
  destruct (EquipmentStatus_Set_unknown_frame zeroEquipmentStatus "heatPump4" true)
    as (Hset & _ & Hbuild & _); [simpl; intuition discriminate|].
  split; [exact Hset|].
  destruct (Hbuild "411" ["fan"] ["heatPump"] eq_refl eq_refl eq_refl) as [Hsame Hstatus].
  destruct (Hbuild "411" [] [] eq_refl eq_refl eq_refl) as [Halone _].
  split; [exact Hsame|]. split; [exact Hstatus|exact Halone].
Defined.

(** ** The runtime-report request *)

(** Membership in a column list that an [if] may have appended to. *)
Lemma In_grow (c x : string) (b : bool) (xs : list string) :
  In c (if b then (xs ++ [x])%list else xs) <-> In c xs \/ (b = true /\ x = c).
Proof.
  destruct b.
  - rewrite in_app_iff. simpl. tauto.
  - split; [tauto|]. intros [H|[H _]]; [exact H|discriminate].
Qed.

(** The column list, one disjunct per [if] of the function. *)
Lemma col_to_include_In (c : string) (wHum wAux1 wAux2 wHp1 wHp2 wCool1 wCool2 : bool) :
  In c (col_to_include wHum wAux1 wAux2 wHp1 wHp2 wCool1 wCool2) <->
  (((((In c ["zoneCoolTemp"; "zoneHeatTemp"; "zoneAveTemp"; "zoneHumidity";
             "outdoorTemp"; "outdoorHumidity"; "fan"]
       \/ (wHum = true /\ "humidifier" = c))
      \/ (wAux1 = true /\ "auxHeat1" = c))
     \/ (wAux2 = true /\ "auxHeat2" = c))
    \/ (wHp1 = true /\ "compHeat1" = c))
   \/ (wCool1 = true /\ "compCool1" = c))
  \/ (wCool2 = true /\ "compCool2" = c).
Proof.
  unfold col_to_include.
  do 6 (etransitivity; [apply In_grow|]; apply or_iff_compat_r).
  reflexivity.
Qed.

(** C3. Whatever the thermostat and the seven flags, the request that
    [GetRuntimeReport] sends carries the literal date 2022-02-16 as its
    start and as its end (the function has no parameter for a window); its
    column list holds the seven core columns, holds [humidifier],
    [auxHeat1], [auxHeat2], [compHeat1], [compCool1] and [compCool2] exactly
    when the flag of each is set, and never holds [compHeat2]. *)
Theorem GetRuntimeReport_request_literal_dates
    (thermostatID : string) (wHum wAux1 wAux2 wHp1 wHp2 wCool1 wCool2 : bool) :
  let req := runtimeReportRequest thermostatID wHum wAux1 wAux2 wHp1 wHp2 wCool1 wCool2 in
  let cols := col_to_include wHum wAux1 wAux2 wHp1 wHp2 wCool1 wCool2 in
  Req_StartDate req = "2022-02-16"
  /\ Req_EndDate req = "2022-02-16"
  /\ Req_Columns req = strings_Join cols ","
  /\ SelectionMatch (Req_Selection req) = thermostatID
  /\ (forall c, In c ["zoneCoolTemp"; "zoneHeatTemp"; "zoneAveTemp"; "zoneHumidity";
                      "outdoorTemp"; "outdoorHumidity"; "fan"] -> In c cols)
  /\ (In "humidifier" cols <-> wHum = true)
  /\ (In "auxHeat1" cols <-> wAux1 = true)
  /\ (In "auxHeat2" cols <-> wAux2 = true)
  /\ (In "compHeat1" cols <-> wHp1 = true)
  /\ (In "compCool1" cols <-> wCool1 = true)
  /\ (In "compCool2" cols <-> wCool2 = true)
  /\ (In "compHeat2" cols <-> False).
Proof.
  intros req cols. subst req cols.
  split; [reflexivity|]. split; [reflexivity|]. split; [reflexivity|].
  split; [reflexivity|].
  split.
  - intros c Hc. apply col_to_include_In. do 6 left. exact Hc.
  - repeat split.
    all: try (intros Hin; apply col_to_include_In in Hin; simpl in Hin;
              decompose [or and] Hin; solve [discriminate | assumption | contradiction]).
    all: try (intros Hf; exact (False_ind _ Hf)).
    all: intros ->; apply col_to_include_In; repeat first [right; split; reflexivity | left].
Qed.

(** ** The field mapping *)

Section MapperProps.

Variable strconv_ParseFloat : string -> float64 * option error.

(** The chain of [if]s is the table look-up. *)
Lemma setField_table (fields : gmap string FieldValue) (key val : string) :
  setField strconv_ParseFloat fields key val =
  match sinkField key with
  | Some (name, ty) => <[name := convert strconv_ParseFloat ty val]> fields
  | None => fields
  end.
Proof.
  unfold setField, sinkField. simpl.
  repeat match goal with
  | |- context [String.eqb key ?col] =>
      destruct (String.eqb key col) eqn:?; [reflexivity|]
  end.
  reflexivity.
Qed.

(** No two columns of the table share a sink field. *)
Lemma sinkField_vendorColumn (col name : string) (ty : FieldType) :
  sinkField col = Some (name, ty) -> vendorColumn name = Some col.
Proof.
  unfold sinkField. simpl.
  repeat match goal with
  | |- context [String.eqb col ?c] =>
      destruct (String.eqb_spec col c) as [->|_];
        [intros [= <- <-]; reflexivity|]
  end.
  discriminate.
Qed.

Lemma sinkField_inj (c1 c2 name : string) (t1 t2 : FieldType) :
  sinkField c1 = Some (name, t1) -> sinkField c2 = Some (name, t2) -> c1 = c2.
Proof.
  intros H1%sinkField_vendorColumn H2%sinkField_vendorColumn. congruence.
Qed.

(** The table as a list and as a look-up agree. *)
Lemma sinkField_In (col name : string) (ty : FieldType) :
  sinkField col = Some (name, ty) <-> In (col, name, ty) sinkTable.
Proof.
  split.
  - unfold sinkField. destruct (List.find _ sinkTable) as [[[c n] t]|] eqn:Hfind;
      [|discriminate].
    intros [= <- <-]. apply List.find_some in Hfind as [Hin Heq]. simpl in Heq.
    apply String.eqb_eq in Heq. subst c. exact Hin.
  - simpl. intros H.
    repeat (destruct H as [[= <- <- <-]|H]; [reflexivity|]).
    destruct H.
Qed.

(** The fields after the loop: one per column the table knows. *)
Lemma mapFields_lookup (dataFields : gmap string string) (name : string) (v : FieldValue) :
  mapFields strconv_ParseFloat dataFields !! name = Some v <->
  exists col ty val,
    sinkField col = Some (name, ty) /\ dataFields !! col = Some val /\ v = convert strconv_ParseFloat ty val.
Proof.
  unfold mapFields. revert name v.
  apply (map_fold_weak_ind
           (fun (r : gmap string FieldValue) (m : gmap string string) =>
              forall name v, r !! name = Some v <->
                exists col ty val,
                  sinkField col = Some (name, ty) /\ m !! col = Some val
                  /\ v = convert strconv_ParseFloat ty val)).
  - intros name v. rewrite lookup_empty. split; [discriminate|].
    intros (col & ty & val & _ & Hcol & _). rewrite lookup_empty in Hcol. discriminate.
  - intros i x m r Hfresh IH name v. rewrite setField_table.
    destruct (sinkField i) as [[n t]|] eqn:Hi.
    + destruct (decide (n = name)) as [->|Hne].
      * rewrite lookup_insert_eq. split.
        -- intros [= <-]. exists i, t, x. rewrite lookup_insert_eq. auto.
        -- intros (col & ty & val & Hcol & Hval & ->).
           assert (col = i) by (eapply sinkField_inj; eauto). subst col.
           rewrite lookup_insert_eq in Hval. congruence.
      * rewrite lookup_insert_ne by exact Hne. rewrite IH. split.
        -- intros (col & ty & val & Hcol & Hval & ->). exists col, ty, val.
           rewrite lookup_insert_ne by congruence. auto.
        -- intros (col & ty & val & Hcol & Hval & ->). exists col, ty, val.
           rewrite lookup_insert_ne in Hval by congruence. auto.
    + rewrite IH. split.
      * intros (col & ty & val & Hcol & Hval & ->). exists col, ty, val.
        rewrite lookup_insert_ne by congruence. auto.
      * intros (col & ty & val & Hcol & Hval & ->). exists col, ty, val.
        rewrite lookup_insert_ne in Hval by congruence. auto.
Qed.

End MapperProps.

(** C7, as the program has it.  For every entry, the fields of its point
    are exactly these: for each row [(column, field, type)] of [sinkTable]
    whose column the entry has, the field of that name holding the column's
    raw string converted to that type ([Atoi]'s integer, [ParseFloat]'s
    float, the string itself).  The float fields are named with the degree
    and percent signs, [temperature_°F], [setpoint_cool_°F],
    [setpoint_heat_°F], [outdoor_temperature_°F], [humidity_%] and
    [outdoor_humidity_%]; a column outside the table gives no field. *)
Theorem entryPoint_fields_follow_table
    (strconv_ParseFloat : string -> float64 * option error)
    (meta : gmap string string) (entry : RuntimeReportDataEntry)
    (name : string) (v : FieldValue) :
  pt_fields (entryPoint strconv_ParseFloat meta entry) !! name = Some v <->
  exists col ty val,
    In (col, name, ty) sinkTable
    /\ DataFields entry !! col = Some val
    /\ v = convert strconv_ParseFloat ty val.
Proof.
  simpl. rewrite mapFields_lookup. split.
  - intros (col & ty & val & Hcol & Hrest). exists col, ty, val.
    split; [apply sinkField_In, Hcol|exact Hrest].
  - intros (col & ty & val & Hcol & Hrest). exists col, ty, val.
    split; [apply sinkField_In, Hcol|exact Hrest].
Qed.

(** The entry of the specification's example, columns [zoneAveTemp] and
    [fan] with an unknown third one: the temperature is stored under
    [temperature_°F], and no field is named [temperature_F]. *)
Lemma entryPoint_no_temperature_F :
  let entry := mkRuntimeReportDataEntry 0
                 (<["zoneAveTemp" := "70.5"]> (<["fan" := "1"]> (<["dmOffset" := "7"]> ∅))) in
  let fields := pt_fields (entryPoint parseDecimal ∅ entry) in
  fields !! "temperature_F" = None
  /\ fields !! "temperature_°F" = Some (FloatField (S754_finite false 4960996464525312 (-46)))
  /\ fields !! "fan_run_time_s" = Some (IntField 1)
  /\ size fields = 2%nat.
Proof. vm_compute. repeat split; reflexivity. Qed.

(** ** The calendar *)

(** A check that ran over a stretch of integers holds of each of them. *)
Lemma all_from_spec (n : nat) : forall (z0 : Z) (p : Z -> bool),
  all_from n z0 p = true -> forall z, z0 <= z < z0 + Z.of_nat n -> p z = true.
Proof.
  induction n as [|n IH]; intros z0 p H z Hz; [lia|].
  simpl in H. apply andb_prop in H as [H1 H2].
  destruct (Z.eq_dec z z0) as [->|]; [exact H1|].
  apply (IH (z0 + 1) p H2). lia.
Qed.

(** The two checks, run over all 400 years of an era and all 366 days of
    a year. *)
Lemma yoe_check_all (y : Z) : 0 <= y < 400 -> yoe_check y = true.
Proof.
  intros Hy. apply (all_from_spec 400 0 yoe_check); [vm_compute; reflexivity|lia].
Qed.

Lemma doy_check_all (doy : Z) : 0 <= doy < 366 -> doy_check doy = true.
Proof.
  intros Hy. apply (all_from_spec 366 0 doy_check); [vm_compute; reflexivity|lia].
Qed.

(** Later days are in later years. *)
Lemma yoe_of_doe_mono (a b : Z) : 0 <= a <= b -> yoe_of_doe a <= yoe_of_doe b.
Proof.
  intros H. unfold yoe_of_doe. apply Z.div_le_mono; [lia|].
  Z.div_mod_to_equations. lia.
Qed.

(** A day of an era lies within the year found for it, and is a 366th
    day only of a year that precedes a leap February. *)
Lemma yoe_of_doe_spec (doe : Z) :
  0 <= doe < 146097 ->
  let y := yoe_of_doe doe in
  0 <= y < 400 /\ 0 <= doe - year_start y < 366
  /\ (doe - year_start y = 365 -> isLeap (y + 1) = true).
Proof.
  intros Hdoe y.
  assert (H0 : yoe_of_doe 0 = 0) by reflexivity.
  assert (Hlast : yoe_of_doe 146096 = 399) by reflexivity.
  assert (Hlo : 0 <= y) by (rewrite <- H0; apply yoe_of_doe_mono; lia).
  assert (Hhi : y <= 399) by (rewrite <- Hlast; apply yoe_of_doe_mono; lia).
  assert (Hstart : year_start y <= doe).
  { destruct (Z_le_gt_dec (year_start y) doe) as [|Hgt]; [assumption|exfalso].
    assert (Hy1 : 1 <= y).
    { destruct (Z.eq_dec y 0) as [Hy0|]; [|lia]. rewrite Hy0 in Hgt.
      change (year_start 0) with 0 in Hgt. lia. }
    pose proof (yoe_check_all (y - 1) ltac:(lia)) as Hc.
    unfold yoe_check in Hc. apply andb_prop in Hc as [_ Hc]. apply Z.eqb_eq in Hc.
    replace (y - 1 + 1) with y in Hc by lia.
    pose proof (yoe_of_doe_mono doe (year_start y - 1) ltac:(lia)). fold y in H. lia. }
  assert (Hnext : y < 399 -> doe < year_start (y + 1)).
  { intros Hy. destruct (Z_lt_ge_dec doe (year_start (y + 1))) as [|Hge]; [assumption|exfalso].
    pose proof (yoe_check_all (y + 1) ltac:(lia)) as Hc.
    unfold yoe_check in Hc. apply andb_prop in Hc as [Hc _]. apply Z.eqb_eq in Hc.
    assert (0 <= year_start (y + 1)) by (unfold year_start; Z.div_mod_to_equations; lia).
    pose proof (yoe_of_doe_mono (year_start (y + 1)) doe ltac:(lia)). fold y in H0. lia. }
  split; [lia|].
  destruct (Z.eq_dec y 399) as [Hy|Hy].
  - rewrite Hy. change (year_start 399) with 145731. split; [rewrite Hy in Hstart; change (year_start 399) with 145731 in Hstart; lia|reflexivity].
  - specialize (Hnext ltac:(lia)). unfold year_start in *. unfold isLeap.
    split; [Z.div_mod_to_equations; lia|].
    intros H365.
    assert ((y + 1) mod 4 = 0 /\ ((y + 1) mod 100 <> 0 \/ (y + 1) mod 400 = 0))
      as [-> Hc] by (Z.div_mod_to_equations; lia).
    simpl. destruct Hc as [Hc| ->]; [|apply orb_true_r].
    apply Z.eqb_neq in Hc. rewrite Hc. reflexivity.
Qed.

(** Leap years repeat every 400 years. *)
Lemma isLeap_era (y era : Z) : isLeap (y + era * 400) = isLeap y.
Proof.
  unfold isLeap.
  replace ((y + era * 400) mod 4) with (y mod 4) by (Z.div_mod_to_equations; lia).
  replace ((y + era * 400) mod 100) with (y mod 100) by (Z.div_mod_to_equations; lia).
  replace ((y + era * 400) mod 400) with (y mod 400) by (Z.div_mod_to_equations; lia).
  reflexivity.
Qed.

(** The date found for a day is a date of the calendar, and is that day's. *)
Lemma civil_from_days_spec (z : Z) :
  let '(y, m, d) := civil_from_days z in
  days_from_civil y m d = z /\ 1 <= m <= 12 /\ 1 <= d <= daysIn m y.
Proof.
  unfold civil_from_days.
  set (z' := z + 306). set (era := z' / 146097). set (doe := z' mod 146097).
  assert (Hdoe : 0 <= doe < 146097) by (apply Z.mod_pos_bound; lia).
  pose proof (yoe_of_doe_spec doe Hdoe) as (Hy & Hdoy & Hleap).
  set (yoe := yoe_of_doe doe) in *. set (doy := doe - year_start yoe) in *.
  pose proof (doy_check_all doy Hdoy) as Hc. unfold doy_check in Hc.
  destruct (month_day_of_doy doy) as [m d].
  repeat (apply andb_prop in Hc as [Hc ?]).
  repeat match goal with H : (_ <=? _) = true |- _ => apply Z.leb_le in H
                    | H : (_ =? _) = true |- _ => apply Z.eqb_eq in H end.
  split; [|split; [lia|]].
  - unfold days_from_civil.
    replace (if m <=? 2 then yoe + era * 400 + (if m <=? 2 then 1 else 0) - 1
             else yoe + era * 400 + (if m <=? 2 then 1 else 0))
      with (yoe + era * 400) by (destruct (m <=? 2); lia).
    replace ((yoe + era * 400) / 400) with era by (Z.div_mod_to_equations; lia).
    replace ((yoe + era * 400) mod 400) with yoe by (Z.div_mod_to_equations; lia).
    rewrite H0.
    assert (z' = era * 146097 + doe) by (unfold era, doe; Z.div_mod_to_equations; lia).
    subst doy z'. unfold year_start in *. clearbody era doe yoe. clear - H4. lia.
  - split; [lia|].
    unfold daysIn in *.
    destruct (m =? 2) eqn:Hm2; [|exact H1].
    apply Z.eqb_eq in Hm2. subst m. simpl.
    replace (yoe + era * 400 + 1) with ((yoe + 1) + era * 400) by lia.
    rewrite isLeap_era.
    destruct (doy =? 365) eqn:H365.
    + apply Z.eqb_eq in H365. rewrite (Hleap H365). exact H1.
    + destruct (isLeap (yoe + 1)); lia.
Qed.

(** The days of the years 0000 to 9999 are those from [dayMin] to
    [dayMax], the days of earlier years come before and those of later
    years after. *)
Lemma days_from_civil_range (y m d : Z) :
  1 <= m <= 12 -> 1 <= d <= 31 ->
  (0 <= y <= 9999 -> dayMin <= days_from_civil y m d <= dayMax)
  /\ (y < 0 -> days_from_civil y m d < dayMin)
  /\ (9999 < y -> dayMax < days_from_civil y m d).
Proof.
  intros Hm Hd. unfold days_from_civil, dayMin, dayMax.
  assert (Hdoy : if m <=? 2 then 306 <= (153 * ((m + 9) mod 12) + 2) / 5 <= 337
                 else 0 <= (153 * ((m + 9) mod 12) + 2) / 5 <= 275).
  { destruct (Z.leb_spec m 2); Z.div_mod_to_equations; lia. }
  destruct (m <=? 2); Z.div_mod_to_equations; lia.
Qed.

(** ** Formatting a date and reading it back *)

(** Digits written are the digits read. *)
Lemma digit_of_digit_char (d : Z) : 0 <= d <= 9 -> digit_of (digit_char d) = Some d.
Proof.
  intros Hd.
  assert (Hcases : d = 0 \/ d = 1 \/ d = 2 \/ d = 3 \/ d = 4 \/ d = 5 \/ d = 6
                   \/ d = 7 \/ d = 8 \/ d = 9) by lia.
  repeat (destruct Hcases as [->|Hcases]; [reflexivity|]). subst d. reflexivity.
Qed.

Lemma digit_of_range (c : ascii) (d : Z) : digit_of c = Some d -> 0 <= d <= 9.
Proof.
  unfold digit_of. destruct (Z.leb_spec 48 (Z.of_N (N_of_ascii c)));
    destruct (Z.leb_spec (Z.of_N (N_of_ascii c)) 57); simpl; intros [= <-]; lia.
Qed.

(** A year of four digits and a field of two, written and read back. *)
Lemma getyear_appendInt (y : Z) (rest : string) :
  0 <= y <= 9999 -> getyear (appendInt y 4 ++ rest) = Some (y, rest).
Proof.
  intros Hy. unfold appendInt.
  rewrite Z.abs_eq by lia.
  destruct (Z.ltb_spec y 0); [lia|].
  change (4 =? 2)%nat with false. change (4 =? 4)%nat with true.
  destruct (Z.ltb_spec y 10000); [|lia].
  cbv beta iota delta [andb].
  rewrite append_nil_l, !append_cons, append_nil_l.
  cbv beta iota delta [getyear].
  rewrite !digit_of_digit_char by (Z.div_mod_to_equations; lia).
  f_equal. f_equal. Z.div_mod_to_equations; lia.
Qed.

Lemma getnum_appendInt (n : Z) (rest : string) :
  0 <= n <= 99 -> getnum (appendInt n 2 ++ rest) true = Some (n, rest).
Proof.
  intros Hn. unfold appendInt.
  rewrite Z.abs_eq by lia.
  destruct (Z.ltb_spec n 0); [lia|].
  change (2 =? 2)%nat with true.
  destruct (Z.ltb_spec n 100); [|lia].
  cbv beta iota delta [andb].
  rewrite append_nil_l, !append_cons, append_nil_l.
  cbv beta iota delta [getnum].
  rewrite !digit_of_digit_char by (Z.div_mod_to_equations; lia).
  f_equal. f_equal. Z.div_mod_to_equations; lia.
Qed.

(** No month is longer than 31 days. *)
Lemma daysIn_le_31 (m y : Z) : daysIn m y <= 31.
Proof.
  unfold daysIn. destruct (m =? 2); [destruct (isLeap y); lia|].
  destruct ((m =? 4) || (m =? 6) || (m =? 9) || (m =? 11)); lia.
Qed.

(** A day between [dayMin] and [dayMax] is in a year of four digits. *)
Lemma civil_from_days_year (z : Z) :
  dayMin <= z <= dayMax ->
  let '(y, m, d) := civil_from_days z in 0 <= y <= 9999.
Proof.
  intros Hz. pose proof (civil_from_days_spec z) as Hspec.
  destruct (civil_from_days z) as [[y m] d]. destruct Hspec as (Hback & Hm & Hd).
  pose proof (daysIn_le_31 m y).
  pose proof (days_from_civil_range y m d Hm ltac:(lia)) as (_ & Hneg & Hbig).
  destruct (Z_lt_ge_dec y 0); [specialize (Hneg ltac:(lia)); lia|].
  destruct (Z_lt_ge_dec 9999 y); [specialize (Hbig ltac:(lia)); lia|]. lia.
Qed.

(** The literal bytes of the layout, met in the value. *)
Lemma skip_byte_same (c : ascii) (rest : string) : skip_byte c (String c rest) = Some rest.
Proof. unfold skip_byte. rewrite Ascii.eqb_refl. reflexivity. Qed.

(** The three fields of a formatted date, read back. *)
Lemma parse_date_fields_appendInt (y m d : Z) :
  0 <= y <= 9999 -> 1 <= m <= 12 -> 0 <= d <= 99 ->
  parse_date_fields (appendInt y 4 ++ "-" ++ appendInt m 2 ++ "-" ++ appendInt d 2)
  = Some (y, m, d, "").
Proof.
  intros Hy Hm Hd. unfold parse_date_fields.
  rewrite getyear_appendInt by exact Hy.
  cbn [mbind option_bind]. rewrite append_cons, append_nil_l, skip_byte_same.
  cbn [mbind option_bind]. rewrite getnum_appendInt by lia.
  cbn [mbind option_bind].
  destruct (Z.leb_spec m 0); [lia|]. destruct (Z.ltb_spec 12 m); [lia|].
  cbv beta iota delta [orb]. rewrite append_cons, append_nil_l, skip_byte_same.
  cbn [mbind option_bind].
  rewrite <- (append_empty_r (appendInt d 2)).
  rewrite getnum_appendInt by lia. reflexivity.
Qed.

(** Formatting a time as a date and parsing the result gives midnight of
    its day, for every day a four-digit year can name. *)
Lemma time_Parse_Format_date (t : Time) :
  dayMin <= dayOf t <= dayMax ->
  time_Parse_date (time_Format_date t) = Ok (dayOf t * nsPerDay).
Proof.
  intros Hrange. unfold time_Format_date. fold (dayOf t).
  pose proof (civil_from_days_spec (dayOf t)) as Hspec.
  pose proof (civil_from_days_year (dayOf t) Hrange) as Hyear.
  destruct (civil_from_days (dayOf t)) as [[y m] d].
  destruct Hspec as (Hback & Hm & Hd).
  pose proof (daysIn_le_31 m y).
  unfold time_Parse_date.
  rewrite parse_date_fields_appendInt by lia.
  unfold day_in_range.
  destruct (Z.ltb_spec d 1); [lia|]. destruct (Z.ltb_spec (daysIn m y) d); [lia|].
  cbv beta iota delta [orb negb].
  unfold time_Date. rewrite Hback. f_equal. unfold nsPerDay. lia.
Qed.

(** Four digits spell a year from 0 to 9999. *)
Lemma getyear_range (s rest : string) (y : Z) :
  getyear s = Some (y, rest) -> 0 <= y <= 9999.
Proof.
  unfold getyear.
  destruct s as [|a [|b [|c [|d r]]]]; try discriminate.
  destruct (digit_of a) eqn:Ha; [|discriminate].
  destruct (digit_of b) eqn:Hb; [|discriminate].
  destruct (digit_of c) eqn:Hc; [|discriminate].
  destruct (digit_of d) eqn:Hd; [|discriminate].
  apply digit_of_range in Ha, Hb, Hc, Hd. intros [= <- _]. lia.
Qed.

(** A parsed date is midnight of a day between [dayMin] and [dayMax]. *)
Lemma time_Parse_date_aligned (value : string) (t : Time) :
  time_Parse_date value = Ok t ->
  t = dayOf t * nsPerDay /\ dayMin <= dayOf t <= dayMax.
Proof.
  unfold time_Parse_date, parse_date_fields.
  destruct (getyear value) as [[year v0]|] eqn:Hyear; [|discriminate].
  cbn [mbind option_bind].
  destruct (skip_byte "-" v0) as [v1|]; [|discriminate]. cbn [mbind option_bind].
  destruct (getnum v1 true) as [[month v2]|]; [|discriminate]. cbn [mbind option_bind].
  destruct (Z.leb_spec month 0); [discriminate|].
  destruct (Z.ltb_spec 12 month); [discriminate|]. cbv beta iota delta [orb].
  destruct (skip_byte "-" v2) as [v3|]; [|discriminate]. cbn [mbind option_bind].
  destruct (getnum v3 true) as [[day v4]|]; [|discriminate]. cbn [mbind option_bind].
  destruct v4; [|discriminate].
  unfold day_in_range.
  destruct (Z.ltb_spec day 1); [discriminate|].
  destruct (Z.ltb_spec (daysIn month year) day); [discriminate|].
  cbv beta iota delta [orb negb].
  intros [= <-]. apply getyear_range in Hyear.
  pose proof (daysIn_le_31 month year).
  pose proof (days_from_civil_range year month day ltac:(lia) ltac:(lia)) as (Hin & _).
  specialize (Hin Hyear).
  assert (Hday : dayOf (time_Date year month day 0 0 0 0) = days_from_civil year month day).
  { unfold dayOf, time_Date, nsPerDay.
    replace ((days_from_civil year month day * 86400 + 0 * 3600 + 0 * 60 + 0) * Second + 0)
      with (days_from_civil year month day * (86400 * Second)) by lia.
    apply Z.div_mul. unfold Second. lia. }
  rewrite Hday. split; [unfold time_Date, nsPerDay; lia|exact Hin].
Qed.

(** ** Planning the window *)

(** Days and nanoseconds. *)
Lemma nsPerDay_pos : 0 < nsPerDay.
Proof. reflexivity. Qed.

Lemma dayOf_mul (k : Z) : dayOf (k * nsPerDay) = k.
Proof. unfold dayOf. apply Z.div_mul. pose proof nsPerDay_pos. lia. Qed.

Lemma dayOf_add_days (t k : Z) : dayOf (t + k * nsPerDay) = dayOf t + k.
Proof. unfold dayOf. apply Z.div_add. pose proof nsPerDay_pos. lia. Qed.

Lemma dayOf_le (t : Time) : dayOf t * nsPerDay <= t.
Proof.
  unfold dayOf. pose proof nsPerDay_pos.
  pose proof (Z.mul_div_le t nsPerDay ltac:(lia)). lia.
Qed.

Lemma day_24h : 24 * Hour = nsPerDay.
Proof. reflexivity. Qed.

(** What a dropped parse error leaves is still midnight of some day. *)
Lemma value_or_zero_aligned (value : string) :
  exists k, value_or_zero (time_Parse_date value) = k * nsPerDay.
Proof.
  destruct (time_Parse_date value) as [t|e|msg] eqn:Hparse; simpl.
  - apply time_Parse_date_aligned in Hparse as [Ht _]. eauto.
  - exists 0. reflexivity.
  - exists 0. reflexivity.
Qed.

(** [left_off] is midnight of a day a four-digit year can name. *)
Lemma leftOff_aligned (lastData : string) :
  leftOff lastData = dayOf (leftOff lastData) * nsPerDay
  /\ dayMin <= dayOf (leftOff lastData) <= dayMax.
Proof.
  unfold leftOff.
  destruct (time_Parse_date lastData) as [t|e|msg] eqn:Hparse; cbn [value_or_zero].
  - apply time_Parse_date_aligned in Hparse. exact Hparse.
  - change (dayOf zeroTime) with 0. split; [reflexivity|]. unfold dayMin, dayMax. lia.
  - change (dayOf zeroTime) with 0. split; [reflexivity|]. unfold dayMin, dayMax. lia.
Qed.



(** C2, where the program departs from it.  [projected_end] is
    [start.Add(14 * 24 * time.Hour)], under the comment that speaks of two
    weeks of data.  So for every watermark date [w] the file holds, whenever
    the program's [yesterday] is fifteen days or more after [w], the window
    opens on the day after [w] and closes on the fifteenth day after [w]:
    the fourteenth day after its start, not the thirteenth.  The two
    strings handed to [doUpdate] spell these two dates, and from the first
    to the last, both of them days data is fetched for, there are fifteen
    days. *)
Theorem planWindow_spans_fifteen_days (lastData : string) (now w : Time) :
  time_Parse_date lastData = Ok w ->
  w + 15 * nsPerDay <= yesterdayOf now ->
  planTimes lastData now = Some (w + nsPerDay, w + 15 * nsPerDay)
  /\ planWindow lastData now
     = Some (time_Format_date (w + nsPerDay), time_Format_date (w + 15 * nsPerDay))
  /\ time_Parse_date (time_Format_date (w + nsPerDay)) = Ok (w + nsPerDay)
  /\ time_Parse_date (time_Format_date (w + 15 * nsPerDay)) = Ok (w + 15 * nsPerDay)
  /\ dayOf (w + nsPerDay) = dayOf w + 1
  /\ dayOf (w + 15 * nsPerDay) = dayOf (w + nsPerDay) + 14
  /\ dayOf (w + 15 * nsPerDay) - dayOf (w + nsPerDay) + 1 = 15.
Proof.
  intros Hparse Hbehind.
  pose proof (time_Parse_date_aligned _ _ Hparse) as [Hw Hwrange].
  destruct (leftOff_aligned (time_Format_date (Time_Add now (-24 * Hour))))
    as [Hy Hyrange].
  change (leftOff (time_Format_date (Time_Add now (-24 * Hour)))) with (yesterdayOf now)
    in Hy, Hyrange.
  assert (Hplan : planTimes lastData now = Some (w + nsPerDay, w + 15 * nsPerDay)).
  { unfold planTimes, leftOff. rewrite Hparse. cbn [value_or_zero].
    unfold Time_Before, Time_After, Time_Add. rewrite day_24h.
    replace (14 * 24 * Hour) with (14 * nsPerDay) by (rewrite <- day_24h; lia).
    destruct (Z.ltb_spec w (yesterdayOf now)) as [_|Hge];
      [|exfalso; clear - Hbehind Hge; unfold nsPerDay, Second in *; lia].
    cbv beta iota delta [negb].
    destruct (Z.ltb_spec (yesterdayOf now) (w + nsPerDay + 14 * nsPerDay)) as [Hlt|_];
      [exfalso; clear - Hbehind Hlt; lia|].
    f_equal. f_equal. lia. }
  assert (Hstart : dayOf (w + nsPerDay) = dayOf w + 1)
    by (replace (w + nsPerDay) with (w + 1 * nsPerDay) by lia; apply dayOf_add_days).
  assert (Hend : dayOf (w + 15 * nsPerDay) = dayOf w + 15) by apply dayOf_add_days.
  assert (Hlast : dayOf w + 15 <= dayOf (yesterdayOf now)).
  { rewrite Hw, Hy in Hbehind. clear - Hbehind. unfold nsPerDay, Second in *. lia. }
  split; [exact Hplan|]. split; [unfold planWindow; rewrite Hplan; reflexivity|].
  split.
  { rewrite time_Parse_Format_date by lia. rewrite Hstart. f_equal.
    rewrite Hw at 2. lia. }
  split.
  { rewrite time_Parse_Format_date by lia. rewrite Hend. f_equal.
    rewrite Hw at 2. lia. }
  split; [exact Hstart|]. split; lia.
Qed.

(** ** [doUpdate] and the loop *)

Section SyncProps.

Variable strconv_ParseFloat : string -> float64 * option error.
Variable env : Env.
Variable config : Config.

(** Writing the points touches neither the file nor the calls before. *)
Lemma writeReports_frame (md : gmap string (gmap string string))
    (items : list (string * list RuntimeReportDataEntry)) :
  forall (w w' : World) (r : result unit),
    writeReports strconv_ParseFloat env config md items w = (r, w') ->
    last_data_txt w' = last_data_txt w
    /\ exists events, trace w' = (trace w ++ events)%list.
Proof.
  induction items as [|[thermostat_id entries] items IH]; intros w w' r; simpl.
  - intros [= <- <-]. split; [reflexivity|]. exists []. rewrite app_nil_r. reflexivity.
  - destruct (env_Write env _ _) as [u|err|msg].
    + intros Hrest. apply IH in Hrest as [Hfile [events Htrace]]. simpl in *.
      split; [exact Hfile|]. rewrite Htrace, <- app_assoc. eauto.
    + intros [= <- <-]. simpl. split; [reflexivity|]. eauto.
    + intros [= <- <-]. simpl. split; [reflexivity|]. eauto.
Qed.

(** An attempt starts with the metadata call and leaves the file alone. *)
Lemma attempt_frame (start_str end_str : string) (w w' : World) (r : result unit) :
  attempt strconv_ParseFloat env config start_str end_str w = (r, w') ->
  last_data_txt w' = last_data_txt w
  /\ exists events,
       trace w' = (trace w ++ CallGetThermostats (metadataSelection config) :: events)%list.
Proof.
  unfold attempt.
  destruct (env_GetThermostats env _ _) as [thermostats|err|msg].
  - destruct (fetchedReport _ _ _) as [report_data|rr_err|msg].
    + intros Hw. apply writeReports_frame in Hw as [Hfile [events Htrace]]. simpl in *.
      split; [exact Hfile|]. rewrite Htrace, <- !app_assoc. simpl. eauto.
    + intros Hw. apply writeReports_frame in Hw as [Hfile [events Htrace]]. simpl in *.
      split; [exact Hfile|]. rewrite Htrace, <- !app_assoc. simpl. eauto.
    + intros [= <- <-]. simpl. split; [reflexivity|]. rewrite <- app_assoc. simpl. eauto.
  - intros [= <- <-]. simpl. split; [reflexivity|]. eauto.
  - intros [= <- <-]. simpl. split; [reflexivity|]. eauto.
Qed.

(** So do the attempts [retry.Do] makes, together. *)
Lemma retry_Do_frame (start_str end_str : string) (n : nat) :
  forall (w w' : World) (r : result unit),
    retry_Do (S n) (attempt strconv_ParseFloat env config start_str end_str) w = (r, w') ->
    last_data_txt w' = last_data_txt w
    /\ exists events,
         trace w' = (trace w ++ CallGetThermostats (metadataSelection config) :: events)%list.
Proof.
  induction n as [|n IH]; intros w w' r; simpl.
  - destruct (attempt _ _ _ _ _ w) as [[u|err|msg] w1] eqn:Hattempt;
      intros [= <- <-]; eapply attempt_frame; exact Hattempt.
  - destruct (attempt _ _ _ _ _ w) as [[u|err|msg] w1] eqn:Hattempt.
    + intros [= <- <-]. eapply attempt_frame; exact Hattempt.
    + intros Hrest. apply IH in Hrest as [Hfile [events Htrace]].
      apply attempt_frame in Hattempt as [Hfile1 [events1 Htrace1]].
      split; [congruence|]. rewrite Htrace, Htrace1, <- app_assoc. simpl. eauto.
    + intros [= <- <-]. eapply attempt_frame; exact Hattempt.
Qed.

(** [doUpdate] calls [ioutil.WriteFile] exactly when [retry.Do] returned
    nil, with [end_str] and a line feed and on the file as it was; and its
    first call is the metadata call. *)
Lemma doUpdate_frame (start_str end_str : string) (w w' : World) (st : status) :
  doUpdate strconv_ParseFloat env config start_str end_str w = (st, w') ->
  (st = Running
   /\ (exists w1 : World,
         last_data_txt w1 = last_data_txt w
         /\ w' = writeLastData env (end_str ++ newline) w1)
   \/ st <> Running /\ last_data_txt w' = last_data_txt w)
  /\ exists events,
       trace w' = (trace w ++ CallGetThermostats (metadataSelection config) :: events)%list.
Proof.
  unfold doUpdate, retryAttempts.
  destruct (retry_Do 10 _ w) as [[u|err|msg] w1] eqn:Hretry;
    apply retry_Do_frame in Hretry as [Hfile [events Htrace]]; intros [= <- <-].
  - split; [left; split; [reflexivity|exists w1; split; [exact Hfile|reflexivity]]|].
    simpl. rewrite Htrace, <- app_assoc. simpl. eauto.
  - split; [right; split; [discriminate|exact Hfile]|]. eauto.
  - split; [right; split; [discriminate|exact Hfile]|]. eauto.
Qed.

(** The calls of a kind after more events, and after one. *)
Lemma calls_app (kind : Event -> bool) (w : World) (file : option string)
    (events : list Event) :
  calls kind (mkWorld file (trace w ++ events)%list)
  = (calls kind w + length (List.filter kind events))%nat.
Proof. unfold calls. cbn [trace]. rewrite List.filter_app, length_app. reflexivity. Qed.

Lemma calls_record_event (kind : Event -> bool) (ev : Event) (w : World) :
  calls kind (record_event ev w) = (calls kind w + if kind ev then 1 else 0)%nat.
Proof.
  unfold record_event. rewrite calls_app. cbn [List.filter].
  destruct (kind ev); reflexivity.
Qed.

(** C1, where the program departs from it.  When the metadata call
    succeeds and [GetRuntimeReport] returns an error, be it of the transport
    or of an unparsable start date, the error is dropped: the first attempt
    returns nil with nothing written to the sink, [retry.Do] does not run it
    again, and [doUpdate] goes on to call [ioutil.WriteFile] with [end_str]
    on the file as it was; that write succeeding, the file holds [end_str]
    and the calls made are the metadata call, the report call and the write
    of the file. *)
Theorem doUpdate_fetch_error_advances_watermark
    (start_str end_str : string) (w : World) (thermostats : list Thermostat) (e : error) :
  env_GetThermostats env (calls isGetThermostats w) (metadataSelection config)
    = Ok thermostats ->
  fetchedReport env config (calls isRuntimeReport w) = Err e ->
  doUpdate strconv_ParseFloat env config start_str end_str w =
  (Running,
   writeLastData env (end_str ++ newline)
     (mkWorld (last_data_txt w)
              (trace w ++ [CallGetThermostats (metadataSelection config);
                           CallRuntimeReport (configRequest config)])%list))
  /\ (env_WriteFile env (calls isWriteLastData w) (last_data_txt w) (end_str ++ newline)
      = FileWritten ->
      doUpdate strconv_ParseFloat env config start_str end_str w =
      (Running,
       mkWorld (Some (end_str ++ newline))
               (trace w ++ [CallGetThermostats (metadataSelection config);
                            CallRuntimeReport (configRequest config);
                            WriteLastData (end_str ++ newline)])%list)).
Proof.
  intros Hmeta Hfetch.
  assert (Hrun : doUpdate strconv_ParseFloat env config start_str end_str w =
                 (Running,
                  writeLastData env (end_str ++ newline)
                    (mkWorld (last_data_txt w)
                       (trace w ++ [CallGetThermostats (metadataSelection config);
                                    CallRuntimeReport (configRequest config)])%list))).
  { unfold doUpdate, retryAttempts.
    cbn [retry_Do]. unfold attempt. rewrite Hmeta.
    rewrite calls_record_event. cbn [isRuntimeReport]. rewrite Nat.add_0_r, Hfetch.
    cbn [writeReports]. unfold record_event. cbn [trace last_data_txt].
    rewrite <- !app_assoc. reflexivity. }
  split; [exact Hrun|].
  intros Hwrite. rewrite Hrun. unfold writeLastData.
  rewrite calls_app. cbn [List.filter isWriteLastData length last_data_txt trace].
  rewrite Nat.add_0_r, Hwrite, <- !app_assoc. reflexivity.
Qed.

(** The other way round: when [doUpdate] does not return, for a failed
    metadata call, a failed write or a panic, the file is as it was. *)
Lemma doUpdate_stops_keeps_watermark (start_str end_str : string) (w w' : World)
    (st : status) :
  doUpdate strconv_ParseFloat env config start_str end_str w = (st, w') ->
  st <> Running -> last_data_txt w' = last_data_txt w.
Proof.
  intros Hrun Hst. apply doUpdate_frame in Hrun as [[[Hr _]|[_ Hfile]] _];
    [contradiction|exact Hfile].
Qed.

(** C4, as the program has it.  When the day after the watermark is past
    yesterday, the turn makes no call and no write, and the process ends
    there with exit code 0: the loop does not go round again. *)
Theorem nothing_to_do_exits (now : Time) (w : World) :
  yesterdayOf now < leftOff (strings_TrimSpace (readLastData w)) + 24 * Hour ->
  planWindow (strings_TrimSpace (readLastData w)) now = None
  /\ main_iteration strconv_ParseFloat env config now w = (Exited 0, w)
  /\ forall (turns : nat) (clock : nat -> Time) (k : nat),
       clock k = now ->
       main_loop strconv_ParseFloat (S turns) env config clock k w = (Exited 0, w).
Proof.
  intros Hlate. set (lastData := strings_TrimSpace (readLastData w)) in *.
  assert (Hplan : planWindow lastData now = None).
  { unfold planWindow, planTimes, Time_Before.
    destruct (value_or_zero_aligned lastData) as [a Ha].
    destruct (value_or_zero_aligned (time_Format_date (Time_Add now (-24 * Hour))))
      as [b Hb].
    fold (leftOff lastData) in Ha. fold (yesterdayOf now) in Hb.
    rewrite day_24h in Hlate. rewrite Ha, Hb in *.
    destruct (Z.ltb_spec (a * nsPerDay) (b * nsPerDay)); [|reflexivity].
    exfalso. clear - Hlate H. unfold nsPerDay, Second in *. lia. }
  assert (Hstep : main_iteration strconv_ParseFloat env config now w = (Exited 0, w)).
  { unfold main_iteration. fold lastData. rewrite Hplan. reflexivity. }
  split; [exact Hplan|]. split; [exact Hstep|].
  intros turns clock k Hk. cbn [main_loop]. rewrite Hk, Hstep. reflexivity.
Qed.


End SyncProps.

(** ** The planner and the loop on concrete inputs *)

(** The window 2022-01-02 to 2022-01-16 against a report endpoint that
    answers 500: nothing reaches the sink and the file moves on to
    2022-01-16. *)
Lemma doUpdate_fetch_error_advances_watermark_witness :
  doUpdate parseDecimal fetchFailsEnv sampleConfig "2022-01-02" "2022-01-16"
           (mkWorld (Some ("2022-01-01" ++ newline)) []) =
  (Running,
   mkWorld (Some ("2022-01-16" ++ newline))
           ([] ++ [CallGetThermostats (metadataSelection sampleConfig);
                   CallRuntimeReport (configRequest sampleConfig);
                   WriteLastData ("2022-01-16" ++ newline)])%list).
Proof.
  apply (proj2 (doUpdate_fetch_error_advances_watermark parseDecimal fetchFailsEnv
                  sampleConfig "2022-01-02" "2022-01-16"
                  (mkWorld (Some ("2022-01-01" ++ newline)) [])
                  sampleThermostats serverError eq_refl eq_refl)).
  reflexivity.
Defined.

(** The watermark 2022-01-01 at noon of March 1, 2022: the window is
    January 2 to January 16, fifteen days with both ends. *)
Lemma planWindow_spans_fifteen_days_witness :
  planTimes "2022-01-01" noon_2022_03_01
    = Some (time_Date 2022 1 2 0 0 0 0, time_Date 2022 1 16 0 0 0 0)
  /\ planWindow "2022-01-01" noon_2022_03_01 = Some ("2022-01-02", "2022-01-16")
  /\ dayOf (time_Date 2022 1 16 0 0 0 0) - dayOf (time_Date 2022 1 2 0 0 0 0) + 1 = 15.
Proof.
  pose proof (planWindow_spans_fifteen_days "2022-01-01" noon_2022_03_01
                (time_Date 2022 1 1 0 0 0 0) eq_refl
                ltac:(vm_compute; discriminate))
    as (Htimes & Hwindow & _ & _ & _ & _ & Hdays).
  split; [exact Htimes|]. split; [exact Hwindow|exact Hdays].
Defined.

(** The watermark is yesterday, February 28. *)
Lemma nothing_to_do_exits_witness :
  let w := mkWorld (Some ("2022-02-28" ++ newline)) [] in
  planWindow (strings_TrimSpace (readLastData w)) noon_2022_03_01 = None
  /\ main_iteration parseDecimal sampleEnv sampleConfig noon_2022_03_01 w = (Exited 0, w)
  /\ forall (turns : nat) (clock : nat -> Time) (k : nat),
       clock k = noon_2022_03_01 ->
       main_loop parseDecimal (S turns) sampleEnv sampleConfig clock k w = (Exited 0, w).
Proof.
  apply (nothing_to_do_exits parseDecimal sampleEnv sampleConfig noon_2022_03_01
           (mkWorld (Some ("2022-02-28" ++ newline)) [])).
  vm_compute. reflexivity.
Defined.

(** Caught up, the loop does not idle and plan again: its first turn ends
    the process. *)
Lemma main_loop_ends_when_caught_up :
  main_loop parseDecimal 3 sampleEnv sampleConfig (fun _ => noon_2022_03_01) 0
            (mkWorld (Some ("2022-02-28" ++ newline)) [])
  = (Exited 0, mkWorld (Some ("2022-02-28" ++ newline)) []).
Proof. vm_compute. reflexivity. Qed.



(** A sink that turns every write down: ten attempts, one write each, then
    [log.Fatal], and the file still holds 2022-01-01. *)
Lemma write_failure_keeps_watermark :
  let w := mkWorld (Some ("2022-01-01" ++ newline)) [] in
  let '(st, w') := doUpdate parseDecimal writeFailsEnv sampleConfig "2022-01-02" "2022-01-16" w in
  st = Exited 1
  /\ last_data_txt w' = Some ("2022-01-01" ++ newline)
  /\ calls isWrite w' = 10%nat.
Proof. vm_compute. repeat split; reflexivity. Qed.

(** ** Shaping the vendor's responses *)

(** A sequence that ends well went well at each step. *)
Lemma result_bind_Ok {A B : Type} (r : result A) (k : A -> result B) (b : B) :
  r ≫= k = Ok b -> exists a, r = Ok a /\ k a = Ok b.
Proof. destruct r as [a|e|msg]; [eauto|discriminate|discriminate]. Qed.

(** An index that did not panic found its element. *)
Lemma at_index_Ok {A : Type} (xs : list A) (i : nat) (x : A) :
  at_index xs i = Ok x -> xs !! i = Some x.
Proof. unfold at_index. destruct (xs !! i); [intros [= ->]; reflexivity|discriminate]. Qed.

(** The clock reading of a row is that of the two fields the loops
    index. *)
Lemma rowClock_fields (row d t : string) :
  at_index (strings_Split row ",") 0 = Ok d ->
  at_index (strings_Split row ",") 1 = Ok t ->
  rowClock row = rowTime d t.
Proof.
  intros Hd%at_index_Ok Ht%at_index_Ok. unfold rowClock.
  destruct (strings_Split row ",") as [|d' [|t' rest]]; simpl in *; congruence.
Qed.

(** An entry is stamped with its row's clock reading moved by the offset. *)
Lemma formatRow_time (time_offset : Duration) (cols : list string) (row : string)
    (e : RuntimeReportDataEntry) :
  formatRow time_offset cols row = Ok e ->
  ReportTime e = Time_Add (rowClock row) time_offset.
Proof.
  unfold formatRow.
  intros (d & Hd & H)%result_bind_Ok. apply result_bind_Ok in H as (t & Ht & H).
  apply result_bind_Ok in H as (entry & _ & [= <-]). simpl.
  rewrite (rowClock_fields row d t Hd Ht). reflexivity.
Qed.

(** Every entry is stamped with its row's clock reading moved by the
    offset the loop was entered with. *)
Lemma formatRows_times (time_offset : Duration) (cols : list string) (rows : list string) :
  forall entries,
    formatRows time_offset cols rows = Ok entries ->
    map ReportTime entries = map (fun row => Time_Add (rowClock row) time_offset) rows.
Proof.
  induction rows as [|row rows IH]; intros entries; simpl.
  - intros [= <-]. reflexivity.
  - intros (e & He & H)%result_bind_Ok. apply result_bind_Ok in H as (es & Hes & [= <-]).
    simpl. rewrite (formatRow_time _ _ _ _ He), (IH es Hes). reflexivity.
Qed.

(** The offset of a report is taken from its first row and shared by all
    its rows. *)
Lemma reportEntries_times (start : Time) (cols : list string) (report : RuntimeReport)
    (entries : list RuntimeReportDataEntry) :
  reportEntries start cols report = Ok entries ->
  exists first rows,
    RowList report = first :: rows
    /\ map ReportTime entries
       = map (fun row => Time_Add (rowClock row) (Time_Sub start (rowClock first)))
             (RowList report).
Proof.
  unfold reportEntries, reportOffset.
  intros (off & Hoff & Hrows)%result_bind_Ok.
  apply result_bind_Ok in Hoff as (row0 & Hrow0 & Hoff).
  apply result_bind_Ok in Hoff as (d & Hd & Hoff).
  apply result_bind_Ok in Hoff as (t & Ht & [= <-]).
  apply at_index_Ok in Hrow0.
  destruct (RowList report) as [|first rows] eqn:Hlist; [discriminate|].
  simpl in Hrow0. injection Hrow0 as ->.
  exists row0, rows. split; [reflexivity|].
  rewrite (rowClock_fields row0 d t Hd Ht).
  apply formatRows_times in Hrows. exact Hrows.
Qed.

(** What the map holds for a thermostat was built from a report of that
    thermostat, or was there before. *)
Lemma collectReports_lookup (start : Time) (cols : list string) (reports : list RuntimeReport) :
  forall (acc data : gmap string (list RuntimeReportDataEntry)) (id : string)
         (entries : list RuntimeReportDataEntry),
    collectReports start cols reports acc = Ok data ->
    data !! id = Some entries ->
    acc !! id = Some entries
    \/ exists report, In report reports /\ ThermostatIdentifier report = id
                      /\ reportEntries start cols report = Ok entries.
Proof.
  induction reports as [|report reports IH]; intros acc data id entries; simpl.
  - intros [= <-] Hid. left. exact Hid.
  - intros (d & Hd & Hrest)%result_bind_Ok Hid.
    destruct (IH _ _ _ _ Hrest Hid) as [Hacc|(rep & Hin & Hrep & Hent)].
    + destruct (decide (ThermostatIdentifier report = id)) as [Heq|Hne].
      * rewrite Heq, lookup_insert_eq in Hacc. injection Hacc as <-.
        right. exists report. auto.
      * rewrite lookup_insert_ne in Hacc by exact Hne. left. exact Hacc.
    + right. exists rep. auto.
Qed.






(** The loop run in two stretches. *)
Lemma summaryLoop_app (n k : nat) (r : GetThermostatSummaryResponse) :
  forall (i : nat) (tsm : gmap string ThermostatSummary),
    summaryLoop (n + k) i r tsm = summaryLoop n i r tsm ≫= summaryLoop k (i + n) r.
Proof.
  induction n as [|n IH]; intros i tsm.
  - simpl. rewrite Nat.add_0_r. reflexivity.
  - cbn [summaryLoop Nat.add].
    destruct (summaryEntry i r tsm) as [tsm'|e|msg]; [|reflexivity..].
    cbn [mbind result_bind]. rewrite IH.
    replace (i + S n)%nat with (S i + n)%nat by lia. reflexivity.
Qed.

(** Where the program does return an error.  A response whose [StartDate]
    does not parse makes [GetRuntimeReport] return that parse error and no
    map; and when the loop of [GetThermostatSummary] has taken the entries
    before entry [i] and comes to a revision entry [i], below the count, of
    fewer than seven fields, it returns the error that names that entry,
    and no map. *)
Theorem malformed_response_is_an_error :
  (forall (fetch : GetRuntimeReportRequest -> result RuntimeReportResponse)
          (thermostatID : string) (wHum wAux1 wAux2 wHp1 wHp2 wCool1 wCool2 : bool)
          (r : RuntimeReportResponse) (e : error),
     fetch (runtimeReportRequest thermostatID wHum wAux1 wAux2 wHp1 wHp2 wCool1 wCool2) = Ok r ->
     time_Parse_date (StartDate r) = Err e ->
     GetRuntimeReport fetch thermostatID wHum wAux1 wAux2 wHp1 wHp2 wCool1 wCool2 = Err e)
  /\ (forall (r : GetThermostatSummaryResponse) (i : nat) (rev : string)
             (tsm : gmap string ThermostatSummary),
        summaryLoop i 0 r ∅ = Ok tsm ->
        (i < Z.to_nat (ThermostatCount r))%nat ->
        RevisionList r !! i = Some rev ->
        (length (strings_Split rev ":") < 7)%nat ->
        GetThermostatSummary (Ok r)
        = Err (Errorf "invalid RevisionList, not enough fields: %s" [rev])).
Proof.
  split.
  - intros fetch id wHum wAux1 wAux2 wHp1 wHp2 wCool1 wCool2 r e Hfetch Hdate.
    unfold GetRuntimeReport. rewrite Hfetch. cbn.
    unfold shapeReport, reportStart. rewrite Hdate. reflexivity.
  - intros r i rev tsm Hfirst Hi Hrev Hshort.
    unfold GetThermostatSummary. cbn.
    replace (Z.to_nat (ThermostatCount r))
      with (i + S (Z.to_nat (ThermostatCount r) - S i))%nat by lia.
    rewrite summaryLoop_app, Hfirst. cbn [mbind result_bind summaryLoop].
    rewrite Nat.add_0_l. unfold summaryEntry, at_index. rewrite Hrev.
    cbn [mbind result_bind].
    apply Nat.ltb_lt in Hshort. rewrite Hshort. reflexivity.
Qed.

(** A start date written day first, and a revision entry of three fields
    after a well-formed one. *)
Lemma malformed_response_is_an_error_witness :
  GetRuntimeReport (fun _ => Ok undatedReport) "411" true true true true true true true
    = Err (TimeParseError "2006-01-02" "16/02/2022")
  /\ GetThermostatSummary (Ok shortRevisionSummary)
     = Err (Errorf "invalid RevisionList, not enough fields: %s" ["412:Attic:true"]).
Proof.
  destruct malformed_response_is_an_error as [Hreport Hsummary]. split.
  - apply (Hreport (fun _ => Ok undatedReport) "411" true true true true true true true
             undatedReport); reflexivity.
  - eapply (Hsummary shortRevisionSummary 1%nat "412:Attic:true").
    + reflexivity.
    + vm_compute. repeat constructor.
    + reflexivity.
    + vm_compute. repeat constructor.
Defined.

(** A row whose date and time are words: [GetRuntimeReport] returns no
    error but a map, with the row's entry stamped from the zero [Time]. *)
Lemma unparsable_row_time_is_no_error :
  time_Parse_datetime "yesterday noon"
    = Err (TimeParseError "2006-01-02 15:04:05" "yesterday noon")
  /\ rowClock "yesterday,noon,1" = zeroTime
  /\ shapedTimes wordyReport "411" = Some [maxInt64].
Proof. vm_compute. repeat split; reflexivity. Qed.

(** Rows with fewer fields than the loops index, and a report without
    rows, end in a run-time panic of the slice index, not in a returned
    error. *)
Lemma short_row_panics :
  shapeReport shortRowReport = Panic "index out of range"
  /\ shapeReport (mkRuntimeReportResponse "2022-02-16" 0 "fan" [mkRuntimeReport "411" []])
     = Panic "index out of range"
  /\ shapeReport (mkRuntimeReportResponse "2022-02-16" 0 "fan,auxHeat1"
                    [mkRuntimeReport "411" ["2022-02-16,00:00:00,1"]])
     = Panic "index out of range".
Proof. vm_compute. repeat split; reflexivity. Qed.

(** The row of the specification's example gives its time as 00:05; the
    layout asks for seconds, so the row reads as the zero [Time]. *)
Lemma spec_example_row_has_no_seconds :
  let r := mkRuntimeReportResponse "2022-02-16" 1 "zoneAveTemp,fan"
             [mkRuntimeReport "411" ["2022-02-16,00:05,70.5,1"]] in
  reportStart r = Ok (time_Date 2022 2 16 0 5 0 0)
  /\ rowClock "2022-02-16,00:05,70.5,1" = zeroTime
  /\ shapedTimes r "411" = Some [maxInt64].
Proof. vm_compute. repeat split; reflexivity. Qed.

(** ** The equipment status of a summary entry *)

(** [Set] writes the flag its name stands for and no other. *)
Lemma flagOf_Set (es : EquipmentStatus) (field name : string) (state : bool) :
  In name equipmentNames ->
  flagOf (EquipmentStatus_Set es field state) name
  = if String.eqb field name then Some state else flagOf es name.
Proof.
  intros Hname. destruct es. unfold EquipmentStatus_Set.
  repeat match goal with
  | |- context [String.eqb field ?f] =>
      destruct (String.eqb_spec field f) as [->|?];
        [simpl in Hname; decompose [or] Hname; subst; solve [reflexivity | contradiction]|]
  end.
  destruct (String.eqb_spec field name) as [->|_]; [|reflexivity].
  simpl in Hname; decompose [or] Hname; subst; congruence.
Qed.

(** After the loop over the statuses a flag is on when its name was among
    them, or when it was on before. *)
Lemma flagOf_setStatuses (statuses : list string) (name : string) :
  In name equipmentNames ->
  forall es,
    flagOf (setStatuses es statuses) name = Some true
    <-> In name statuses \/ flagOf es name = Some true.
Proof.
  intros Hname. induction statuses as [|s statuses IH]; intros es.
  - simpl. tauto.
  - rewrite setStatuses_cons, IH, flagOf_Set by exact Hname. simpl.
    destruct (String.eqb_spec s name) as [->|Hne]; [tauto|].
    split; [tauto|]. intros [[Heq|Hin]|Hflag]; [contradiction|tauto|tauto].
Qed.

(** X1. [buildEquipmentStatus] indexes the second part of the status
    entry without a check of how many parts there are.  For an identifier
    without a colon: the entry that is the identifier alone makes the
    function panic; the identifier and a colon give the status with every
    flag off; and the identifier, a colon and a list give the status the
    comma separated names of the list switch on. *)
Theorem buildEquipmentStatus_needs_colon (id rest : string) :
  hasByte ":" id = false ->
  buildEquipmentStatus id = Panic "index out of range"
  /\ buildEquipmentStatus (id ++ String ":" "") = Ok zeroEquipmentStatus
  /\ (rest <> "" ->
      buildEquipmentStatus (id ++ String ":" rest)
      = Ok (setStatuses zeroEquipmentStatus (strings_Split rest ","))).
Proof.
  intros Hid. unfold buildEquipmentStatus. split; [|split].
  - rewrite strings_SplitN2_no_sep by exact Hid. reflexivity.
  - rewrite strings_SplitN2_first by exact Hid. reflexivity.
  - intros Hrest. rewrite strings_SplitN2_first by exact Hid.
    destruct rest; [contradiction|]. reflexivity.
Qed.

(** X2. For a status entry with its colon, and each of the fifteen names
    of the [switch] of [Set]: the flag of that name is on in the built
    status exactly when the name is one of the comma separated items after
    the colon. *)
Theorem buildEquipmentStatus_flags (id rest name : string) :
  hasByte ":" id = false ->
  In name equipmentNames ->
  exists es : EquipmentStatus,
    buildEquipmentStatus (id ++ String ":" rest) = Ok es
    /\ (flagOf es name = Some true <-> In name (strings_Split rest ",")).
Proof.
  intros Hid Hname. unfold buildEquipmentStatus.
  rewrite strings_SplitN2_first by exact Hid.
  destruct rest as [|c rest].
  - exists zeroEquipmentStatus. split; [reflexivity|].
    simpl. split.
    + simpl in Hname. decompose [or] Hname; subst; try discriminate; contradiction.
    + intros [<-|[]]. simpl in Hname. decompose [or] Hname; discriminate || contradiction.
  - eexists. split; [reflexivity|]. rewrite flagOf_setStatuses by exact Hname.
    split; [|tauto]. intros [H|H]; [exact H|].
    simpl in Hname. decompose [or] Hname; subst; try discriminate; contradiction.
Qed.

(** The entries [411], [411:] and [411:fan,heatPump]. *)
Lemma buildEquipmentStatus_needs_colon_witness :
  buildEquipmentStatus "411" = Panic "index out of range"
  /\ buildEquipmentStatus ("411" ++ String ":" "") = Ok zeroEquipmentStatus
  /\ ("fan,heatPump" <> "" ->
      buildEquipmentStatus ("411" ++ String ":" "fan,heatPump")
      = Ok (setStatuses zeroEquipmentStatus (strings_Split "fan,heatPump" ","))).
Proof. apply (buildEquipmentStatus_needs_colon "411" "fan,heatPump"). reflexivity. Defined.

(** The entry [411:fan,heatPump] and the flag [fan]. *)
Lemma buildEquipmentStatus_flags_witness :
  exists es : EquipmentStatus,
    buildEquipmentStatus ("411" ++ String ":" "fan,heatPump") = Ok es
    /\ (flagOf es "fan" = Some true <-> In "fan" (strings_Split "fan,heatPump" ",")).
Proof.
  apply (buildEquipmentStatus_flags "411" "fan,heatPump" "fan").
  - reflexivity.
  - simpl. tauto.
Defined.

(** ** The columns of the request *)

(** X3. Whatever the seven flags, the column string [GetRuntimeReport]
    puts in its request splits at the commas back into the columns it
    chose, as the function itself splits the [Columns] of the response, and
    no column is asked for twice. *)
Theorem requested_columns_split_back
    (thermostatID : string) (wHum wAux1 wAux2 wHp1 wHp2 wCool1 wCool2 : bool) :
  strings_Split
    (Req_Columns (runtimeReportRequest thermostatID wHum wAux1 wAux2 wHp1 wHp2 wCool1 wCool2))
    ","
  = col_to_include wHum wAux1 wAux2 wHp1 wHp2 wCool1 wCool2
  /\ NoDup (col_to_include wHum wAux1 wAux2 wHp1 wHp2 wCool1 wCool2).
Proof.
  split.
  - unfold runtimeReportRequest. cbn [Req_Columns]. apply strings_Split_Join.
    + destruct wHum, wAux1, wAux2, wHp1, wHp2, wCool1, wCool2; discriminate.
    + destruct wHum, wAux1, wAux2, wHp1, wHp2, wCool1, wCool2; vm_compute; reflexivity.
  - apply (bool_decide_unpack _).
    destruct wHum, wAux1, wAux2, wHp1, wHp2, wCool1, wCool2; vm_compute; exact I.
Qed.

(** ** The rows of a report *)

(** An index below the length finds its element; one at or past it
    panics. *)
Lemma at_index_enough {A : Type} (xs : list A) (i : nat) :
  (i < length xs)%nat -> exists x, at_index xs i = Ok x /\ xs !! i = Some x.
Proof.
  intros Hi. unfold at_index. destruct (xs !! i) as [x|] eqn:Hx; [eauto|].
  apply lookup_ge_None in Hx. lia.
Qed.

Lemma at_index_short {A : Type} (xs : list A) (i : nat) :
  (length xs <= i)%nat -> at_index xs i = Panic "index out of range".
Proof.
  intros Hi. unfold at_index. rewrite (proj2 (lookup_ge_None xs i) Hi). reflexivity.
Qed.

(** The map a row's columns are stored in: under distinct column names,
    field [i + j] of the row for column [j], and what the map held before
    for any other name. *)
Lemma fillColumns_lookup (cols : list string) (fields : list string) :
  forall (i : nat) (acc m : gmap string string),
    fillColumns cols i fields acc = Ok m ->
    NoDup cols ->
    (forall (j : nat) (col : string),
        cols !! j = Some col -> m !! col = fields !! (i + j + 2)%nat)
    /\ (forall col : string, ~ In col cols -> m !! col = acc !! col).
Proof.
  induction cols as [|c cols IH]; intros i acc m; simpl.
  - intros [= <-] _. split; [intros j col H; discriminate|reflexivity].
  - intros (v & Hv & Hrest)%result_bind_Ok Hnodup.
    apply NoDup_cons in Hnodup as [Hfresh Hnodup].
    apply at_index_Ok in Hv.
    destruct (IH _ _ _ Hrest Hnodup) as [Hin Hout]. split.
    + intros [|j] col Hcol; simpl in Hcol.
      * injection Hcol as <-.
        rewrite Hout by (rewrite <- list_elem_of_In; exact Hfresh).
        rewrite lookup_insert_eq, Nat.add_0_r. symmetry. exact Hv.
      * rewrite (Hin j col Hcol). f_equal. lia.
    + intros col Hcol. rewrite Hout by tauto.
      apply lookup_insert_ne. intros ->. apply Hcol. left. reflexivity.
Qed.

(** The loop over the columns goes through exactly when the row has a
    field for each. *)
Lemma fillColumns_enough (cols : list string) (fields : list string) :
  forall (i : nat) (acc : gmap string string),
    (i + length cols + 2 <= length fields)%nat ->
    exists m, fillColumns cols i fields acc = Ok m.
Proof.
  induction cols as [|c cols IH]; intros i acc Hlen; simpl in *.
  - eauto.
  - destruct (at_index_enough fields (i + 2)) as (v & -> & _); [lia|].
    cbn [mbind result_bind]. apply IH. lia.
Qed.

Lemma fillColumns_short (cols : list string) (fields : list string) :
  forall (i : nat) (acc : gmap string string),
    cols <> [] ->
    (length fields < i + length cols + 2)%nat ->
    fillColumns cols i fields acc = Panic "index out of range".
Proof.
  induction cols as [|c cols IH]; intros i acc Hne Hlen; [contradiction|]. simpl in *.
  destruct (le_lt_dec (length fields) (i + 2)) as [Hshort|Hlong].
  - rewrite at_index_short by exact Hshort. reflexivity.
  - destruct (at_index_enough fields (i + 2) Hlong) as (v & -> & _).
    cbn [mbind result_bind]. apply IH; [|lia].
    destruct cols; [simpl in Hlen; lia|discriminate].
Qed.

(** A row with a date, a time and a field for each column is shaped; a
    row short of that panics.  A split string has at least one part. *)
Lemma formatRow_enough (off : Duration) (cols : list string) (row : string) :
  (length cols + 2 <= length (strings_Split row ","))%nat ->
  exists e, formatRow off cols row = Ok e.
Proof.
  intros Hlen. unfold formatRow.
  destruct (at_index_enough (strings_Split row ",") 0) as (d & -> & _); [lia|].
  destruct (at_index_enough (strings_Split row ",") 1) as (t & -> & _); [lia|].
  cbn [mbind result_bind].
  destruct (fillColumns_enough cols (strings_Split row ",") 0 ∅) as [m ->]; [lia|].
  cbn [mbind result_bind]. eauto.
Qed.

Lemma strings_Split_nonempty (s : string) (sep : ascii) :
  (1 <= length (strings_Split s sep))%nat.
Proof.
  induction s as [|c s IH]; simpl; [lia|].
  destruct (Ascii.eqb c sep); [simpl; lia|].
  destruct (strings_Split s sep); simpl in *; lia.
Qed.

Lemma formatRow_short (off : Duration) (cols : list string) (row : string) :
  (length (strings_Split row ",") < length cols + 2)%nat ->
  formatRow off cols row = Panic "index out of range".
Proof.
  intros Hlen. unfold formatRow.
  pose proof (strings_Split_nonempty row ",") as Hone.
  destruct (at_index_enough (strings_Split row ",") 0) as (d & -> & _); [lia|].
  cbn [mbind result_bind].
  destruct (le_lt_dec (length (strings_Split row ",")) 1) as [Hshort|Hlong].
  - rewrite at_index_short by exact Hshort. reflexivity.
  - destruct (at_index_enough (strings_Split row ",") 1 Hlong) as (t & -> & _).
    cbn [mbind result_bind].
    rewrite fillColumns_short; [reflexivity| |simpl; lia].
    destruct cols; [simpl in Hlen; lia|discriminate].
Qed.

(** So for the rows of a report, the reports of a response and the
    response itself. *)
Lemma formatRows_complete (off : Duration) (cols : list string) (rows : list string) :
  forallb (rowComplete cols) rows = true ->
  exists entries, formatRows off cols rows = Ok entries.
Proof.
  induction rows as [|row rows IH]; simpl; [eauto|].
  intros [Hrow Hrows]%andb_prop. apply Nat.leb_le in Hrow.
  destruct (formatRow_enough off cols row Hrow) as [e ->].
  destruct (IH Hrows) as [es ->]. cbn. eauto.
Qed.

Lemma formatRows_incomplete (off : Duration) (cols : list string) (rows : list string) :
  forallb (rowComplete cols) rows = false ->
  formatRows off cols rows = Panic "index out of range".
Proof.
  induction rows as [|row rows IH]; simpl; [discriminate|].
  destruct (rowComplete cols row) eqn:Hrow; simpl.
  - intros Hrows. apply Nat.leb_le in Hrow.
    destruct (formatRow_enough off cols row Hrow) as [e ->].
    rewrite (IH Hrows). reflexivity.
  - intros _. apply Nat.leb_gt in Hrow. rewrite formatRow_short by exact Hrow. reflexivity.
Qed.

Lemma reportEntries_complete (start : Time) (cols : list string) (report : RuntimeReport) :
  rowsComplete cols report = true ->
  exists entries, reportEntries start cols report = Ok entries.
Proof.
  unfold rowsComplete, reportEntries, reportOffset.
  destruct (RowList report) as [|first rows] eqn:Hrows; [discriminate|].
  intros Hall. pose proof Hall as Hfirst. simpl in Hfirst.
  apply andb_prop in Hfirst as [Hfirst _]. apply Nat.leb_le in Hfirst.
  cbn [at_index lookup list_lookup mbind result_bind].
  destruct (at_index_enough (strings_Split first ",") 0) as (d & -> & _); [lia|].
  destruct (at_index_enough (strings_Split first ",") 1) as (t & -> & _); [lia|].
  cbn [mbind result_bind]. apply formatRows_complete, Hall.
Qed.

Lemma reportEntries_incomplete (start : Time) (cols : list string) (report : RuntimeReport) :
  rowsComplete cols report = false ->
  reportEntries start cols report = Panic "index out of range".
Proof.
  unfold rowsComplete, reportEntries, reportOffset.
  destruct (RowList report) as [|first rows] eqn:Hrows; [reflexivity|].
  intros Hall.
  cbn [at_index lookup list_lookup mbind result_bind].
  pose proof (strings_Split_nonempty first ",") as Hone.
  destruct (at_index_enough (strings_Split first ",") 0) as (d & -> & _); [lia|].
  cbn [mbind result_bind].
  destruct (le_lt_dec (length (strings_Split first ",")) 1) as [Hshort|Hlong].
  - rewrite at_index_short by exact Hshort. reflexivity.
  - destruct (at_index_enough (strings_Split first ",") 1 Hlong) as (t & -> & _).
    cbn [mbind result_bind]. apply formatRows_incomplete, Hall.
Qed.

Lemma collectReports_complete (start : Time) (cols : list string)
    (reports : list RuntimeReport) :
  forall acc,
    forallb (rowsComplete cols) reports = true ->
    exists data, collectReports start cols reports acc = Ok data.
Proof.
  induction reports as [|report reports IH]; intros acc; simpl; [eauto|].
  intros [Hrep Hrest]%andb_prop.
  destruct (reportEntries_complete start cols report Hrep) as [es ->].
  cbn [mbind result_bind]. apply IH, Hrest.
Qed.

Lemma collectReports_incomplete (start : Time) (cols : list string)
    (reports : list RuntimeReport) :
  forall acc,
    forallb (rowsComplete cols) reports = false ->
    collectReports start cols reports acc = Panic "index out of range".
Proof.
  induction reports as [|report reports IH]; intros acc; simpl; [discriminate|].
  destruct (rowsComplete cols report) eqn:Hrep; simpl.
  - intros Hrest. destruct (reportEntries_complete start cols report Hrep) as [es ->].
    cbn [mbind result_bind]. apply IH, Hrest.
  - intros _. rewrite reportEntries_incomplete by exact Hrep. reflexivity.
Qed.

(** The start of the report: a time when [StartDate] parses, else the
    parse error; never a panic. *)
Lemma reportStart_outcome (r : RuntimeReportResponse) :
  match reportStart r with
  | Ok _ => exists t, time_Parse_date (StartDate r) = Ok t
  | Err e => time_Parse_date (StartDate r) = Err e
  | Panic _ => False
  end.
Proof.
  unfold reportStart, time_Parse_date.
  destruct (parse_date_fields (StartDate r)) as [[[[y m] d] [|c rest]]|]; cbn; eauto.
  destruct (day_in_range y m d); cbn; eauto.
Qed.

(** X4. The three outcomes of [GetRuntimeReport] on a decoded response.
    It returns a map exactly when [StartDate] parses and every report has a
    first row and in each of its rows a date, a time and a field for each
    column of [Columns]; it returns the parse error when [StartDate] does
    not parse, whatever the rows are; and in the remaining case, a start
    date that parses and a report with no row or with a row short of a
    field, it panics on a slice index. *)
Theorem shapeReport_outcome (r : RuntimeReportResponse) :
  match shapeReport r with
  | Ok _ =>
      (exists t, time_Parse_date (StartDate r) = Ok t)
      /\ forallb (rowsComplete (strings_Split (Columns r) ",")) (ReportList r) = true
  | Err e => time_Parse_date (StartDate r) = Err e
  | Panic msg =>
      (exists t, time_Parse_date (StartDate r) = Ok t)
      /\ forallb (rowsComplete (strings_Split (Columns r) ",")) (ReportList r) = false
      /\ msg = "index out of range"
  end.
Proof.
  set (complete := forallb (rowsComplete (strings_Split (Columns r) ",")) (ReportList r)).
  unfold shapeReport.
  pose proof (reportStart_outcome r) as Hstart.
  destruct (reportStart r) as [start|e|msg]; cbn [mbind result_bind];
    [|exact Hstart|contradiction].
  destruct complete eqn:Hc; subst complete.
  - destruct (collectReports_complete start _ _ ∅ Hc) as [data ->]. auto.
  - rewrite (collectReports_incomplete start _ _ ∅ Hc). auto.
Qed.

(** Each entry of a shaped report comes from the row of its place, and
    holds that row's fields under the columns' names. *)
Lemma formatRows_each (off : Duration) (cols : list string) (rows : list string) :
  forall entries,
    formatRows off cols rows = Ok entries ->
    Forall2 (fun row e => formatRow off cols row = Ok e) rows entries.
Proof.
  induction rows as [|row rows IH]; intros entries; simpl.
  - intros [= <-]. constructor.
  - intros (e & He & H)%result_bind_Ok. apply result_bind_Ok in H as (es & Hes & [= <-]).
    constructor; [exact He|apply IH, Hes].
Qed.

Lemma formatRow_columns (off : Duration) (cols : list string) (row : string)
    (e : RuntimeReportDataEntry) :
  formatRow off cols row = Ok e ->
  NoDup cols ->
  (forall (j : nat) (col : string),
      cols !! j = Some col -> DataFields e !! col = strings_Split row "," !! (j + 2)%nat)
  /\ (forall col : string, ~ In col cols -> DataFields e !! col = None).
Proof.
  unfold formatRow.
  intros (d & _ & H)%result_bind_Ok Hnodup. apply result_bind_Ok in H as (t & _ & H).
  apply result_bind_Ok in H as (m & Hm & [= <-]). simpl.
  destruct (fillColumns_lookup _ _ _ _ _ Hm Hnodup) as [Hin Hout]. split.
  - intros j col Hcol. rewrite (Hin j col Hcol). reflexivity.
  - intros col Hcol. rewrite (Hout col Hcol). apply lookup_empty.
Qed.

(** X5. In what [GetRuntimeReport] returns, the entries of a thermostat
    are, row by row, those of a report of the response with that
    identifier: when the columns of the response are distinct, entry [n]
    holds under column [j] the field [j + 2] of row [n], the two fields
    before it being the date and the time, and holds nothing under any
    other name. *)
Theorem shapeReport_columns_aligned
    (r : RuntimeReportResponse) (data : gmap string (list RuntimeReportDataEntry))
    (id : string) (entries : list RuntimeReportDataEntry) :
  shapeReport r = Ok data ->
  data !! id = Some entries ->
  NoDup (strings_Split (Columns r) ",") ->
  exists report : RuntimeReport,
    In report (ReportList r)
    /\ ThermostatIdentifier report = id
    /\ Forall2
         (fun row e =>
            (forall (j : nat) (col : string),
                strings_Split (Columns r) "," !! j = Some col ->
                DataFields e !! col = strings_Split row "," !! (j + 2)%nat)
            /\ (forall col : string,
                   ~ In col (strings_Split (Columns r) ",") -> DataFields e !! col = None))
         (RowList report) entries.
Proof.
  unfold shapeReport. intros (start & _ & Hcollect)%result_bind_Ok Hid Hnodup.
  destruct (collectReports_lookup _ _ _ _ _ _ _ Hcollect Hid)
    as [Hempty|(report & Hin & Hrep & Hentries)];
    [rewrite lookup_empty in Hempty; discriminate|].
  exists report. split; [exact Hin|]. split; [exact Hrep|].
  unfold reportEntries in Hentries.
  apply result_bind_Ok in Hentries as (off & _ & Hrows).
  apply formatRows_each in Hrows.
  eapply Forall2_impl; [exact Hrows|].
  intros row e He. simpl in He. apply (formatRow_columns off _ row e He Hnodup).
Qed.

(** A thermostat with a report in the response has entries in the map. *)
Lemma collectReports_keys (start : Time) (cols : list string) (reports : list RuntimeReport) :
  forall (acc data : gmap string (list RuntimeReportDataEntry)) (id : string),
    collectReports start cols reports acc = Ok data ->
    is_Some (acc !! id) \/ (exists report, In report reports /\ ThermostatIdentifier report = id) ->
    is_Some (data !! id).
Proof.
  induction reports as [|report reports IH]; intros acc data id; simpl.
  - intros [= <-] [H|(rep & [] & _)]. exact H.
  - intros (d & Hd & Hrest)%result_bind_Ok Hsome.
    apply (IH _ _ _ Hrest).
    destruct (decide (ThermostatIdentifier report = id)) as [Heq|Hne].
    + left. rewrite Heq, lookup_insert_eq. eauto.
    + destruct Hsome as [Hacc|(rep & [<-|Hin] & Hrep)].
      * left. rewrite lookup_insert_ne by exact Hne. exact Hacc.
      * contradiction.
      * right. eauto.
Qed.

(** X6. The map [GetRuntimeReport] returns has an entry list for exactly
    the thermostats that have a report in the response, and a list has as
    many entries as the report it was shaped from has rows: no row is
    dropped or doubled. *)
Theorem shapeReport_one_list_per_thermostat
    (r : RuntimeReportResponse) (data : gmap string (list RuntimeReportDataEntry)) :
  shapeReport r = Ok data ->
  (forall id : string,
      is_Some (data !! id)
      <-> exists report, In report (ReportList r) /\ ThermostatIdentifier report = id)
  /\ (forall (id : string) (entries : list RuntimeReportDataEntry),
        data !! id = Some entries ->
        exists report,
          In report (ReportList r) /\ ThermostatIdentifier report = id
          /\ length entries = length (RowList report)).
Proof.
  unfold shapeReport. intros (start & _ & Hcollect)%result_bind_Ok. split.
  - intros id. split.
    + intros [entries Hid].
      destruct (collectReports_lookup _ _ _ _ _ _ _ Hcollect Hid)
        as [Hempty|(report & Hin & Hrep & _)];
        [rewrite lookup_empty in Hempty; discriminate|eauto].
    + intros Hrep. apply (collectReports_keys _ _ _ _ _ _ Hcollect). right. exact Hrep.
  - intros id entries Hid.
    destruct (collectReports_lookup _ _ _ _ _ _ _ Hcollect Hid)
      as [Hempty|(report & Hin & Hrep & Hentries)];
      [rewrite lookup_empty in Hempty; discriminate|].
    exists report. split; [exact Hin|]. split; [exact Hrep|].
    apply reportEntries_times in Hentries as (first & rows & _ & Htimes).
    apply (f_equal length) in Htimes. rewrite !length_map in Htimes. exact Htimes.
Qed.

(** The report of two rows and two columns of thermostat [411]. *)
Lemma shapeReport_columns_aligned_witness :
  exists (data : gmap string (list RuntimeReportDataEntry))
         (entries : list RuntimeReportDataEntry) (report : RuntimeReport),
    shapeReport sampleReport = Ok data
    /\ data !! "411" = Some entries
    /\ In report (ReportList sampleReport)
    /\ ThermostatIdentifier report = "411"
    /\ Forall2
         (fun row e =>
            (forall (j : nat) (col : string),
                strings_Split (Columns sampleReport) "," !! j = Some col ->
                DataFields e !! col = strings_Split row "," !! (j + 2)%nat)
            /\ (forall col : string,
                   ~ In col (strings_Split (Columns sampleReport) ",") ->
                   DataFields e !! col = None))
         (RowList report) entries.
Proof.
  pose (data := match shapeReport sampleReport with Ok d => d | _ => ∅ end).
  pose (entries := default [] (data !! "411")).
  assert (Hshape : shapeReport sampleReport = Ok data) by (vm_compute; reflexivity).
  assert (Hid : data !! "411" = Some entries) by (vm_compute; reflexivity).
  assert (Hcols : NoDup (strings_Split (Columns sampleReport) ","))
    by (apply (bool_decide_unpack _); vm_compute; exact I).
  destruct (shapeReport_columns_aligned sampleReport data "411" entries Hshape Hid Hcols)
    as (report & H).
  exists data, entries, report. auto.
Defined.

(** The same report. *)
Lemma shapeReport_one_list_per_thermostat_witness :
  exists data : gmap string (list RuntimeReportDataEntry),
    shapeReport sampleReport = Ok data
    /\ (forall id : string,
          is_Some (data !! id)
          <-> exists report, In report (ReportList sampleReport)
                             /\ ThermostatIdentifier report = id)
    /\ (forall (id : string) (entries : list RuntimeReportDataEntry),
          data !! id = Some entries ->
          exists report,
            In report (ReportList sampleReport) /\ ThermostatIdentifier report = id
            /\ length entries = length (RowList report)).
Proof.
  pose (data := match shapeReport sampleReport with Ok d => d | _ => ∅ end).
  assert (Hshape : shapeReport sampleReport = Ok data) by (vm_compute; reflexivity).
  exists data. split; [exact Hshape|].
  exact (shapeReport_one_list_per_thermostat sampleReport data Hshape).
Defined.

(** ** Malformed rows *)

(** A row whose date and time do not parse reads as the zero [Time]. *)
Lemma rowClock_unparsable (row d t : string) (rest : list string) (err : error) :
  strings_Split row "," = d :: t :: rest ->
  time_Parse_datetime (d ++ " " ++ t) = Err err ->
  rowClock row = zeroTime.
Proof. intros Hsplit Hparse. unfold rowClock, rowTime. rewrite Hsplit, Hparse. reflexivity. Qed.

(** C6, where the program departs from it.  Once [StartDate] has parsed,
    no malformed row makes [GetRuntimeReport] return an error.  When some
    report has no row, or a row with fewer fields than a date, a time and
    one for each column, the function panics on a slice index.  Otherwise
    it returns a map, and a row whose date and time do not parse, the
    error of [time.Parse] being dropped, is in it all the same: it has an
    entry among those of its thermostat, stamped from the zero [Time] and
    the report's offset. *)
Theorem malformed_rows_are_no_error
    (fetch : GetRuntimeReportRequest -> result RuntimeReportResponse)
    (thermostatID : string) (wHum wAux1 wAux2 wHp1 wHp2 wCool1 wCool2 : bool)
    (r : RuntimeReportResponse) (t0 : Time) :
  fetch (runtimeReportRequest thermostatID wHum wAux1 wAux2 wHp1 wHp2 wCool1 wCool2) = Ok r ->
  time_Parse_date (StartDate r) = Ok t0 ->
  match GetRuntimeReport fetch thermostatID wHum wAux1 wAux2 wHp1 wHp2 wCool1 wCool2 with
  | Err _ => False
  | Panic msg =>
      msg = "index out of range"
      /\ forallb (rowsComplete (strings_Split (Columns r) ",")) (ReportList r) = false
  | Ok data =>
      forallb (rowsComplete (strings_Split (Columns r) ",")) (ReportList r) = true
      /\ forall (id : string) (entries : list RuntimeReportDataEntry),
           data !! id = Some entries ->
           exists (start : Time) (report : RuntimeReport) (first : string)
                  (rows : list string),
             reportStart r = Ok start
             /\ In report (ReportList r)
             /\ ThermostatIdentifier report = id
             /\ RowList report = first :: rows
             /\ length entries = length (RowList report)
             /\ forall (row d t : string) (rest : list string) (err : error),
                  In row (RowList report) ->
                  strings_Split row "," = d :: t :: rest ->
                  time_Parse_datetime (d ++ " " ++ t) = Err err ->
                  exists e : RuntimeReportDataEntry,
                    In e entries
                    /\ ReportTime e
                       = Time_Add zeroTime (Time_Sub start (rowClock first))
  end.
Proof.
  intros Hfetch Hdate. unfold GetRuntimeReport. rewrite Hfetch. cbn [mbind result_bind].
  assert (Hstart : reportStart r
                   = Ok (Time_Add t0 (wrap64 (wrap64 (StartInterval r * 5) * Minute))))
    by (unfold reportStart; rewrite Hdate; reflexivity).
  unfold shapeReport. rewrite Hstart. cbn [mbind result_bind].
  set (start := Time_Add t0 (wrap64 (wrap64 (StartInterval r * 5) * Minute))) in *.
  destruct (forallb (rowsComplete (strings_Split (Columns r) ",")) (ReportList r))
    eqn:Hcomplete.
  - destruct (collectReports_complete start _ _ ∅ Hcomplete) as [data Hcollect].
    rewrite Hcollect. split; [reflexivity|].
    intros id entries Hid.
    destruct (collectReports_lookup _ _ _ _ _ _ _ Hcollect Hid)
      as [Hempty|(report & Hin & Hrep & Hentries)];
      [rewrite lookup_empty in Hempty; discriminate|].
    apply reportEntries_times in Hentries as (first & rows & Hrows & Htimes).
    exists start, report, first, rows.
    split; [reflexivity|]. split; [exact Hin|]. split; [exact Hrep|].
    split; [exact Hrows|]. split.
    { pose proof (f_equal length Htimes) as Hlen. rewrite !length_map in Hlen.
      exact Hlen. }
    intros row d t rest err Hrow Hsplit Hparse.
    assert (Hstamp : In (Time_Add (rowClock row) (Time_Sub start (rowClock first)))
                        (map ReportTime entries))
      by (rewrite Htimes; apply (in_map (fun row => Time_Add (rowClock row) _)), Hrow).
    apply in_map_iff in Hstamp as (e & He & Hine).
    exists e. split; [exact Hine|].
    rewrite He, (rowClock_unparsable _ _ _ _ _ Hsplit Hparse). reflexivity.
  - rewrite (collectReports_incomplete start _ _ ∅ Hcomplete). split; reflexivity.
Qed.

(** A row whose date and time are words: a map comes back, with the
    entry of that row in it.  A row of one field: a panic. *)
Lemma malformed_rows_are_no_error_witness :
  (exists (data : gmap string (list RuntimeReportDataEntry))
          (entries : list RuntimeReportDataEntry),
      GetRuntimeReport (fun _ => Ok wordyReport) "411" true true true true true true true
      = Ok data
      /\ data !! "411" = Some entries
      /\ length entries = 1%nat)
  /\ GetRuntimeReport (fun _ => Ok shortRowReport) "411" true true true true true true true
     = Panic "index out of range".
Proof.
  split.
  - pose (data := match GetRuntimeReport (fun _ => Ok wordyReport) "411"
                                         true true true true true true true with
                  | Ok d => d
                  | _ => ∅
                  end).
    pose (entries := default [] (data !! "411")).
    assert (Hget : GetRuntimeReport (fun _ => Ok wordyReport) "411"
                                    true true true true true true true = Ok data)
      by (vm_compute; reflexivity).
    assert (Hid : data !! "411" = Some entries) by (vm_compute; reflexivity).
    pose proof (malformed_rows_are_no_error (fun _ => Ok wordyReport) "411"
                  true true true true true true true wordyReport
                  (time_Date 2022 2 16 0 0 0 0) eq_refl eq_refl) as Hrows.
    rewrite Hget in Hrows. destruct Hrows as [_ Hentries].
    destruct (Hentries "411" entries Hid)
      as (start & report & first & rows & _ & Hin & _ & _ & Hlen & _).
    destruct Hin as [<-|[]].
    exists data, entries. split; [exact Hget|]. split; [exact Hid|exact Hlen].
  - pose proof (malformed_rows_are_no_error (fun _ => Ok shortRowReport) "411"
                  true true true true true true true shortRowReport
                  (time_Date 2022 2 16 0 0 0 0) eq_refl eq_refl) as Hrows.
    destruct (GetRuntimeReport (fun _ => Ok shortRowReport) "411"
                               true true true true true true true)
      as [data|e|msg]; [|contradiction|].
    + destruct Hrows as [Hcomplete _]. vm_compute in Hcomplete. discriminate.
    + destruct Hrows as [-> _]. reflexivity.
Defined.

(** ** The summaries of the thermostats *)

(** [fmt.Errorf] around a call changes no result that is no error. *)
Lemma wrap_err_Ok {A : Type} (format : string) (args : list string) (r : result A) (a : A) :
  wrap_err format args r = Ok a -> r = Ok a.
Proof. destruct r; simpl; congruence. Qed.

(** What a turn of the loop that went through has read and stored. *)
Lemma summaryEntry_Ok (i : nat) (r : GetThermostatSummaryResponse)
    (tsm tsm' : gmap string ThermostatSummary) :
  summaryEntry i r tsm = Ok tsm' ->
  exists ts : ThermostatSummary,
    summaryRead r i ts /\ tsm' = <[TS_Identifier ts := ts]> tsm.
Proof.
  unfold summaryEntry.
  intros (rev & Hrev%at_index_Ok & H)%result_bind_Ok.
  destruct (length (strings_Split rev ":") <? 7)%nat; [discriminate|].
  apply result_bind_Ok in H as (status & Hstatus%at_index_Ok & H).
  apply result_bind_Ok in H as (es & Hes%wrap_err_Ok & H).
  apply result_bind_Ok in H as (rl0 & H0%at_index_Ok & H).
  apply result_bind_Ok in H as (rl1 & H1%at_index_Ok & H).
  apply result_bind_Ok in H as (rl2 & H2%at_index_Ok & H).
  apply result_bind_Ok in H as (rl3 & H3%at_index_Ok & H).
  apply result_bind_Ok in H as (rl4 & H4%at_index_Ok & H).
  apply result_bind_Ok in H as (rl5 & H5%at_index_Ok & H).
  apply result_bind_Ok in H as (rl6 & H6%at_index_Ok & H).
  apply result_bind_Ok in H as (connected & Hconn%wrap_err_Ok & [= <-]).
  destruct (strings_Split rev ":") as [|a0 [|a1 [|a2 [|a3 [|a4 [|a5 [|a6 rest]]]]]]]
    eqn:Hsplit; try discriminate.
  simpl in *. simplify_eq.
  exists (mkThermostatSummary rl0 rl1 connected rl3 rl4 rl5 rl6 es).
  split; [|reflexivity]. exists rev, status, rl2, rest. simpl. repeat split; assumption.
Qed.

(** The loop keeps what the map held and adds what it read, one entry
    after the other; a later entry of the same identifier replaces an
    earlier one. *)
Lemma summaryLoop_Ok (n : nat) (r : GetThermostatSummaryResponse) :
  forall (i : nat) (tsm tsm' : gmap string ThermostatSummary),
    summaryLoop n i r tsm = Ok tsm' ->
    (forall k, is_Some (tsm !! k) -> is_Some (tsm' !! k))
    /\ (forall j, (i <= j < i + n)%nat ->
          exists ts, summaryRead r j ts /\ is_Some (tsm' !! TS_Identifier ts))
    /\ (forall k ts, tsm' !! k = Some ts ->
          tsm !! k = Some ts
          \/ exists j, (i <= j < i + n)%nat /\ summaryRead r j ts /\ TS_Identifier ts = k).
Proof.
  induction n as [|n IH]; intros i tsm tsm'; simpl.
  - intros [= <-]. split; [auto|]. split; [intros j Hj; lia|auto].
  - intros (tsm1 & Hentry & Hrest)%result_bind_Ok.
    destruct (IH _ _ _ Hrest) as (Hkeep & Hall & Hkeys).
    apply summaryEntry_Ok in Hentry as (ts1 & Hread & ->).
    split; [|split].
    + intros k Hk. apply Hkeep.
      destruct (decide (TS_Identifier ts1 = k)) as [->|Hne];
        [rewrite lookup_insert_eq; eauto|rewrite lookup_insert_ne by exact Hne; exact Hk].
    + intros j Hj. destruct (decide (j = i)) as [->|Hne].
      * exists ts1. split; [exact Hread|]. apply Hkeep. rewrite lookup_insert_eq. eauto.
      * apply Hall. lia.
    + intros k ts Hk. destruct (Hkeys k ts Hk) as [Hin1|(j & Hj & Hrd & Hid)].
      * destruct (decide (TS_Identifier ts1 = k)) as [Heq|Hne].
        -- rewrite Heq, lookup_insert_eq in Hin1. injection Hin1 as ->.
           right. exists i. split; [lia|]. auto.
        -- rewrite lookup_insert_ne in Hin1 by exact Hne. auto.
      * right. exists j. split; [lia|]. auto.
Qed.

(** X7. Every summary in the map [GetThermostatSummary] returns was read
    off an entry of the response below [ThermostatCount]: it is stored
    under its own identifier, the first seven fields of the revision entry
    are its identifier, name, connected flag and four revisions, the
    connected flag is what [strconv.ParseBool] reads, and its equipment
    status is built from the status entry of the same place. *)
Theorem GetThermostatSummary_entries
    (r : GetThermostatSummaryResponse) (tsm : gmap string ThermostatSummary)
    (k : string) (ts : ThermostatSummary) :
  GetThermostatSummary (Ok r) = Ok tsm ->
  tsm !! k = Some ts ->
  TS_Identifier ts = k
  /\ exists j : nat, (j < Z.to_nat (ThermostatCount r))%nat /\ summaryRead r j ts.
Proof.
  unfold GetThermostatSummary. cbn [mbind result_bind]. intros Hloop Hk.
  destruct (summaryLoop_Ok _ _ _ _ _ Hloop) as (_ & _ & Hkeys).
  destruct (Hkeys k ts Hk) as [Hempty|(j & Hj & Hread & Hid)];
    [rewrite lookup_empty in Hempty; discriminate|].
  split; [exact Hid|]. exists j. split; [lia|exact Hread].
Qed.

(** X8. [GetThermostatSummary] returns a map only when every entry below
    [ThermostatCount] went through: the count is within both lists, each
    entry reads as a summary, and each summary's identifier is in the map.
    There is no partial map. *)
Theorem GetThermostatSummary_all_or_nothing
    (r : GetThermostatSummaryResponse) (tsm : gmap string ThermostatSummary) :
  GetThermostatSummary (Ok r) = Ok tsm ->
  (Z.to_nat (ThermostatCount r) <= length (RevisionList r))%nat
  /\ (Z.to_nat (ThermostatCount r) <= length (StatusList r))%nat
  /\ forall j : nat,
       (j < Z.to_nat (ThermostatCount r))%nat ->
       exists ts : ThermostatSummary,
         summaryRead r j ts /\ is_Some (tsm !! TS_Identifier ts).
Proof.
  unfold GetThermostatSummary. cbn [mbind result_bind]. intros Hloop.
  destruct (summaryLoop_Ok _ _ _ _ _ Hloop) as (_ & Hall & _).
  assert (Hread : forall j, (j < Z.to_nat (ThermostatCount r))%nat ->
            exists ts, summaryRead r j ts /\ is_Some (tsm !! TS_Identifier ts))
    by (intros j Hj; apply Hall; lia).
  split; [|split; [|exact Hread]].
  - destruct (le_lt_dec (Z.to_nat (ThermostatCount r)) (length (RevisionList r)))
      as [|Hlt]; [assumption|exfalso].
    destruct (Hread (length (RevisionList r)) Hlt)
      as (ts & (rev & status & c & rest & Hrev & _) & _).
    apply lookup_lt_Some in Hrev. lia.
  - destruct (le_lt_dec (Z.to_nat (ThermostatCount r)) (length (StatusList r)))
      as [|Hlt]; [assumption|exfalso].
    destruct (Hread (length (StatusList r)) Hlt)
      as (ts & (rev & status & c & rest & _ & Hst & _) & _).
    apply lookup_lt_Some in Hst. lia.
Qed.

(** An entry that reads as a summary takes its turn of the loop through. *)
Lemma summaryEntry_of_read (i : nat) (r : GetThermostatSummaryResponse)
    (ts : ThermostatSummary) (tsm : gmap string ThermostatSummary) :
  summaryRead r i ts ->
  summaryEntry i r tsm = Ok (<[TS_Identifier ts := ts]> tsm).
Proof.
  intros (rev & status & c & rest & Hrev & Hstatus & Hsplit & Hbool & Hes).
  unfold summaryEntry, at_index. rewrite Hrev. cbn [mbind result_bind].
  rewrite Hsplit. cbn [length Nat.ltb Nat.leb lookup list_lookup mbind result_bind].
  rewrite Hstatus. cbn [mbind result_bind].
  rewrite Hes. cbn [wrap_err mbind result_bind].
  rewrite Hbool. cbn [wrap_err mbind result_bind].
  destruct ts; reflexivity.
Qed.

(** So do the turns of the loop, one after the other. *)
Lemma summaryLoop_of_read (n : nat) (r : GetThermostatSummaryResponse) :
  forall (i : nat) (tsm : gmap string ThermostatSummary),
    (forall j, (i <= j < i + n)%nat -> exists ts, summaryRead r j ts) ->
    exists tsm', summaryLoop n i r tsm = Ok tsm'.
Proof.
  induction n as [|n IH]; intros i tsm Hall; simpl; [eauto|].
  destruct (Hall i) as [ts Hts]; [lia|].
  rewrite (summaryEntry_of_read _ _ _ _ Hts). cbn [mbind result_bind].
  apply IH. intros j Hj. apply Hall. lia.
Qed.

(** X9. The other way round: when each of the first [ThermostatCount]
    entries reads as a summary, [GetThermostatSummary] returns a map, with
    no error and no panic. *)
Theorem GetThermostatSummary_well_formed_returns (r : GetThermostatSummaryResponse) :
  (forall j : nat, (j < Z.to_nat (ThermostatCount r))%nat ->
                   exists ts : ThermostatSummary, summaryRead r j ts) ->
  exists tsm : gmap string ThermostatSummary, GetThermostatSummary (Ok r) = Ok tsm.
Proof.
  intros Hall. unfold GetThermostatSummary. cbn [mbind result_bind].
  apply summaryLoop_of_read. intros j Hj. apply Hall. lia.
Qed.

(** What an entry reads as is settled by the entry. *)
Lemma summaryRead_fun (r : GetThermostatSummaryResponse) (j : nat)
    (ts ts' : ThermostatSummary) :
  summaryRead r j ts -> summaryRead r j ts' -> ts = ts'.
Proof.
  intros (rev & status & c & rest & Hrev & Hstatus & Hsplit & Hbool & Hes)
         (rev' & status' & c' & rest' & Hrev' & Hstatus' & Hsplit' & Hbool' & Hes').
  rewrite Hrev in Hrev'. injection Hrev' as <-.
  rewrite Hstatus in Hstatus'. injection Hstatus' as <-.
  rewrite Hsplit in Hsplit'. rewrite Hes in Hes'.
  injection Hsplit' as H0 H1 <- H3 H4 H5 H6 _.
  rewrite Hbool in Hbool'. injection Hbool' as Hc. injection Hes' as He.
  destruct ts, ts'; simpl in *. congruence.
Qed.

(** A summary no later entry writes over is in the map at the end. *)
Lemma summaryLoop_last (n : nat) (r : GetThermostatSummaryResponse) :
  forall (i : nat) (tsm tsm' : gmap string ThermostatSummary) (k : string)
         (ts : ThermostatSummary),
    summaryLoop n i r tsm = Ok tsm' ->
    tsm !! k = Some ts ->
    (forall j ts', (i <= j < i + n)%nat -> summaryRead r j ts' -> TS_Identifier ts' <> k) ->
    tsm' !! k = Some ts.
Proof.
  induction n as [|n IH]; intros i tsm tsm' k ts; simpl.
  - intros [= <-] Hk _. exact Hk.
  - intros (tsm1 & Hentry & Hrest)%result_bind_Ok Hk Hlater.
    apply summaryEntry_Ok in Hentry as (ts1 & Hread & ->).
    apply (IH _ _ _ _ _ Hrest).
    + rewrite lookup_insert_ne; [exact Hk|]. apply (Hlater i ts1); [lia|exact Hread].
    + intros j ts' Hj. apply Hlater. lia.
Qed.

(** X10. When entries share an identifier the map holds the summary of the
    last of them: an entry's summary is in the map that is returned when no
    entry after it reads with the same identifier. *)
Theorem GetThermostatSummary_last_entry_wins
    (r : GetThermostatSummaryResponse) (tsm : gmap string ThermostatSummary)
    (j : nat) (ts : ThermostatSummary) :
  GetThermostatSummary (Ok r) = Ok tsm ->
  (j < Z.to_nat (ThermostatCount r))%nat ->
  summaryRead r j ts ->
  (forall (j' : nat) (ts' : ThermostatSummary),
      (j < j' < Z.to_nat (ThermostatCount r))%nat ->
      summaryRead r j' ts' -> TS_Identifier ts' <> TS_Identifier ts) ->
  tsm !! TS_Identifier ts = Some ts.
Proof.
  unfold GetThermostatSummary. cbn [mbind result_bind]. intros Hloop Hj Hread Hlater.
  replace (Z.to_nat (ThermostatCount r)) with (j + S (Z.to_nat (ThermostatCount r) - S j))%nat
    in Hloop by lia.
  rewrite summaryLoop_app in Hloop.
  apply result_bind_Ok in Hloop as (tsm0 & _ & Hloop). cbn [summaryLoop Nat.add] in Hloop.
  apply result_bind_Ok in Hloop as (tsm1 & Hentry & Hrest).
  apply summaryEntry_Ok in Hentry as (ts1 & Hread1 & ->).
  rewrite (summaryRead_fun _ _ _ _ Hread1 Hread) in Hrest.
  apply (summaryLoop_last _ _ _ _ _ _ _ Hrest); [apply lookup_insert_eq|].
  intros j' ts' Hj'. apply Hlater. lia.
Qed.

(** What the two entries of the sample summary read as. *)
Lemma sampleSummary_reads :
  summaryRead sampleSummary 0 homeSummary /\ summaryRead sampleSummary 1 atticSummary.
Proof.
  split.
  - exists "411:Home:true:220215:220214:220216:220216", "411:fan,heatPump", "true", [].
    repeat split; reflexivity.
  - exists "412:Attic:false:220101:220102:220103:220104", "412:", "false", [].
    repeat split; reflexivity.
Qed.

(** The summary of thermostat [411] in the sample response. *)
Lemma GetThermostatSummary_entries_witness :
  exists tsm : gmap string ThermostatSummary,
    GetThermostatSummary (Ok sampleSummary) = Ok tsm
    /\ tsm !! "411" = Some homeSummary
    /\ TS_Identifier homeSummary = "411"
    /\ exists j : nat, (j < 2)%nat /\ summaryRead sampleSummary j homeSummary.
Proof.
  pose (tsm := <["412" := atticSummary]>
                (<["411" := homeSummary]> (∅ : gmap string ThermostatSummary))).
  exists tsm. split; [reflexivity|]. split; [reflexivity|].
  apply (GetThermostatSummary_entries sampleSummary tsm "411" homeSummary); reflexivity.
Defined.

(** The sample response, of two entries. *)
Lemma GetThermostatSummary_all_or_nothing_witness :
  exists tsm : gmap string ThermostatSummary,
    GetThermostatSummary (Ok sampleSummary) = Ok tsm
    /\ (2 <= length (RevisionList sampleSummary))%nat
    /\ (2 <= length (StatusList sampleSummary))%nat
    /\ forall j : nat,
         (j < 2)%nat ->
         exists ts : ThermostatSummary,
           summaryRead sampleSummary j ts /\ is_Some (tsm !! TS_Identifier ts).
Proof.
  pose (tsm := <["412" := atticSummary]>
                (<["411" := homeSummary]> (∅ : gmap string ThermostatSummary))).
  exists tsm. split; [reflexivity|].
  apply (GetThermostatSummary_all_or_nothing sampleSummary tsm). reflexivity.
Defined.

(** The sample response again. *)
Lemma GetThermostatSummary_well_formed_returns_witness :
  exists tsm : gmap string ThermostatSummary, GetThermostatSummary (Ok sampleSummary) = Ok tsm.
Proof.
  apply (GetThermostatSummary_well_formed_returns sampleSummary).
  intros [|[|j]] Hj; [exists homeSummary|exists atticSummary|simpl in Hj; lia];
    apply sampleSummary_reads.
Defined.

(** Two entries for [411]: the map holds the second. *)
Lemma GetThermostatSummary_last_entry_wins_witness :
  exists tsm : gmap string ThermostatSummary,
    GetThermostatSummary (Ok twiceSummary) = Ok tsm
    /\ tsm !! "411" = Some (mkThermostatSummary "411" "Attic" false "220101" "220102"
                              "220103" "220104" zeroEquipmentStatus).
Proof.
  pose (ts := mkThermostatSummary "411" "Attic" false "220101" "220102" "220103" "220104"
                zeroEquipmentStatus).
  pose (tsm := <["411" := ts]> (∅ : gmap string ThermostatSummary)).
  exists tsm. split; [reflexivity|].
  apply (GetThermostatSummary_last_entry_wins twiceSummary tsm 1 ts).
  - reflexivity.
  - simpl. lia.
  - exists "411:Attic:false:220101:220102:220103:220104", "411:", "false", [].
    repeat split; reflexivity.
  - intros j' ts' Hj'. simpl in Hj'. lia.
Defined.

(** ** One thermostat *)

(** X11. [GetThermostat] returns a thermostat exactly when the response
    has status code 0 and lists that thermostat and no other; it panics
    only if the fetch does, the index [thermostats[0]] being guarded by the
    test of the length; and with status code 0 and any other number of
    thermostats it returns the error that names the number. *)
Theorem GetThermostat_exactly_one
    (fetch : Selection -> result GetThermostatsResponse) (thermostatID : string) :
  (forall t : Thermostat,
      GetThermostat fetch thermostatID = Ok t
      <-> exists r : GetThermostatsResponse,
            fetch (thermostatSelection thermostatID) = Ok r
            /\ Code (Resp_Status r) = 0
            /\ ThermostatList r = [t])
  /\ (forall msg : string,
        GetThermostat fetch thermostatID = Panic msg
        <-> fetch (thermostatSelection thermostatID) = Panic msg)
  /\ (forall r : GetThermostatsResponse,
        fetch (thermostatSelection thermostatID) = Ok r ->
        Code (Resp_Status r) = 0 ->
        length (ThermostatList r) <> 1%nat ->
        GetThermostat fetch thermostatID
        = Err (Errorf "got %d thermostats, wanted 1"
                      [fmt_d (Z.of_nat (length (ThermostatList r)))])).
Proof.
  unfold GetThermostat, GetThermostats.
  destruct (fetch (thermostatSelection thermostatID)) as [r|e|msg'];
    cbn [mbind result_bind].
  - destruct (Z.eqb_spec (Code (Resp_Status r)) 0) as [Hcode|Hcode];
      cbn [negb mbind result_bind].
    + destruct (ThermostatList r) as [|t0 [|t1 rest]] eqn:Hlist; cbn.
      * split; [|split].
        -- intros t. split; [discriminate|]. intros (r' & [= <-] & _ & Hl). congruence.
        -- intros msg. split; discriminate.
        -- intros r' [= <-] _ _. rewrite Hlist. reflexivity.
      * split; [|split].
        -- intros t. split.
           ++ intros [= <-]. exists r. auto.
           ++ intros (r' & [= <-] & _ & Hl). congruence.
        -- intros msg. split; discriminate.
        -- intros r' [= <-] _ Hlen. rewrite Hlist in Hlen. simpl in Hlen. lia.
      * split; [|split].
        -- intros t. split; [discriminate|]. intros (r' & [= <-] & _ & Hl). congruence.
        -- intros msg. split; discriminate.
        -- intros r' [= <-] _ _. rewrite Hlist. reflexivity.
    + split; [|split].
      * intros t. split; [discriminate|]. intros (r' & [= <-] & Hc & _). contradiction.
      * intros msg. split; discriminate.
      * intros r' [= <-] Hc. contradiction.
  - split; [|split].
    + intros t. split; [discriminate|]. intros (r' & [=] & _).
    + intros msg. split; discriminate.
    + intros r' [=].
  - split; [|split].
    + intros t. split; [discriminate|]. intros (r' & [=] & _).
    + intros msg. split; intros [= ->]; reflexivity.
    + intros r' [=].
Qed.

(** ** The recommendation and the order of the temperatures *)

(** [<=] on the floats that are no NaN is transitive. *)
Lemma SFleb_trans (a b c : spec_float) :
  SFleb a b = true -> SFleb b c = true -> SFleb a c = true.
Proof.
  unfold SFleb.
  destruct a as [sa|sa| |sa ma ea], b as [sb|sb| |sb mb eb], c as [sc|sc| |sc mc ec];
    cbn [SFcompare]; try discriminate; try reflexivity;
    try (destruct sa; try discriminate; try reflexivity;
         destruct sb; try discriminate; try reflexivity;
         destruct sc; try discriminate; reflexivity);
    try (destruct sa; try discriminate; try reflexivity;
         destruct sc; try discriminate; try reflexivity;
         destruct sb; try discriminate; reflexivity);
    try (destruct sb; try discriminate; try reflexivity;
         destruct sc; try discriminate; try reflexivity;
         destruct sa; try discriminate; reflexivity).
  all: rewrite ?Pos.compare_cont_spec; cbn [Pos.switch_Eq].
  all: destruct sa, sb, sc; try discriminate; try reflexivity.
  all: destruct (Z.compare_spec ea eb) as [Hab|Hab|Hab];
    destruct (Z.compare_spec eb ec) as [Hbc|Hbc|Hbc];
    destruct (Z.compare_spec ea ec) as [Hac|Hac|Hac];
    try discriminate; try reflexivity; try lia.
  all: destruct (Pos.compare_spec ma mb) as [Hmab|Hmab|Hmab];
    destruct (Pos.compare_spec mb mc) as [Hmbc|Hmbc|Hmbc];
    destruct (Pos.compare_spec ma mc) as [Hmac|Hmac|Hmac];
    cbn [CompOpp]; try discriminate; try reflexivity; try lia.
Qed.

(** X12. The recommendation never goes down as the outdoor temperature
    goes up, and lies between 15 and 50: for any two temperatures with
    [t' >= t] as Go compares them, which rules out a NaN on either side,
    the value for [t] is at most the value for [t']. *)
Theorem IndoorHumidityRecommendation_monotone (t t' : float64) :
  f64_ge t' t = true ->
  IndoorHumidityRecommendation t <= IndoorHumidityRecommendation t'
  /\ 15 <= IndoorHumidityRecommendation t
  /\ IndoorHumidityRecommendation t' <= 50.
Proof.
  intros Hle.
  assert (Hmono : forall c, f64_ge t c = true -> f64_ge t' c = true)
    by (intros c Hc; unfold f64_ge in *; exact (SFleb_trans _ _ _ Hc Hle)).
  unfold IndoorHumidityRecommendation.
  repeat match goal with
         | |- context [if f64_ge ?x ?c then _ else _] => destruct (f64_ge x c) eqn:?
         end;
    try lia;
    exfalso;
    match goal with
    | H : f64_ge t ?c = true, H' : f64_ge t' ?c = false |- _ =>
        rewrite (Hmono c H) in H'; discriminate
    end.
Qed.

(** At 25 and at 45 degrees. *)
Lemma IndoorHumidityRecommendation_monotone_witness :
  IndoorHumidityRecommendation (float64_of_Z 25) <= IndoorHumidityRecommendation (float64_of_Z 45)
  /\ 15 <= IndoorHumidityRecommendation (float64_of_Z 25)
  /\ IndoorHumidityRecommendation (float64_of_Z 45) <= 50.
Proof.
  apply (IndoorHumidityRecommendation_monotone (float64_of_Z 25) (float64_of_Z 45)).
  vm_compute. reflexivity.
Defined.

(** ** The points, the writes and the attempts *)

(** The metadata of an identifier is that of the last thermostat of the
    list that bears it. *)
Lemma thermostatMetadata_snoc (thermostats : list Thermostat) (t : Thermostat) :
  thermostatMetadata (thermostats ++ [t])%list
  = <[Identifier t :=
        <["thermostat_brand" := Brand t]>
        (<["thermostat_model" := ModelNumber t]>
        (<["thermostat_name" := Name t]> ∅))]> (thermostatMetadata thermostats).
Proof. unfold thermostatMetadata. rewrite foldl_app. reflexivity. Qed.

Lemma thermostatMetadata_lookup (thermostats : list Thermostat) (id : string) :
  thermostatMetadata thermostats !! id
  = (fun t => <["thermostat_brand" := Brand t]>
              (<["thermostat_model" := ModelNumber t]>
              (<["thermostat_name" := Name t]> (∅ : gmap string string))))
    <$> List.find (fun t => String.eqb (Identifier t) id) (rev thermostats).
Proof.
  induction thermostats as [|t thermostats IH] using rev_ind.
  - reflexivity.
  - rewrite thermostatMetadata_snoc, rev_app_distr. cbn [rev app List.find].
    destruct (String.eqb_spec (Identifier t) id) as [->|Hne].
    + rewrite lookup_insert_eq. reflexivity.
    + rewrite lookup_insert_ne by exact Hne. exact IH.
Qed.

(** X13. The tags of a thermostat's points, for any list of thermostats
    the metadata call returned.  [receiver] and [device_id] are always
    there, with the fixed receiver name and [ecobee-] before the
    identifier.  When the list has a thermostat of that identifier, name,
    model and brand are those of the last such thermostat; when it has
    none, the two fixed tags are all there is.  No other tag is ever set. *)
Theorem pointTags_of_metadata (thermostats : list Thermostat) (id : string) :
  pointTags (thermostatMetadata thermostats) id !! "receiver" = Some "ecobee-influx-connector"
  /\ pointTags (thermostatMetadata thermostats) id !! "device_id" = Some ("ecobee-" ++ id)
  /\ match List.find (fun t => String.eqb (Identifier t) id) (rev thermostats) with
     | Some t =>
         pointTags (thermostatMetadata thermostats) id !! "thermostat_name" = Some (Name t)
         /\ pointTags (thermostatMetadata thermostats) id !! "thermostat_model"
            = Some (ModelNumber t)
         /\ pointTags (thermostatMetadata thermostats) id !! "thermostat_brand"
            = Some (Brand t)
     | None =>
         pointTags (thermostatMetadata thermostats) id
         = <["receiver" := "ecobee-influx-connector"]> (<["device_id" := "ecobee-" ++ id]> ∅)
     end
  /\ forall k : string,
       is_Some (pointTags (thermostatMetadata thermostats) id !! k) ->
       In k ["receiver"; "device_id"; "thermostat_name"; "thermostat_model";
             "thermostat_brand"].
Proof.
  unfold pointTags. cbv zeta. rewrite thermostatMetadata_lookup.
  destruct (List.find _ (rev thermostats)) as [t|]; cbn [fmap option_fmap option_map default from_option Datatypes.id].
  - split; [reflexivity|]. split; [reflexivity|].
    split; [split; [reflexivity|split; reflexivity]|].
    intros k [v Hk]. apply lookup_union_Some_raw in Hk as [Hk|[_ Hk]].
    + destruct (decide (k = "thermostat_brand")) as [->|]; [simpl; tauto|].
      rewrite lookup_insert_ne in Hk by congruence.
      destruct (decide (k = "thermostat_model")) as [->|]; [simpl; tauto|].
      rewrite lookup_insert_ne in Hk by congruence.
      destruct (decide (k = "thermostat_name")) as [->|]; [simpl; tauto|].
      rewrite lookup_insert_ne in Hk by congruence. discriminate.
    + destruct (decide (k = "receiver")) as [->|]; [simpl; tauto|].
      rewrite lookup_insert_ne in Hk by congruence.
      destruct (decide (k = "device_id")) as [->|]; [simpl; tauto|].
      rewrite lookup_insert_ne in Hk by congruence. discriminate.
  - rewrite (left_id_L ∅ (∪)).
    split; [reflexivity|]. split; [reflexivity|]. split; [reflexivity|].
    intros k [v Hk].
    destruct (decide (k = "receiver")) as [->|]; [simpl; tauto|].
    rewrite lookup_insert_ne in Hk by congruence.
    destruct (decide (k = "device_id")) as [->|]; [simpl; tauto|].
    rewrite lookup_insert_ne in Hk by congruence. discriminate.
Qed.

(** ** Counting calls *)

Section SyncMore.

Variable strconv_ParseFloat : string -> float64 * option error.
Variable env : Env.
Variable config : Config.

(** The loop over the thermostats of the report, by its outcome: the
    writes made are those of the first [k] thermostats, in order; all of
    them but the last were accepted; the loop returns nil when it has
    written them all, and otherwise ends with what the write it stopped at
    did, return an error or panic. *)
Lemma writeReports_outcome (md : gmap string (gmap string string))
    (items : list (string * list RuntimeReportDataEntry)) :
  forall (w w' : World) (r : result unit),
    writeReports strconv_ParseFloat env config md items w = (r, w') ->
    exists k : nat,
      (k <= length items)%nat
      /\ w' = mkWorld (last_data_txt w)
                      (trace w ++ map (writeEvent strconv_ParseFloat md config)
                                      (take k items))%list
      /\ (forall (i : nat) (item : string * list RuntimeReportDataEntry),
             (S i < k)%nat -> items !! i = Some item ->
             env_Write env (calls isWrite w + i)
                       (batchFor strconv_ParseFloat config md item.1 item.2) = Ok tt)
      /\ match r with
         | Ok _ =>
             k = length items
             /\ forall (i : nat) (item : string * list RuntimeReportDataEntry),
                  items !! i = Some item ->
                  env_Write env (calls isWrite w + i)
                            (batchFor strconv_ParseFloat config md item.1 item.2) = Ok tt
         | Err e =>
             exists (i : nat) (item : string * list RuntimeReportDataEntry),
               k = S i /\ items !! i = Some item
               /\ env_Write env (calls isWrite w + i)
                            (batchFor strconv_ParseFloat config md item.1 item.2) = Err e
         | Panic msg =>
             exists (i : nat) (item : string * list RuntimeReportDataEntry),
               k = S i /\ items !! i = Some item
               /\ env_Write env (calls isWrite w + i)
                            (batchFor strconv_ParseFloat config md item.1 item.2)
                  = Panic msg
         end.
Proof.
  induction items as [|[thermostat_id entries] items IH]; intros w w' r; simpl.
  - intros [= <- <-]. exists 0%nat. split; [lia|]. split.
    + destruct w. simpl. rewrite app_nil_r. reflexivity.
    + split; [intros i item Hi; lia|]. split; [reflexivity|]. intros i item [=].
  - destruct (env_Write env (calls isWrite w) _) as [[]|err|msg] eqn:Hwrite.
    + intros Hrest. apply IH in Hrest as (k & Hk & -> & Hbefore & Hr).
      rewrite calls_record_event in Hbefore, Hr. cbn [isWrite] in Hbefore, Hr.
      exists (S k). split; [lia|]. split.
      { unfold record_event. cbn [trace last_data_txt firstn take map].
        rewrite <- app_assoc. reflexivity. }
      split.
      { intros [|i] item Hi Hitem.
        - injection Hitem as <-. rewrite Nat.add_0_r. exact Hwrite.
        - simpl in Hitem. replace (calls isWrite w + S i)%nat
            with (calls isWrite w + 1 + i)%nat by lia.
          apply Hbefore; [lia|exact Hitem]. }
      destruct r as [u|e|msg].
      * destruct Hr as [-> Hall]. split; [reflexivity|].
        intros [|i] item Hitem.
        -- injection Hitem as <-. rewrite Nat.add_0_r. exact Hwrite.
        -- simpl in Hitem. replace (calls isWrite w + S i)%nat
             with (calls isWrite w + 1 + i)%nat by lia.
           apply Hall. exact Hitem.
      * destruct Hr as (i & item & -> & Hitem & He).
        exists (S i), item. split; [reflexivity|]. split; [exact Hitem|].
        replace (calls isWrite w + S i)%nat with (calls isWrite w + 1 + i)%nat by lia.
        exact He.
      * destruct Hr as (i & item & -> & Hitem & He).
        exists (S i), item. split; [reflexivity|]. split; [exact Hitem|].
        replace (calls isWrite w + S i)%nat with (calls isWrite w + 1 + i)%nat by lia.
        exact He.
    + intros [= <- <-]. exists 1%nat. split; [lia|]. split; [reflexivity|].
      split; [intros i item Hi; lia|].
      exists 0%nat, (thermostat_id, entries). rewrite Nat.add_0_r. auto.
    + intros [= <- <-]. exists 1%nat. split; [lia|]. split; [reflexivity|].
      split; [intros i item Hi; lia|].
      exists 0%nat, (thermostat_id, entries). rewrite Nat.add_0_r. auto.
Qed.

(** The writes are no calls of another kind. *)
Lemma filter_writeEvents (kind : Event -> bool) (md : gmap string (gmap string string))
    (items : list (string * list RuntimeReportDataEntry)) :
  (forall bp, kind (CallWrite bp) = false) ->
  List.filter kind (map (writeEvent strconv_ParseFloat md config) items) = [].
Proof.
  intros Hkind. induction items as [|item items IH]; [reflexivity|].
  cbn [map List.filter]. unfold writeEvent at 1. rewrite Hkind. exact IH.
Qed.

(** The metadata call is no report call, and neither is a write. *)
Lemma calls_isRuntimeReport_metadata (w : World) (s : Selection) :
  calls isRuntimeReport (record_event (CallGetThermostats s) w) = calls isRuntimeReport w.
Proof. rewrite calls_record_event. cbn [isRuntimeReport]. lia. Qed.



(** What an attempt adds to the calls made: one metadata call, at most
    one report call, and no write of the file. *)
Lemma attempt_calls (start_str end_str : string) (w w' : World) (r : result unit) :
  attempt strconv_ParseFloat env config start_str end_str w = (r, w') ->
  last_data_txt w' = last_data_txt w
  /\ calls isGetThermostats w' = S (calls isGetThermostats w)
  /\ (calls isRuntimeReport w' <= S (calls isRuntimeReport w))%nat
  /\ (calls isRuntimeReport w <= calls isRuntimeReport w')%nat
  /\ calls isWriteLastData w' = calls isWriteLastData w.
Proof.
  unfold attempt.
  destruct (env_GetThermostats env _ _) as [thermostats|err|msg].
  - destruct (fetchedReport _ _ _) as [report_data|rr_err|msg].
    + intros (k & _ & -> & _)%writeReports_outcome.
      rewrite !calls_app. rewrite !filter_writeEvents by reflexivity.
      rewrite !calls_record_event.
      cbn [isGetThermostats isRuntimeReport isWriteLastData length last_data_txt
           record_event].
      split; [reflexivity|]. lia.
    + intros (k & _ & -> & _)%writeReports_outcome.
      rewrite !calls_app. rewrite !filter_writeEvents by reflexivity.
      rewrite !calls_record_event.
      cbn [isGetThermostats isRuntimeReport isWriteLastData length last_data_txt
           record_event].
      split; [reflexivity|]. lia.
    + intros [= <- <-]. rewrite !calls_record_event.
      cbn [isGetThermostats isRuntimeReport isWriteLastData last_data_txt record_event].
      split; [reflexivity|]. lia.
  - intros [= <- <-]. rewrite !calls_record_event.
    cbn [isGetThermostats isRuntimeReport isWriteLastData last_data_txt record_event].
    split; [reflexivity|]. lia.
  - intros [= <- <-]. rewrite !calls_record_event.
    cbn [isGetThermostats isRuntimeReport isWriteLastData last_data_txt record_event].
    split; [reflexivity|]. lia.
Qed.

(** So for the attempts [retry.Do] makes: at least one, at most as many
    as allowed, and all of them when it gives up. *)
Lemma retry_Do_calls (start_str end_str : string) (n : nat) :
  forall (w w' : World) (r : result unit),
    retry_Do (S n) (attempt strconv_ParseFloat env config start_str end_str) w = (r, w') ->
    (calls isGetThermostats w < calls isGetThermostats w' <= calls isGetThermostats w + S n)%nat
    /\ (calls isRuntimeReport w <= calls isRuntimeReport w' <= calls isRuntimeReport w + S n)%nat
    /\ calls isWriteLastData w' = calls isWriteLastData w
    /\ match r with
       | Err _ => calls isGetThermostats w' = (calls isGetThermostats w + S n)%nat
       | _ => True
       end.
Proof.
  induction n as [|n IH]; intros w w' r; cbn [retry_Do].
  - destruct (attempt _ _ _ _ _ w) as [[u|err|msg] w1] eqn:Hattempt;
      intros [= <- <-]; apply attempt_calls in Hattempt as (_ & Hm & Hr1 & Hr2 & Hf);
      (split; [lia|]); (split; [lia|]); (split; [exact Hf|]); try exact I. lia.
  - destruct (attempt _ _ _ _ _ w) as [[u|err|msg] w1] eqn:Hattempt;
      apply attempt_calls in Hattempt as (_ & Hm & Hr1 & Hr2 & Hf).
    + intros [= <- <-]. split; [lia|]. split; [lia|]. split; [exact Hf|]. exact I.
    + intros Hrest. apply IH in Hrest as (Hm' & Hr' & Hf' & Hlast).
      split; [lia|]. split; [lia|]. split; [congruence|].
      destruct r; [exact I| |exact I]. lia.
    + intros [= <- <-]. split; [lia|]. split; [lia|]. split; [exact Hf|]. exact I.
Qed.

(** The file after [doUpdate]: what the one call of [ioutil.WriteFile]
    left in it when [doUpdate] returns, for that call is made on the file
    as it was; and what it held before when [doUpdate] ends the process,
    for then no such call is made. *)
Lemma doUpdate_file (start_str end_str : string) (w w' : World) (st : status) :
  doUpdate strconv_ParseFloat env config start_str end_str w = (st, w') ->
  match st with
  | Running =>
      last_data_txt w'
      = match env_WriteFile env (calls isWriteLastData w) (last_data_txt w)
                            (end_str ++ newline) with
        | FileWritten => Some (end_str ++ newline)
        | FileWriteFailed _ remains => remains
        end
      /\ calls isWriteLastData w' = S (calls isWriteLastData w)
  | _ =>
      last_data_txt w' = last_data_txt w
      /\ calls isWriteLastData w' = calls isWriteLastData w
  end.
Proof.
  unfold doUpdate, retryAttempts.
  destruct (retry_Do 10 _ w) as [[u|err|msg] w1] eqn:Hretry;
    pose proof (retry_Do_frame _ _ _ _ _ _ _ _ _ Hretry) as [Hfile _];
    apply retry_Do_calls in Hretry as (_ & _ & Hf & _); intros [= <- <-].
  - unfold writeLastData. rewrite calls_app.
    cbn [List.filter isWriteLastData length last_data_txt]. rewrite Hf, Hfile.
    split; [reflexivity|lia].
  - split; [exact Hfile|exact Hf].
  - split; [exact Hfile|exact Hf].
Qed.

(** X15. Whatever the vendor, the sink and the file system answer,
    [doUpdate] makes between one and ten metadata calls and at most ten
    report calls.  It ends the process only with exit code 1, only after
    all ten attempts, and then, as after a panic, without a write of the
    file, which is as it was.  When it returns it has called
    [ioutil.WriteFile] once, with [end_str] and a line feed: the file
    holds these when the call succeeded, and what the failed call left in
    it otherwise, the error being dropped. *)
Theorem doUpdate_gives_up_after_ten_attempts
    (start_str end_str : string) (w w' : World) (st : status) :
  doUpdate strconv_ParseFloat env config start_str end_str w = (st, w') ->
  (calls isGetThermostats w < calls isGetThermostats w' <= calls isGetThermostats w + 10)%nat
  /\ (calls isRuntimeReport w <= calls isRuntimeReport w' <= calls isRuntimeReport w + 10)%nat
  /\ match st with
     | Running =>
         calls isWriteLastData w' = S (calls isWriteLastData w)
         /\ last_data_txt w'
            = match env_WriteFile env (calls isWriteLastData w) (last_data_txt w)
                                  (end_str ++ newline) with
              | FileWritten => Some (end_str ++ newline)
              | FileWriteFailed _ remains => remains
              end
     | Exited code =>
         code = 1 /\ last_data_txt w' = last_data_txt w
         /\ calls isWriteLastData w' = calls isWriteLastData w
         /\ calls isGetThermostats w' = (calls isGetThermostats w + 10)%nat
     | Panicked _ =>
         last_data_txt w' = last_data_txt w
         /\ calls isWriteLastData w' = calls isWriteLastData w
     end.
Proof.
  intros Hrun. pose proof (doUpdate_file _ _ _ _ _ Hrun) as Hfile.
  revert Hrun. unfold doUpdate, retryAttempts.
  destruct (retry_Do 10 _ w) as [[u|err|msg] w1] eqn:Hretry;
    apply retry_Do_calls in Hretry as (Hm & Hr & _ & Hlast); intros [= <- <-].
  - unfold writeLastData at 1 2 3 4. rewrite !calls_app.
    cbn [List.filter isGetThermostats isRuntimeReport length].
    split; [lia|]. split; [lia|]. destruct Hfile as [Hfile Hcalls]. auto.
  - split; [exact Hm|]. split; [exact Hr|]. destruct Hfile as [Hfile Hcalls]. auto.
  - split; [exact Hm|]. split; [exact Hr|]. exact Hfile.
Qed.

(** When the sink takes every batch, each thermostat's batch is written. *)
Lemma writeReports_accepted (md : gmap string (gmap string string))
    (items : list (string * list RuntimeReportDataEntry)) :
  forall w : World,
    (forall (i : nat) (item : string * list RuntimeReportDataEntry),
        items !! i = Some item ->
        env_Write env (calls isWrite w + i)
                  (batchFor strconv_ParseFloat config md item.1 item.2) = Ok tt) ->
    writeReports strconv_ParseFloat env config md items w
    = (Ok tt,
       mkWorld (last_data_txt w)
               (trace w ++ map (writeEvent strconv_ParseFloat md config) items)%list).
Proof.
  induction items as [|[thermostat_id entries] items IH]; intros w Hall; simpl.
  - destruct w. simpl. rewrite app_nil_r. reflexivity.
  - pose proof (Hall 0%nat (thermostat_id, entries) eq_refl) as Hfirst.
    rewrite Nat.add_0_r in Hfirst. cbn [fst snd] in Hfirst. rewrite Hfirst.
    rewrite IH.
    + unfold record_event. cbn [trace last_data_txt]. rewrite <- app_assoc. reflexivity.
    + intros i item Hitem. rewrite calls_record_event. cbn [isWrite].
      replace (calls isWrite w + 1 + i)%nat with (calls isWrite w + S i)%nat by lia.
      apply Hall. exact Hitem.
Qed.

(** X16. A sync without failures: when the metadata call and the report
    call succeed, the sink accepts the batch of every thermostat of the
    report whenever it is offered, and the write of the file succeeds,
    [doUpdate] makes the metadata call, the report call and then one write
    per thermostat of the report, each thermostat's batch once, in the
    order the map happens to be ranged over; then it stores [end_str] in
    the file, and returns.  Nothing is retried. *)
Theorem doUpdate_clean_sync
    (start_str end_str : string) (w : World)
    (thermostats : list Thermostat) (report_data : gmap string (list RuntimeReportDataEntry)) :
  env_GetThermostats env (calls isGetThermostats w) (metadataSelection config)
    = Ok thermostats ->
  fetchedReport env config (calls isRuntimeReport w) = Ok report_data ->
  (forall (n : nat) (thermostat_id : string) (entries : list RuntimeReportDataEntry),
      report_data !! thermostat_id = Some entries ->
      env_Write env n
        (batchFor strconv_ParseFloat config (thermostatMetadata thermostats)
                  thermostat_id entries)
      = Ok tt) ->
  env_WriteFile env (calls isWriteLastData w) (last_data_txt w) (end_str ++ newline)
    = FileWritten ->
  exists items : list (string * list RuntimeReportDataEntry),
    Permutation items (map_to_list report_data)
    /\ doUpdate strconv_ParseFloat env config start_str end_str w =
       (Running,
        mkWorld (Some (end_str ++ newline))
                (trace w ++ CallGetThermostats (metadataSelection config)
                   :: CallRuntimeReport (configRequest config)
                   :: map (writeEvent strconv_ParseFloat (thermostatMetadata thermostats)
                                      config) items
                   ++ [WriteLastData (end_str ++ newline)])%list).
Proof.
  intros Hmeta Hfetch Hwrites Hfile.
  exists (map_to_list report_data). split; [reflexivity|].
  unfold doUpdate, retryAttempts.
  cbn [retry_Do]. unfold attempt. rewrite Hmeta.
  rewrite calls_isRuntimeReport_metadata, Hfetch.
  rewrite writeReports_accepted.
  - unfold writeLastData. rewrite calls_app.
    rewrite filter_writeEvents by reflexivity. rewrite !calls_record_event.
    cbn [isWriteLastData length last_data_txt record_event trace].
    rewrite !Nat.add_0_r, Hfile, <- !app_assoc. reflexivity.
  - intros i [thermostat_id entries] Hitem. apply Hwrites.
    apply elem_of_map_to_list. apply (list_elem_of_lookup_2 _ i). exact Hitem.
Qed.

(** A vendor whose metadata call fails every time uses up the attempts. *)
Lemma retry_Do_metadata_down (start_str end_str : string) (n : nat) :
  (forall k : nat, exists e, env_GetThermostats env k (metadataSelection config) = Err e) ->
  forall w : World,
    exists e : error,
      retry_Do (S n) (attempt strconv_ParseFloat env config start_str end_str) w
      = (Err e,
         mkWorld (last_data_txt w)
                 (trace w ++ repeat (CallGetThermostats (metadataSelection config)) (S n))%list).
Proof.
  intros Hdown. induction n as [|n IH]; intros w.
  - destruct (Hdown (calls isGetThermostats w)) as [e He].
    cbn [retry_Do]. unfold attempt. rewrite He. eexists. reflexivity.
  - destruct (Hdown (calls isGetThermostats w)) as [e He].
    cbn [retry_Do]. unfold attempt at 1. rewrite He.
    destruct (IH (record_event (CallGetThermostats (metadataSelection config)) w))
      as [e' He'].
    cbn [retry_Do] in He'. rewrite He'. exists e'.
    unfold record_event. cbn [trace last_data_txt repeat]. rewrite <- app_assoc.
    reflexivity.
Qed.

(** X17. When the metadata call fails every time, [doUpdate] makes it ten
    times and nothing else, no report call and no write, leaves the file
    as it was and ends the process with exit code 1. *)
Theorem doUpdate_metadata_down (start_str end_str : string) (w : World) :
  (forall k : nat, exists e, env_GetThermostats env k (metadataSelection config) = Err e) ->
  doUpdate strconv_ParseFloat env config start_str end_str w =
  (Exited 1,
   mkWorld (last_data_txt w)
           (trace w ++ repeat (CallGetThermostats (metadataSelection config)) 10)%list).
Proof.
  intros Hdown. unfold doUpdate, retryAttempts.
  destruct (retry_Do_metadata_down start_str end_str 9 Hdown w) as [e ->]. reflexivity.
Qed.

End SyncMore.

(** ** The watermark through the file *)

(** A decimal digit is no white space, so the digits [appendInt] writes
    for a year or for a field of two are none. *)
Lemma isSpace_digit_char (d : Z) : 0 <= d <= 9 -> isSpace (digit_char d) = false.
Proof.
  intros Hd.
  assert (Hcases : d = 0 \/ d = 1 \/ d = 2 \/ d = 3 \/ d = 4 \/ d = 5 \/ d = 6
                   \/ d = 7 \/ d = 8 \/ d = 9) by lia.
  repeat (destruct Hcases as [->|Hcases]; [reflexivity|]). subst d. reflexivity.
Qed.

Lemma noSpace_appendInt4 (y : Z) (rest : string) :
  0 <= y <= 9999 -> noSpace (appendInt y 4 ++ rest) = noSpace rest.
Proof.
  intros Hy. unfold appendInt.
  rewrite Z.abs_eq by lia.
  destruct (Z.ltb_spec y 0); [lia|].
  change (4 =? 2)%nat with false. change (4 =? 4)%nat with true.
  destruct (Z.ltb_spec y 10000); [|lia].
  cbv beta iota delta [andb].
  rewrite append_nil_l, !append_cons, append_nil_l.
  cbn [noSpace].
  rewrite !isSpace_digit_char by (Z.div_mod_to_equations; lia). reflexivity.
Qed.

Lemma noSpace_appendInt2 (n : Z) (rest : string) :
  0 <= n <= 99 -> noSpace (appendInt n 2 ++ rest) = noSpace rest.
Proof.
  intros Hn. unfold appendInt.
  rewrite Z.abs_eq by lia.
  destruct (Z.ltb_spec n 0); [lia|].
  change (2 =? 2)%nat with true.
  destruct (Z.ltb_spec n 100); [|lia].
  cbv beta iota delta [andb].
  rewrite append_nil_l, !append_cons, append_nil_l.
  cbn [noSpace].
  rewrite !isSpace_digit_char by (Z.div_mod_to_equations; lia). reflexivity.
Qed.

(** A formatted date has no white space in it. *)
Lemma noSpace_time_Format_date (t : Time) :
  dayMin <= dayOf t <= dayMax -> noSpace (time_Format_date t) = true.
Proof.
  intros Hrange. unfold time_Format_date. fold (dayOf t).
  pose proof (civil_from_days_spec (dayOf t)) as Hspec.
  pose proof (civil_from_days_year (dayOf t) Hrange) as Hyear.
  destruct (civil_from_days (dayOf t)) as [[y m] d].
  destruct Hspec as (_ & Hm & Hd). pose proof (daysIn_le_31 m y).
  rewrite noSpace_appendInt4 by exact Hyear. rewrite append_cons, append_nil_l.
  cbn [noSpace]. change (isSpace "-") with false. cbv beta iota delta [negb andb].
  rewrite noSpace_appendInt2 by lia. rewrite append_cons, append_nil_l.
  cbn [noSpace]. change (isSpace "-") with false. cbv beta iota delta [negb andb].
  rewrite <- (append_empty_r (appendInt d 2)). rewrite noSpace_appendInt2 by lia.
  reflexivity.
Qed.

(** [strings.TrimSpace] takes the line feed off a line without white
    space and nothing else. *)
Lemma trimRight_line (s : string) (c : ascii) :
  noSpace s = true -> isSpace c = true ->
  trimRight (s ++ String c EmptyString) = s.
Proof.
  intros Hs Hc. induction s as [|a s IH].
  - rewrite append_nil_l. cbn [trimRight]. rewrite Hc. reflexivity.
  - cbn [noSpace] in Hs. apply andb_prop in Hs as [Ha Hs].
    rewrite append_cons. cbn [trimRight]. rewrite (IH Hs).
    destruct s; [|reflexivity].
    destruct (isSpace a); [discriminate|reflexivity].
Qed.

Lemma strings_TrimSpace_line (s : string) :
  noSpace s = true -> strings_TrimSpace (s ++ newline) = s.
Proof.
  intros Hs. unfold strings_TrimSpace, newline.
  destruct s as [|a s].
  - reflexivity.
  - rewrite append_cons. cbn [trimLeft]. pose proof Hs as Hs'.
    cbn [noSpace] in Hs'. apply andb_prop in Hs' as [Ha _].
    destruct (isSpace a); [discriminate|].
    rewrite <- append_cons. apply trimRight_line; [exact Hs|reflexivity].
Qed.

(** The date written to the file reads back, past the line feed, as the
    day it was formatted from. *)
Lemma leftOff_written (t : Time) :
  dayMin <= dayOf t <= dayMax ->
  leftOff (strings_TrimSpace (time_Format_date t ++ newline)) = dayOf t * nsPerDay.
Proof.
  intros Hrange. rewrite strings_TrimSpace_line by (apply noSpace_time_Format_date, Hrange).
  unfold leftOff. rewrite time_Parse_Format_date by exact Hrange. reflexivity.
Qed.

Section LoopProps.

Variable strconv_ParseFloat : string -> float64 * option error.
Variable env : Env.
Variable config : Config.

(** [log.Fatal] is the one way out of [doUpdate], with exit code 1. *)
Lemma doUpdate_exit_code (start_str end_str : string) (w w' : World) (st : status) :
  doUpdate strconv_ParseFloat env config start_str end_str w = (st, w') ->
  forall code : Z, st = Exited code -> code = 1.
Proof.
  unfold doUpdate. destruct (retry_Do _ _ w) as [[u|err|msg] w1];
    intros [= <- <-] code [=]; congruence.
Qed.

(** The program's [yesterday] is midnight of a day a four-digit year can
    name, whatever the clock reads. *)
Lemma yesterdayOf_aligned (now : Time) :
  yesterdayOf now = dayOf (yesterdayOf now) * nsPerDay
  /\ dayMin <= dayOf (yesterdayOf now) <= dayMax.
Proof. exact (leftOff_aligned (time_Format_date (Time_Add now (-24 * Hour)))). Qed.

(** The window in terms of [left_off] and [yesterday] as the program has
    them. *)
Lemma planTimes_yesterday (lastData : string) (now : Time) :
  planTimes lastData now =
  if leftOff lastData <? yesterdayOf now
  then Some (leftOff lastData + nsPerDay,
             Z.min (leftOff lastData + 15 * nsPerDay) (yesterdayOf now))
  else None.
Proof.
  unfold planTimes, Time_Before, Time_After, Time_Add.
  destruct (Z.ltb_spec (leftOff lastData) (yesterdayOf now)); [|reflexivity].
  cbv beta iota delta [negb]. rewrite day_24h.
  replace (14 * 24 * Hour) with (14 * nsPerDay) by (rewrite <- day_24h; lia).
  f_equal. f_equal.
  destruct (Z.ltb_spec (yesterdayOf now) (leftOff lastData + nsPerDay + 14 * nsPerDay));
    lia.
Qed.

(** The end of a window is midnight of a day a four-digit year can
    name. *)
Lemma window_end_aligned (lastData : string) (now : Time) :
  leftOff lastData < yesterdayOf now ->
  Z.min (leftOff lastData + 15 * nsPerDay) (yesterdayOf now)
  = dayOf (Z.min (leftOff lastData + 15 * nsPerDay) (yesterdayOf now)) * nsPerDay
  /\ dayMin <= dayOf (Z.min (leftOff lastData + 15 * nsPerDay) (yesterdayOf now)) <= dayMax
  /\ leftOff lastData + nsPerDay
     <= Z.min (leftOff lastData + 15 * nsPerDay) (yesterdayOf now).
Proof.
  intros Hlt.
  destruct (leftOff_aligned lastData) as [Hl Hlrange].
  destruct (yesterdayOf_aligned now) as [Hy Hyrange].
  set (a := dayOf (leftOff lastData)) in *. set (b := dayOf (yesterdayOf now)) in *.
  rewrite Hl, Hy in *.
  assert (Hab : a < b) by (clear - Hlt; unfold nsPerDay, Second in *; lia).
  replace (Z.min (a * nsPerDay + 15 * nsPerDay) (b * nsPerDay))
    with (Z.min (a + 15) b * nsPerDay) by (clear; unfold nsPerDay, Second; lia).
  rewrite dayOf_mul. split; [reflexivity|]. split; [lia|].
  clear - Hab. unfold nsPerDay, Second. lia.
Qed.

(** One turn of the loop, by its outcome. *)
Lemma main_iteration_outcome (now : Time) (w w' : World) (st : status) :
  main_iteration strconv_ParseFloat env config now w = (st, w') ->
  match st with
  | Running =>
      leftOff (strings_TrimSpace (readLastData w)) < yesterdayOf now
      /\ last_data_txt w'
         = match env_WriteFile env (calls isWriteLastData w) (last_data_txt w)
                   (time_Format_date
                      (Z.min (leftOff (strings_TrimSpace (readLastData w)) + 15 * nsPerDay)
                             (yesterdayOf now)) ++ newline) with
           | FileWritten =>
               Some (time_Format_date
                       (Z.min (leftOff (strings_TrimSpace (readLastData w))
                               + 15 * nsPerDay)
                              (yesterdayOf now)) ++ newline)
           | FileWriteFailed _ remains => remains
           end
  | Exited code =>
      last_data_txt w' = last_data_txt w
      /\ (code = 0 /\ w' = w
          /\ yesterdayOf now <= leftOff (strings_TrimSpace (readLastData w))
          \/ code = 1 /\ leftOff (strings_TrimSpace (readLastData w)) < yesterdayOf now)
  | Panicked _ => last_data_txt w' = last_data_txt w
  end.
Proof.
  unfold main_iteration, planWindow.
  set (lastData := strings_TrimSpace (readLastData w)).
  rewrite planTimes_yesterday.
  destruct (Z.ltb_spec (leftOff lastData) (yesterdayOf now)) as [Hlt|Hge].
  - destruct (doUpdate _ _ _ _ _ w) as [st1 w1] eqn:Hrun.
    pose proof (doUpdate_exit_code _ _ _ _ _ Hrun) as Hcode.
    apply doUpdate_file in Hrun.
    destruct st1 as [|code|msg]; intros [= <- <-].
    + split; [exact Hlt|]. apply Hrun.
    + split; [apply Hrun|]. right. split; [exact (Hcode code eq_refl)|exact Hlt].
    + apply Hrun.
  - intros [= <- <-]. split; [reflexivity|]. left. split; [reflexivity|].
    split; [reflexivity|exact Hge].
Qed.

(** A turn whose write of the file succeeded leaves in it the end of its
    window, and that end is what the file then reads as. *)
Lemma main_iteration_written (now : Time) (w w' : World) :
  main_iteration strconv_ParseFloat env config now w = (Running, w') ->
  env_WriteFile env (calls isWriteLastData w) (last_data_txt w)
    (time_Format_date
       (Z.min (leftOff (strings_TrimSpace (readLastData w)) + 15 * nsPerDay)
              (yesterdayOf now)) ++ newline) = FileWritten ->
  last_data_txt w'
  = Some (time_Format_date
            (Z.min (leftOff (strings_TrimSpace (readLastData w)) + 15 * nsPerDay)
                   (yesterdayOf now)) ++ newline)
  /\ leftOff (strings_TrimSpace (readLastData w'))
     = Z.min (leftOff (strings_TrimSpace (readLastData w)) + 15 * nsPerDay)
             (yesterdayOf now).
Proof.
  intros Hturn Hwrite.
  apply (main_iteration_outcome now w w' Running) in Hturn as (Hlt & Hfile).
  rewrite Hwrite in Hfile.
  destruct (window_end_aligned _ _ Hlt) as (Haligned & Hrange & _).
  split; [exact Hfile|].
  unfold readLastData. rewrite Hfile, leftOff_written by exact Hrange.
  symmetry. exact Haligned.
Qed.

(** X18. The watermark through the file.  A turn of the loop that ran
    [doUpdate] to its end planned a window that opens after the old
    watermark and closes no later than the program's [yesterday], never an
    empty or inverted one, and called [ioutil.WriteFile] with the formatted
    end of that window and a line feed.  When that call succeeded, the
    file holds them, and what the next turn reads from it, trimmed and
    parsed, is that end again: the next window opens on the day after this
    one closed.  When the call failed, its error is dropped and the file
    holds what the failed call left in it. *)
Theorem main_iteration_resumes_at_window_end (now : Time) (w w' : World) :
  main_iteration strconv_ParseFloat env config now w = (Running, w') ->
  exists start end_ : Time,
    planTimes (strings_TrimSpace (readLastData w)) now = Some (start, end_)
    /\ leftOff (strings_TrimSpace (readLastData w)) < start
    /\ start <= end_ <= yesterdayOf now
    /\ match env_WriteFile env (calls isWriteLastData w) (last_data_txt w)
               (time_Format_date end_ ++ newline) with
       | FileWritten =>
           last_data_txt w' = Some (time_Format_date end_ ++ newline)
           /\ leftOff (strings_TrimSpace (readLastData w')) = end_
       | FileWriteFailed _ remains => last_data_txt w' = remains
       end.
Proof.
  intros Hturn.
  pose proof (main_iteration_written now w w' Hturn) as Hwritten.
  apply (main_iteration_outcome now w w' Running) in Hturn as (Hlt & Hfile).
  rewrite planTimes_yesterday.
  destruct (window_end_aligned _ _ Hlt) as (_ & _ & Hstart).
  set (end_ := Z.min (leftOff (strings_TrimSpace (readLastData w)) + 15 * nsPerDay)
                     (yesterdayOf now)) in *.
  destruct (Z.ltb_spec (leftOff (strings_TrimSpace (readLastData w))) (yesterdayOf now))
    as [_|Hge]; [|lia].
  exists (leftOff (strings_TrimSpace (readLastData w)) + nsPerDay), end_.
  split; [reflexivity|]. split; [pose proof nsPerDay_pos; lia|].
  split; [split; [exact Hstart|unfold end_; lia]|].
  destruct (env_WriteFile env _ _ _) as [|err remains]; [|exact Hfile].
  apply Hwritten. reflexivity.
Qed.

(** X19. The loop ends, the file being written.  When every call of
    [ioutil.WriteFile] succeeds, and while the program's [yesterday] stays
    the same from turn to turn, a watermark at most [15 * n] days behind
    that [yesterday] makes the loop stop within [n + 1] turns.  When it
    stops with exit code 0 the watermark in the file is at that
    [yesterday] or past it; the only other exit code is 1. *)
Theorem main_loop_catches_up (clock : nat -> Time) (yesterday : Time) (turns : nat) :
  (forall (n : nat) (before : option string) (content : string),
      env_WriteFile env n before content = FileWritten) ->
  (forall k : nat, yesterdayOf (clock k) = yesterday) ->
  forall (k : nat) (w : World),
    yesterday - leftOff (strings_TrimSpace (readLastData w))
      <= Z.of_nat turns * (15 * nsPerDay) ->
    exists (st : status) (w' : World),
      main_loop strconv_ParseFloat (S turns) env config clock k w = (st, w')
      /\ match st with
         | Running => False
         | Exited code =>
             code = 0 /\ yesterday <= leftOff (strings_TrimSpace (readLastData w'))
             \/ code = 1
         | Panicked _ => True
         end.
Proof.
  intros Hwrites Hclock. induction turns as [|turns IH]; intros k w Hbehind.
  - cbn [main_loop].
    destruct (main_iteration _ _ _ (clock k) w) as [st w1] eqn:Hturn.
    apply main_iteration_outcome in Hturn. rewrite Hclock in Hturn.
    destruct st as [|code|msg].
    + destruct Hturn as (Hlt & _). lia.
    + exists (Exited code), w1. split; [reflexivity|].
      destruct Hturn as (_ & [(-> & -> & Hcaught)|(-> & _)]); [left|right]; auto.
    + exists (Panicked msg), w1. split; [reflexivity|exact I].
  - cbn [main_loop].
    destruct (main_iteration _ _ _ (clock k) w) as [st w1] eqn:Hturn.
    pose proof (main_iteration_outcome _ _ _ _ Hturn) as Hout.
    destruct st as [|code|msg].
    + destruct (main_iteration_written _ _ _ Hturn (Hwrites _ _ _)) as [_ Hnext].
      rewrite Hclock in Hnext, Hout. destruct Hout as (Hlt & _).
      apply IH. rewrite Hnext. clear - Hbehind Hlt. unfold nsPerDay, Second in *. lia.
    + rewrite Hclock in Hout. exists (Exited code), w1. split; [reflexivity|].
      destruct Hout as (_ & [(-> & -> & Hcaught)|(-> & _)]); [left|right]; auto.
    + exists (Panicked msg), w1. split; [reflexivity|exact I].
Qed.

End LoopProps.


(** The same attempt against a sink whose client is nil: the first write
    panics and so does the attempt. *)
Lemma nil_client_panics :
  (attempt parseDecimal nilClientEnv sampleConfig "2022-01-02" "2022-01-16"
           (mkWorld (Some ("2022-01-01" ++ newline)) [])).1
  = Panic "invalid memory address or nil pointer dereference"
  /\ (doUpdate parseDecimal nilClientEnv sampleConfig "2022-01-02" "2022-01-16"
               (mkWorld (Some ("2022-01-01" ++ newline)) [])).1
     = Panicked "invalid memory address or nil pointer dereference".
Proof. vm_compute. split; reflexivity. Qed.

(** The same window against a vendor whose metadata endpoint answers 500. *)
Lemma doUpdate_gives_up_after_ten_attempts_witness :
  exists w' : World,
    doUpdate parseDecimal metadataFailsEnv sampleConfig "2022-01-02" "2022-01-16"
             (mkWorld (Some ("2022-01-01" ++ newline)) []) = (Exited 1, w')
    /\ last_data_txt w' = Some ("2022-01-01" ++ newline)
    /\ calls isWriteLastData w' = 0%nat
    /\ calls isGetThermostats w' = 10%nat.
Proof.
  pose (w := mkWorld (Some ("2022-01-01" ++ newline)) []).
  pose (w' := (doUpdate parseDecimal metadataFailsEnv sampleConfig
                        "2022-01-02" "2022-01-16" w).2).
  assert (Hrun : doUpdate parseDecimal metadataFailsEnv sampleConfig
                          "2022-01-02" "2022-01-16" w
                 = (Exited 1, w')) by (vm_compute; reflexivity).
  destruct (doUpdate_gives_up_after_ten_attempts parseDecimal metadataFailsEnv sampleConfig
              "2022-01-02" "2022-01-16" w w' (Exited 1) Hrun)
    as (_ & _ & _ & Hfile & Hwrites & Hcalls).
  exists w'. auto.
Defined.

(** The same window against the sample vendor, sink and file system. *)
Lemma doUpdate_clean_sync_witness :
  exists (report_data : gmap string (list RuntimeReportDataEntry))
         (items : list (string * list RuntimeReportDataEntry)),
    fetchedReport sampleEnv sampleConfig 0 = Ok report_data
    /\ Permutation items (map_to_list report_data)
    /\ doUpdate parseDecimal sampleEnv sampleConfig "2022-01-02" "2022-01-16"
                (mkWorld (Some ("2022-01-01" ++ newline)) [])
       = (Running,
          mkWorld (Some ("2022-01-16" ++ newline))
                  (CallGetThermostats (metadataSelection sampleConfig)
                   :: CallRuntimeReport (configRequest sampleConfig)
                   :: map (writeEvent parseDecimal (thermostatMetadata sampleThermostats)
                                      sampleConfig) items
                   ++ [WriteLastData ("2022-01-16" ++ newline)])%list).
Proof.
  pose (w := mkWorld (Some ("2022-01-01" ++ newline)) []).
  pose (report_data := match fetchedReport sampleEnv sampleConfig 0 with
                       | Ok d => d
                       | _ => ∅
                       end).
  assert (Hfetch : fetchedReport sampleEnv sampleConfig (calls isRuntimeReport w)
                   = Ok report_data) by (vm_compute; reflexivity).
  destruct (doUpdate_clean_sync parseDecimal sampleEnv sampleConfig
              "2022-01-02" "2022-01-16" w sampleThermostats report_data eq_refl Hfetch
              (fun _ _ _ _ => eq_refl) eq_refl) as (items & Hperm & Hrun).
  exists report_data, items. split; [exact Hfetch|]. split; [exact Hperm|exact Hrun].
Defined.

(** The vendor whose metadata endpoint answers 500. *)
Lemma doUpdate_metadata_down_witness :
  doUpdate parseDecimal metadataFailsEnv sampleConfig "2022-01-02" "2022-01-16"
           (mkWorld (Some ("2022-01-01" ++ newline)) [])
  = (Exited 1,
     mkWorld (Some ("2022-01-01" ++ newline))
             (repeat (CallGetThermostats (metadataSelection sampleConfig)) 10)).
Proof.
  apply (doUpdate_metadata_down parseDecimal metadataFailsEnv sampleConfig
           "2022-01-02" "2022-01-16" (mkWorld (Some ("2022-01-01" ++ newline)) [])).
  intros k. exists serverError. reflexivity.
Defined.

(** The watermark 2022-01-01 at noon of March 1, 2022, the file being
    written: it then holds 2022-01-16. *)
Lemma main_iteration_resumes_at_window_end_witness :
  exists w' : World,
    main_iteration parseDecimal sampleEnv sampleConfig noon_2022_03_01
                   (mkWorld (Some ("2022-01-01" ++ newline)) []) = (Running, w')
    /\ planTimes "2022-01-01" noon_2022_03_01
       = Some (time_Date 2022 1 2 0 0 0 0, time_Date 2022 1 16 0 0 0 0)
    /\ last_data_txt w' = Some ("2022-01-16" ++ newline)
    /\ leftOff (strings_TrimSpace (readLastData w')) = time_Date 2022 1 16 0 0 0 0.
Proof.
  pose (w := mkWorld (Some ("2022-01-01" ++ newline)) []).
  pose (w' := (main_iteration parseDecimal sampleEnv sampleConfig noon_2022_03_01 w).2).
  assert (Hturn : main_iteration parseDecimal sampleEnv sampleConfig noon_2022_03_01 w
                  = (Running, w')) by (vm_compute; reflexivity).
  destruct (main_iteration_resumes_at_window_end parseDecimal sampleEnv sampleConfig
              noon_2022_03_01 w w' Hturn)
    as (start & end_ & Hplan & _ & _ & Hfile).
  assert (Hwindow : planTimes (strings_TrimSpace (readLastData w)) noon_2022_03_01
                    = Some (time_Date 2022 1 2 0 0 0 0, time_Date 2022 1 16 0 0 0 0))
    by (vm_compute; reflexivity).
  rewrite Hwindow in Hplan. injection Hplan as <- <-.
  cbn [sampleEnv env_WriteFile] in Hfile. destruct Hfile as [Hfile Hnext].
  exists w'. split; [exact Hturn|]. split; [exact Hwindow|].
  split; [exact Hfile|exact Hnext].
Defined.

(** The same turn in a working directory that cannot be written to, the
    report endpoint answering 500: [doUpdate] returns all the same, the
    file still holds 2022-01-01, and three turns later the loop is where it
    was, having planned the same window three times. *)
Lemma unwritable_directory_plans_again :
  (main_iteration parseDecimal readOnlyDirEnv sampleConfig noon_2022_03_01
                  (mkWorld (Some ("2022-01-01" ++ newline)) [])).1 = Running
  /\ last_data_txt
       (main_iteration parseDecimal readOnlyDirEnv sampleConfig noon_2022_03_01
                       (mkWorld (Some ("2022-01-01" ++ newline)) [])).2
     = Some ("2022-01-01" ++ newline)
  /\ (main_loop parseDecimal 3 readOnlyDirEnv sampleConfig (fun _ => noon_2022_03_01) 0
                (mkWorld (Some ("2022-01-01" ++ newline)) [])).1 = Running
  /\ List.filter isWriteLastData
       (trace (main_loop parseDecimal 3 readOnlyDirEnv sampleConfig
                         (fun _ => noon_2022_03_01) 0
                         (mkWorld (Some ("2022-01-01" ++ newline)) [])).2)
     = repeat (WriteLastData ("2022-01-16" ++ newline)) 3.
Proof. vm_compute. repeat split; reflexivity. Qed.

(** The same watermark, 58 days behind February 28, the file being
    written: five turns are enough. *)
Lemma main_loop_catches_up_witness :
  exists (st : status) (w' : World),
    main_loop parseDecimal 5 sampleEnv sampleConfig (fun _ => noon_2022_03_01) 0
              (mkWorld (Some ("2022-01-01" ++ newline)) []) = (st, w')
    /\ match st with
       | Running => False
       | Exited code =>
           code = 0
           /\ yesterdayOf noon_2022_03_01
              <= leftOff (strings_TrimSpace (readLastData w'))
           \/ code = 1
       | Panicked _ => True
       end.
Proof.
  apply (main_loop_catches_up parseDecimal sampleEnv sampleConfig
           (fun _ => noon_2022_03_01) (yesterdayOf noon_2022_03_01) 4).
  - intros n before content. reflexivity.
  - intros k. reflexivity.
  - vm_compute. discriminate.
Defined.
